(** * The bounded-time tiered scraping core of [searxngfinal.py]

    A shallow embedding of the query resolver ([get_domain],
    [is_blacklisted], [filter_urls], [scrape_searxng_local]), the tiered
    fetcher ([extract_smart_content] and its site extractors,
    [try_scrape_smart_with_better_timeout]), the parallel dispatcher
    ([scrape_batch_parallel]) and the phase sequencer
    ([scrape_multiple_sites_truly_parallel]).

    Python strings are modelled as [string] (sequences of 8-bit code
    units; every operation below agrees with Python's on ASCII text),
    Python [int] as [Z], exceptions as the [Raise] case of [outcome], and
    the network, the clock and the thread pool as explicit environment
    records that the functions consult where the source performs the
    corresponding call. *)

From Stdlib Require Import ZArith Ascii String List Bool Lia.
From stdpp Require Import base option list gmap strings.

Local Open Scope Z_scope.
Local Open Scope nat_scope.
Local Open Scope stdpp_scope.

(** ** Exceptions and fallible computations *)

(** The exception classes the modelled calls raise.  All of them derive
    from Python's [Exception]; [HTTPError] and [JSONDecodeError] also
    derive from [requests.exceptions.RequestException]. *)
Inductive exn : Type :=
  | ValueError
  | AttributeError
  | TypeError
  | HTTPError
  | ConnectionError
  | JSONDecodeError
  | OtherError (name : string).

Definition is_HTTPError (e : exn) : bool :=
  match e with HTTPError => true | _ => false end.

Definition is_RequestException (e : exn) : bool :=
  match e with
  | HTTPError | ConnectionError | JSONDecodeError => true
  | _ => false
  end.

Inductive outcome (A : Type) : Type :=
  | Ok (a : A)
  | Raise (e : exn).
Arguments Ok {A} a.
Arguments Raise {A} e.

(** Sequencing: an exception raised by [m] propagates. *)
Definition bind {A B} (m : outcome A) (k : A -> outcome B) : outcome B :=
  match m with Ok a => k a | Raise e => Raise e end.

Notation "'let!' x ':=' m 'in' k" := (bind m (fun x => k))
  (at level 10, x name, m at level 100, k at level 200).

Definition raises {A} (m : outcome A) : bool :=
  match m with Ok _ => false | Raise _ => true end.

(** ** String operations used by the source *)

Definition is_upper (c : ascii) : bool :=
  ((65 <=? N_of_ascii c) && (N_of_ascii c <=? 90))%N.
Definition is_lower (c : ascii) : bool :=
  ((97 <=? N_of_ascii c) && (N_of_ascii c <=? 122))%N.
Definition is_digit (c : ascii) : bool :=
  ((48 <=? N_of_ascii c) && (N_of_ascii c <=? 57))%N.
Definition is_ascii_alpha (c : ascii) : bool := is_upper c || is_lower c.

Definition lower_char (c : ascii) : ascii :=
  if is_upper c then ascii_of_N (N_of_ascii c + 32) else c.

(** [s.lower()] *)
Fixpoint str_lower (s : string) : string :=
  match s with
  | EmptyString => EmptyString
  | String c s' => String (lower_char c) (str_lower s')
  end.

Fixpoint str_drop (n : nat) (s : string) : string :=
  match n, s with
  | O, _ => s
  | S _, EmptyString => EmptyString
  | S n', String _ s' => str_drop n' s'
  end.

Fixpoint str_take (n : nat) (s : string) : string :=
  match n, s with
  | O, _ => EmptyString
  | S _, EmptyString => EmptyString
  | S n', String c s' => String c (str_take n' s')
  end.

(** [s[a:b]] for [0 <= a], [0 <= b] *)
Definition str_slice (a b : nat) (s : string) : string :=
  str_take (b - a) (str_drop a s).

(** [sub in s] *)
Fixpoint str_contains (sub s : string) : bool :=
  String.prefix sub s ||
  match s with
  | EmptyString => false
  | String _ s' => str_contains sub s'
  end.

Fixpoint str_has (c : ascii) (s : string) : bool :=
  match s with
  | EmptyString => false
  | String d s' => Ascii.eqb c d || str_has c s'
  end.

Fixpoint str_forall (p : ascii -> bool) (s : string) : bool :=
  match s with
  | EmptyString => true
  | String c s' => p c && str_forall p s'
  end.

Fixpoint str_remove_char (c : ascii) (s : string) : string :=
  match s with
  | EmptyString => EmptyString
  | String d s' =>
      if Ascii.eqb c d then str_remove_char c s'
      else String d (str_remove_char c s')
  end.

(** [s.find(c, start)]; [None] stands for Python's [-1]. *)
Fixpoint str_find_from (c : ascii) (start : nat) (s : string) : option nat :=
  match s with
  | EmptyString => None
  | String d s' =>
      match start with
      | O => if Ascii.eqb c d then Some O else S <$> str_find_from c O s'
      | S k => S <$> str_find_from c k s'
      end
  end.

(** [s.replace(old, new)] for a non-empty [old]: occurrences are replaced
    from left to right and do not overlap.  [skip] counts the characters
    of a matched occurrence that remain to be passed over. *)
Fixpoint replace_from (old new : string) (skip : nat) (s : string) : string :=
  match s with
  | EmptyString => EmptyString
  | String c s' =>
      match skip with
      | S k => replace_from old new k s'
      | O =>
          if String.prefix old s
          then new +:+ replace_from old new (String.length old - 1) s'
          else String c (replace_from old new 0 s')
      end
  end.

Definition str_replace (old new s : string) : string :=
  replace_from old new 0 s.

(** ** [urllib.parse.urlparse(url).netloc] *)

(** The two validations of [urlsplit] that reach into other library
    modules ([ipaddress], [unicodedata]) are kept abstract: each tells
    whether the check passes ([true]) or raises [ValueError] ([false]). *)
Class Urllib := {
  (** [_check_bracketed_netloc], called on a netloc that has both brackets *)
  check_bracketed_netloc : string -> bool;
  (** [_checknetloc], on a non-empty netloc that is not all ASCII *)
  checknetloc_nfkc : string -> bool
}.

Definition scheme_char (c : ascii) : bool :=
  is_ascii_alpha c || is_digit c ||
  Ascii.eqb c "+" || Ascii.eqb c "-" || Ascii.eqb c ".".

Definition c0_control_or_space (c : ascii) : bool := (N_of_ascii c <=? 32)%N.
Definition char_isascii (c : ascii) : bool := (N_of_ascii c <? 128)%N.

Fixpoint lstrip_c0 (s : string) : string :=
  match s with
  | EmptyString => EmptyString
  | String c s' => if c0_control_or_space c then lstrip_c0 s' else s
  end.

(** [_UNSAFE_URL_BYTES_TO_REMOVE = ['\t', '\r', '\n']] *)
Definition UNSAFE_URL_BYTES_TO_REMOVE : list ascii :=
  [ascii_of_N 9; ascii_of_N 13; ascii_of_N 10].

(** [for b in _UNSAFE_URL_BYTES_TO_REMOVE: url = url.replace(b, "")] *)
Definition sanitize (url : string) : string :=
  fold_left (fun u b => str_remove_char b u) UNSAFE_URL_BYTES_TO_REMOVE url.

(** [_splitnetloc(url, start)]: the netloc ends at the earliest of the
    delimiters '/', '?' and '#' found at or after [start]. *)
Definition splitnetloc (url : string) (start : nat) : string * string :=
  let delim :=
    fold_left
      (fun delim c =>
         match str_find_from c start url with
         | Some wdelim => Nat.min delim wdelim
         | None => delim
         end)
      ["/"; "?"; "#"]%char (String.length url) in
  (str_slice start delim url, str_drop delim url).

(** The part of [urlsplit] that follows the scheme: [url[i+1:]] when a
    scheme is recognised before the first ':', the URL itself otherwise. *)
Definition strip_scheme (url : string) : string :=
  match str_find_from ":" 0 url, url with
  | Some i, String c0 _ =>
      if (0 <? i) && char_isascii c0 && is_ascii_alpha c0
         && str_forall scheme_char (str_take i url)
      then str_drop (i + 1) url
      else url
  | _, _ => url
  end.

Section Resolver.
Context `{!Urllib}.

(** [urlparse(url).netloc], or the [ValueError] that [urlsplit] raises. *)
Definition urlparse_netloc (url : string) : outcome string :=
  let url := lstrip_c0 url in
  let url := sanitize url in
  let url := strip_scheme url in
  if String.prefix "//" url then
    let netloc := fst (splitnetloc url 2) in
    if (str_has "[" netloc && negb (str_has "]" netloc))
       || (str_has "]" netloc && negb (str_has "[" netloc))
    then Raise ValueError
    else if str_has "[" netloc && str_has "]" netloc
            && negb (check_bracketed_netloc netloc)
    then Raise ValueError
    else if negb (String.eqb netloc "") && negb (str_forall char_isascii netloc)
            && negb (checknetloc_nfkc netloc)
    then Raise ValueError
    else Ok netloc
  else Ok "".

(** [get_domain(url)] *)
Definition get_domain (url : string) : outcome string :=
  let! netloc := urlparse_netloc url in
  Ok (str_replace "www." "" (str_lower netloc)).

(** [BLACKLIST_DOMAINS]: a set literal in the source; only membership
    tests run over it, so its iteration order is immaterial. *)
Definition BLACKLIST_DOMAINS : list string :=
  [ "lenovo.com"; "daraz.com.bd"; "reddit"; "mobiledokan.com"; "oracle.com";
    "salesforce.com"; "microsoft.com"; "adobe.com"; "sap.com"; "workday.com";
    "servicenow.com"; "tableau.com"; "zoom.us"; "webex.com";
    "gotomeeting.com" ].

Definition domain_blacklisted (domain : string) : bool :=
  existsb (fun blacklisted => str_contains blacklisted domain)
          BLACKLIST_DOMAINS.

(** [is_blacklisted(url)] *)
Definition is_blacklisted (url : string) : outcome bool :=
  let! domain := get_domain url in
  Ok (domain_blacklisted domain).

(** The loop of [filter_urls], with its two accumulators. *)
Fixpoint filter_urls_loop (urls : list string) (seen_domains : gset string)
    (filtered_urls : list string) : outcome (list string) :=
  match urls with
  | [] => Ok filtered_urls
  | url :: rest =>
      let! domain := get_domain url in
      if decide (domain ∈ seen_domains)
      then filter_urls_loop rest seen_domains filtered_urls
      else
        let! blacklisted := is_blacklisted url in
        if blacklisted
        then filter_urls_loop rest seen_domains filtered_urls
        else filter_urls_loop rest ({[domain]} ∪ seen_domains)
                              (filtered_urls ++ [url])
  end.

(** [filter_urls(urls)] *)
Definition filter_urls (urls : list string) : outcome (list string) :=
  filter_urls_loop urls ∅ [].

End Resolver.

(** ** Python values

    The values [response.json()] yields and the dictionaries the
    extractors build.  A [PDict] lists its items in insertion order with
    distinct keys; a float is [m * 2^e]. *)
#[warnings="-register-all"]
Inductive pyval : Type :=
  | PNone
  | PBool (b : bool)
  | PInt (z : Z)
  | PFloat (m e : Z)
  | PStr (s : string)
  | PList (l : list pyval)
  | PDict (d : list (string * pyval)).

(** [bool(v)] *)
Definition truthy (v : pyval) : bool :=
  match v with
  | PNone => false
  | PBool b => b
  | PInt z => negb (z =? 0)%Z
  | PFloat m _ => negb (m =? 0)%Z
  | PStr s => negb (String.eqb s "")
  | PList l => negb (length l =? 0)
  | PDict d => negb (length d =? 0)
  end.

Fixpoint assoc_get (key : string) (d : list (string * pyval)) : option pyval :=
  match d with
  | [] => None
  | (k, v) :: d' => if String.eqb k key then Some v else assoc_get key d'
  end.

(** [d[key] = v] *)
Fixpoint assoc_set (key : string) (v : pyval) (d : list (string * pyval))
  : list (string * pyval) :=
  match d with
  | [] => [(key, v)]
  | (k, w) :: d' =>
      if String.eqb k key then (k, v) :: d' else (k, w) :: assoc_set key v d'
  end.

(** [v.get(key, default)]; only a dict has the method. *)
Definition py_get (v : pyval) (key : string) (fallback : pyval)
  : outcome pyval :=
  match v with
  | PDict d => Ok (default fallback (assoc_get key d))
  | _ => Raise AttributeError
  end.

(** [iter(v)], as a [for] loop consumes it. *)
Definition py_iter (v : pyval) : outcome (list pyval) :=
  match v with
  | PList l => Ok l
  | PDict d => Ok (map (fun kv => PStr (fst kv)) d)
  | PStr s => Ok (map (fun c => PStr (String c EmptyString))
                      (list_ascii_of_string s))
  | _ => Raise TypeError
  end.

(** [l[:n]] for a Python integer [n], which counts from the end when
    negative. *)
Definition py_take {A} (n : Z) (l : list A) : list A :=
  if (0 <=? n)%Z then take (Z.to_nat n) l
  else take (length l - Z.to_nat (- n)) l.

(** ** [clean_text] *)

(** [c.isspace()] on ASCII *)
Definition is_space (c : ascii) : bool :=
  let n := N_of_ascii c in
  (((9 <=? n) && (n <=? 13)) || ((28 <=? n) && (n <=? 32)))%N.

Fixpoint lstrip (s : string) : string :=
  match s with
  | EmptyString => EmptyString
  | String c s' => if is_space c then lstrip s' else s
  end.

Fixpoint rstrip (s : string) : string :=
  match s with
  | EmptyString => EmptyString
  | String c s' =>
      let r := rstrip s' in
      if is_space c && String.eqb r "" then EmptyString else String c r
  end.

(** [s.strip()] *)
Definition str_strip (s : string) : string := rstrip (lstrip s).

(** [re.sub(r'\s+', ' ', s)]; [prev] tells that the previous character
    belonged to the run of whitespace being collapsed. *)
Fixpoint collapse_spaces (prev : bool) (s : string) : string :=
  match s with
  | EmptyString => EmptyString
  | String c s' =>
      if is_space c
      then if prev then collapse_spaces true s'
           else String " " (collapse_spaces true s')
      else String c (collapse_spaces false s')
  end.

Definition CRUFT : list string :=
  ["cookie"; "privacy policy"; "terms of service"; "subscribe"; "newsletter"].

(** [re.sub('(w1|w2|...)', '', s, flags=re.IGNORECASE)] for literal
    lower-case alternatives: at each position the first alternative that
    matches is removed. *)
Fixpoint remove_words (words : list string) (skip : nat) (s : string)
  : string :=
  match s with
  | EmptyString => EmptyString
  | String c s' =>
      match skip with
      | S k => remove_words words k s'
      | O =>
          match List.find (fun w => String.prefix w (str_lower s)) words with
          | Some w => remove_words words (String.length w - 1) s'
          | None => String c (remove_words words 0 s')
          end
      end
  end.

(** [clean_text(text)] *)
Definition clean_text (text : string) : string :=
  if String.eqb text "" then ""
  else
    let text := collapse_spaces false (str_strip text) in
    remove_words CRUFT 0 text.

(** [text[:n] + "..." if len(text) > n else text] *)
Definition truncate (n : nat) (text : string) : string :=
  if n <? String.length text then str_take n text +:+ "..." else text.

(** [sep.join(parts)] *)
Fixpoint str_join (sep : string) (parts : list string) : string :=
  match parts with
  | [] => ""
  | [p] => p
  | p :: rest => p +:+ sep +:+ str_join sep rest
  end.

(** ** The search backend and [scrape_searxng_local] *)

(** What [requests.post] meets: no reply at all (connection refused,
    timeout; a [RequestException]), or a reply with a status code and a
    body that [response.json()] decodes or rejects. *)
Inductive http_reply : Type :=
  | NoReply (e : exn)
  | Reply (status : Z) (json : option pyval).

(** [requests.post(...)] *)
Definition requests_post (r : http_reply) : outcome (Z * option pyval) :=
  match r with
  | NoReply e => Raise e
  | Reply status json => Ok (status, json)
  end.

(** [response.raise_for_status()] *)
Definition raise_for_status (status : Z) : outcome unit :=
  if ((400 <=? status) && (status <? 600))%Z then Raise HTTPError else Ok tt.

(** [response.json()] *)
Definition response_json (json : option pyval) : outcome pyval :=
  match json with
  | Some v => Ok v
  | None => Raise JSONDecodeError
  end.

(** One entry of the resolver's output:
    [{'title': title, 'href': result_url, 'body': content}]. *)
Record search_hit : Type := SearchHit {
  title : pyval;
  href : string;
  body : pyval
}.

(** [urlparse] accepts a [str]; on any other truthy value its argument
    coercion fails with [AttributeError]. *)
Definition as_url (v : pyval) : outcome string :=
  match v with
  | PStr s => Ok s
  | _ => Raise AttributeError
  end.

Section Search.
Context `{!Urllib}.

(** The [for result in search_results['results']] loop. *)
Fixpoint searxng_loop (items : list pyval) (max_results : Z)
    (results : list search_hit) (seen_domains : gset string)
  : outcome (list search_hit) :=
  match items with
  | [] => Ok results
  | result :: rest =>
      if (max_results <=? Z.of_nat (length results))%Z then Ok results
      else
        let! result_url := py_get result "url" (PStr "") in
        if negb (truthy result_url)
        then searxng_loop rest max_results results seen_domains
        else
          let! url := as_url result_url in
          let! blacklisted := is_blacklisted url in
          if blacklisted
          then searxng_loop rest max_results results seen_domains
          else
            let! domain := get_domain url in
            if decide (domain ∈ seen_domains)
            then searxng_loop rest max_results results seen_domains
            else
              let! title := py_get result "title"
                              (PStr "No title available") in
              let! content := py_get result "content"
                                (PStr "No description available") in
              searxng_loop rest max_results
                (results ++ [SearchHit title url content])
                ({[domain]} ∪ seen_domains)
  end.

(** The body of the [try] block. *)
Definition searxng_try (backend : string -> http_reply) (query : string)
    (max_results : Z) : outcome (list search_hit) :=
  let! response := requests_post (backend query) in
  let! _ := raise_for_status (fst response) in
  let! search_results := response_json (snd response) in
  let! found := py_get search_results "results" PNone in
  if negb (truthy found) then Ok []
  else
    let! items := py_iter found in
    searxng_loop items max_results [] ∅.

(** [scrape_searxng_local(query, max_results)]: the three handlers
    [except HTTPError], [except RequestException] and [except Exception]
    each return the empty list. *)
Definition scrape_searxng_local (backend : string -> http_reply)
    (query : string) (max_results : Z) : outcome (list search_hit) :=
  match searxng_try backend query max_results with
  | Ok results => Ok results
  | Raise e =>
      if is_HTTPError e then Ok []
      else if is_RequestException e then Ok []
      else Ok []
  end.

End Search.

(** ** The document library: BeautifulSoup over lxml, and [re]

    The parsed document and its tags are the library's own objects; the
    source reaches them only through the calls below, which are therefore
    the interface the extractors are written against.  A tag is a handle
    into the document it was found in, so every call names that document. *)

(** What [find]/[find_all] and [select]/[select_one] are asked for. *)
Inductive query : Type :=
  | ByName (name : string)                  (* find('h1') *)
  | ById (id : string)                      (* find(id="productTitle") *)
  | ByNameAttr (name attr value : string)   (* find('meta', attrs={...}) *)
  | Css (selector : string).                (* select("h1, h2, h3") *)

Class Bs4 := {
  soup_tree : Type;
  tag : Type;
  (** [BeautifulSoup(html, "lxml")] *)
  parse_lxml : string -> soup_tree;
  (** [find_all]/[select] below the given tag, or in the whole document *)
  find_all : soup_tree -> option tag -> query -> list tag;
  (** [tag.get_text()] *)
  get_text : soup_tree -> tag -> string;
  (** [tag.get(attr)] *)
  get_attr : soup_tree -> tag -> string -> option string;
  (** [tag.name] *)
  tag_name : soup_tree -> tag -> string;
  (** the tags [find_next_sibling()] visits when called repeatedly *)
  next_siblings : soup_tree -> tag -> list tag;
  (** [tag.decompose()]: the document without that tag *)
  decompose : soup_tree -> tag -> soup_tree
}.

Class Regex := {
  (** [re.findall(pattern, text, re.IGNORECASE)] for a pattern with one
      capturing group *)
  re_findall : string -> string -> list string
}.

(** [for selector in selectors: x = f(selector); if x: ...; break] *)
Fixpoint first_match {A} (f : string -> option A) (selectors : list string)
  : option A :=
  match selectors with
  | [] => None
  | selector :: rest =>
      match f selector with
      | Some x => Some x
      | None => first_match f rest
      end
  end.

(** [d[key] = v] on a dictionary value *)
Definition set_item (key : string) (v : pyval) (d : pyval) : pyval :=
  match d with
  | PDict items => PDict (assoc_set key v items)
  | _ => d
  end.

(** [d.get(key)] with the default [None], for a dictionary the code built *)
Definition get_item (key : string) (d : pyval) : pyval :=
  match d with
  | PDict items => default PNone (assoc_get key items)
  | _ => PNone
  end.

Definition str_of (v : pyval) : string :=
  match v with PStr s => s | _ => "" end.

Section Extraction.
Context `{!Urllib} `{!Bs4} `{!Regex}.

(** The soup objects alive in the process; a soup is referred to by its
    position, as the Python code refers to the object. *)
Definition heap : Type := list soup_tree.

Definition deref (h : heap) (soup : nat) : soup_tree :=
  default (parse_lxml "") (h !! soup).

(** [soup.find(...)], [tag.find(...)] *)
Definition find (t : soup_tree) (scope : option tag) (q : query)
  : option tag := head (find_all t scope q).

(** [soup.select(css)], [tag.select(css)] *)
Definition select (t : soup_tree) (scope : option tag) (css : string)
  : list tag := find_all t scope (Css css).

(** [soup.select_one(css)] *)
Definition select_one (t : soup_tree) (css : string) : option tag :=
  head (select t None css).

(** [clean_text(tag.get_text())] *)
Definition cleaned (t : soup_tree) (e : tag) : string :=
  clean_text (get_text t e).

(** [result[key] = clean_text(x.get_text())] when [x] was found *)
Definition set_text_if (t : soup_tree) (key : string) (found : option tag)
    (post : string -> string) (result : pyval) : pyval :=
  match found with
  | Some x => set_item key (PStr (post (cleaned t x))) result
  | None => result
  end.

(** *** [extract_amazon_smart] *)

Definition IMPORTANT_SPECS : list string :=
  ["Brand"; "Model"; "Color"; "Size"; "Weight"; "Material"; "Dimensions"].

(** The rows of one specification table, folded into [result["specs"]]. *)
Definition amazon_spec_rows (t : soup_tree) (table : tag)
    (specs : list (string * pyval)) : list (string * pyval) :=
  fold_left
    (fun specs row =>
       match find t (Some row) (ByName "th"),
             find t (Some row) (ByName "td") with
       | Some th, Some td =>
           let spec_name := cleaned t th in
           if existsb (fun imp_spec =>
                         str_contains (str_lower imp_spec)
                                      (str_lower spec_name))
                      IMPORTANT_SPECS
           then assoc_set spec_name (PStr (cleaned t td)) specs
           else specs
       | _, _ => specs
       end)
    (find_all t (Some table) (ByName "tr")) specs.

Definition extract_amazon_smart (h : heap) (soup : nat) (url : string)
  : pyval :=
  let t := deref h soup in
  let result := PDict
    [ ("url", PStr url); ("domain", PStr "amazon"); ("type", PStr "product");
      ("title", PStr ""); ("price", PStr ""); ("rating", PStr "");
      ("key_features", PList []); ("description", PStr "");
      ("specs", PDict []) ] in
  let result :=
    set_text_if t "title" (find t None (ById "productTitle")) id result in
  let result :=
    set_text_if t "price"
      (first_match (select_one t)
         [ ".a-price-whole"; ".a-price .a-offscreen";
           "#priceblock_dealprice"; "#priceblock_ourprice" ])
      id result in
  let result :=
    set_text_if t "rating"
      (select_one t "[data-hook='average-star-rating'] .a-icon-alt")
      id result in
  let bullets := select t None "#feature-bullets ul li span" in
  let result :=
    match bullets with
    | [] => result
    | _ =>
        set_item "key_features"
          (PList (map PStr
                    (List.filter (fun s => negb (String.eqb s ""))
                       (map (cleaned t) (take 5 bullets)))))
          result
    end in
  let result :=
    set_text_if t "description" (find t None (ById "productDescription"))
      (truncate 500) result in
  let specs :=
    fold_left
      (fun specs table_id =>
         match find t None (ById table_id) with
         | Some table => amazon_spec_rows t table specs
         | None => specs
         end)
      [ "productDetails_techSpec_section_1";
        "productDetails_detailBullets_sections1" ] [] in
  set_item "specs" (PDict specs) result.

(** *** [extract_forum_smart] *)

Definition extract_forum_smart (h : heap) (soup : nat) (url : string)
  : outcome pyval :=
  let t := deref h soup in
  let! domain := get_domain url in
  let result := PDict
    [ ("url", PStr url); ("domain", PStr domain); ("type", PStr "forum");
      ("title", PStr ""); ("question", PStr ""); ("top_answers", PList []);
      ("tags", PList []) ] in
  let result :=
    set_text_if t "title"
      (first_match (select_one t)
         ["h1"; ".title"; "[data-testid='post-content'] h1"])
      id result in
  let result :=
    set_text_if t "question"
      (first_match (select_one t)
         [ ".post-text"; "[data-testid='post-content'] div";
           ".usertext-body" ])
      (truncate 800) result in
  let result :=
    match first_match
            (fun selector =>
               match select t None selector with
               | [] => None
               | answers => Some answers
               end)
            [".answer .post-text"; ".comment-body"; ".reply .usertext-body"]
    with
    | Some answers =>
        set_item "top_answers"
          (PList (map (fun ans => PStr (truncate 400 (cleaned t ans)))
                      (take 2 answers)))
          result
    | None => result
    end in
  Ok result.

(** *** [extract_wiki_smart] *)

Definition extract_wiki_smart (h : heap) (soup : nat) (url : string)
  : outcome pyval :=
  let t := deref h soup in
  let! domain := get_domain url in
  let result := PDict
    [ ("url", PStr url); ("domain", PStr domain);
      ("type", PStr "encyclopedia"); ("title", PStr "");
      ("summary", PStr ""); ("key_sections", PList []) ] in
  let result := set_text_if t "title" (find t None (ByName "h1")) id result in
  let result :=
    set_text_if t "summary" (select_one t "p") (truncate 600) result in
  let sections := select t None "h2" in
  let key_sections :=
    List.filter
      (fun section_title =>
         negb (String.eqb section_title "")
         && negb (existsb (fun skip =>
                             str_contains skip (str_lower section_title))
                          ["reference"; "external"; "see also"]))
      (map (cleaned t) (take 3 sections)) in
  Ok (set_item "key_sections" (PList (map PStr key_sections)) result).

(** *** [extract_video_smart] *)

Definition extract_video_smart (h : heap) (soup : nat) (url : string)
  : outcome pyval :=
  let t := deref h soup in
  let! domain := get_domain url in
  let result := PDict
    [ ("url", PStr url); ("domain", PStr domain); ("type", PStr "video");
      ("title", PStr ""); ("description", PStr ""); ("duration", PStr "");
      ("views", PStr "") ] in
  let result :=
    set_text_if t "title"
      (first_match (select_one t) ["h1"; ".title"; "[name='title']"])
      id result in
  let result :=
    set_text_if t "description"
      (first_match (select_one t)
         [".description"; "[name='description']"; ".content"])
      (truncate 300) result in
  Ok result.

End Extraction.

(** *** [extract_generic_smart] *)

Definition CONTENT_SELECTORS : list string :=
  [ "article"; "main"; ".content"; ".post-content"; ".entry-content";
    ".article-content"; "#content"; ".main-content"; ".page-content";
    ".site-content" ].

Definition UNWANTED_SELECTOR : string :=
  "nav, footer, aside, .nav, .footer, .sidebar, .menu, .header, .advertisement, .ads".

Definition SKIP_WORDS : list string :=
  ["cookie"; "privacy"; "terms"; "subscribe"; "newsletter"; "login";
   "register"].

Definition DETAIL_PATTERNS : list string :=
  [ "(?:price|cost|‚Çπ|rs\.?|usd|\$)\s*:?\s*([0-9,]+(?:\.[0-9]+)?)";
    "(?:mileage|efficiency|mpg|kmpl)\s*:?\s*([0-9]+(?:\.[0-9]+)?)";
    "(?:power|hp|bhp|kw)\s*:?\s*([0-9]+(?:\.[0-9]+)?)";
    "(?:engine|displacement|cc)\s*:?\s*([0-9]+(?:\.[0-9]+)?)";
    "(?:weight|mass|kg|pounds)\s*:?\s*([0-9]+(?:\.[0-9]+)?)";
    "(?:features?|specifications?|specs?)\s*:?\s*([a-zA-Z0-9\s,.-]+)" ].

(** [s.split('|')[0]] *)
Fixpoint before_bar (s : string) : string :=
  match s with
  | EmptyString => EmptyString
  | String c s' => if Ascii.eqb c "|" then EmptyString
                   else String c (before_bar s')
  end.

(** [pattern.split('|')[0].replace('(?:', '').replace('\\', '')] *)
Definition detail_type (pattern : string) : string :=
  str_replace "\" "" (str_replace "(?:" "" (before_bar pattern)).

Section Generic.
Context `{!Urllib} `{!Bs4} `{!Regex}.

(** The [while current and ...] walk over the siblings that follow a
    heading. *)
Fixpoint collect_section (t : soup_tree) (siblings : list tag)
    (section_content : list string) : list string :=
  match siblings with
  | [] => section_content
  | current :: rest =>
      if existsb (String.eqb (tag_name t current)) ["h1"; "h2"; "h3"]
         || negb (length section_content <? 3)
      then section_content
      else
        let section_content :=
          if existsb (String.eqb (tag_name t current)) ["p"; "div"; "ul"; "ol"]
          then
            let text := cleaned t current in
            if 20 <? String.length text then section_content ++ [text]
            else section_content
          else section_content in
        collect_section t rest section_content
  end.

(** The entry of [key_sections] that a heading contributes, if any. *)
Definition key_section (t : soup_tree) (heading : tag) : option pyval :=
  let heading_text := cleaned t heading in
  if negb (String.eqb heading_text "") && (3 <? String.length heading_text)
  then
    match collect_section t (next_siblings t heading) [] with
    | [] => None
    | section_content =>
        Some (PDict
                [ ("heading", PStr heading_text);
                  ("content",
                   PStr (truncate 300 (str_join " " section_content))) ])
    end
  else None.

(** The rows gathered from the first two tables. *)
Definition table_rows (t : soup_tree) : list string :=
  flat_map
    (fun table =>
       flat_map
         (fun row =>
            let cells := select t (Some row) "td, th" in
            if 2 <=? length cells
            then
              let row_text := str_join " | " (map (cleaned t) cells) in
              if 10 <? String.length row_text then [row_text] else []
            else [])
         (take 5 (select t (Some table) "tr")))
    (take 2 (select t None "table")).

(** The body of [extract_generic_smart] once [get_domain(url)] has
    returned: the dictionary it builds from the soup's document [t], and
    the document as the body leaves it. *)
Definition generic_fields (t : soup_tree) (url domain : string)
  : pyval * soup_tree :=
  let result := PDict
    [ ("url", PStr url); ("domain", PStr domain);
      ("type", PStr "generic"); ("title", PStr "");
      ("main_content", PStr ""); ("key_sections", PList []);
      ("important_details", PList []); ("summary", PStr "") ] in
  let result :=
    set_text_if t "title" (find t None (ByName "title")) id result in
  let result :=
    match find t None (ByNameAttr "meta" "name" "description") with
    | Some meta_desc =>
        set_item "summary"
          (PStr (clean_text (default "" (get_attr t meta_desc "content"))))
          result
    | None => result
    end in
  (* main content areas *)
  let main_content_found :=
    first_match
      (fun selector =>
         match select_one t selector with
         | Some content =>
             let content_text := cleaned t content in
             if 100 <? String.length content_text
             then Some content_text else None
         | None => None
         end)
      CONTENT_SELECTORS in
  let '(result, t) :=
    match main_content_found with
    | Some content_text =>
        (set_item "main_content" (PStr (truncate 1500 content_text))
                  result, t)
    | None =>
        (* the navigation, footer and sidebar tags are removed from
           the soup itself *)
        let t := fold_left decompose (select t None UNWANTED_SELECTOR) t in
        let content_elements :=
          select t None
            "p, li, div.description, div.summary, .info, .details" in
        let content_texts :=
          List.filter
            (fun text =>
               (20 <? String.length text)
               && negb (existsb (fun skip =>
                                   str_contains skip (str_lower text))
                                SKIP_WORDS))
            (map (cleaned t) content_elements) in
        match content_texts with
        | [] => (result, t)
        | _ =>
            (set_item "main_content"
               (PStr (truncate 1500 (str_join " " content_texts)))
               result, t)
        end
    end in
  (* key sections *)
  let headings := select t None "h1, h2, h3" in
  let key_sections := omap (key_section t) (take 6 headings) in
  let result := set_item "key_sections" (PList key_sections) result in
  (* important details *)
  let main_content := str_of (get_item "main_content" result) in
  let full_text :=
    main_content +:+ " " +:+
    str_join " " (map (fun section => str_of (get_item "content" section))
                      key_sections) in
  let details :=
    flat_map
      (fun pattern =>
         match re_findall pattern full_text with
         | [] => []
         | m :: _ => [detail_type pattern +:+ ": " +:+ m]
         end)
      DETAIL_PATTERNS in
  let details :=
    if String.length main_content <? 200
    then details ++ take 10 (table_rows t)
    else details in
  let result :=
    set_item "important_details" (PList (map PStr details)) result in
  (result, t).

Definition extract_generic_smart (h : heap) (soup : nat) (url : string)
  : outcome pyval * heap :=
  match get_domain url with
  | Raise e => (Raise e, h)
  | Ok domain =>
      let '(result, t) := generic_fields (deref h soup) url domain in
      (Ok result, <[soup := t]> h)
  end.

(** *** [extract_smart_content] *)

(** [extract_smart_content(html, url)].  The call parses [html] into a
    soup object of its own and hands that object to one extractor.  The
    dictionary the source fills before it dispatches is never returned;
    of its construction only [get_domain(url)], which may raise, is
    observable. *)
Definition extract_smart_content (html url : string) (h : heap)
  : outcome pyval * heap :=
  let soup := length h in
  let h := h ++ [parse_lxml html] in
  match get_domain url with
  | Raise e => (Raise e, h)
  | Ok _ =>
      if str_contains "amazon." url
      then (Ok (extract_amazon_smart h soup url), h)
      else if existsb (fun domain => str_contains domain url)
                      ["reddit.com"; "stackoverflow.com"; "github.com"]
      then (extract_forum_smart h soup url, h)
      else if existsb (fun domain => str_contains domain url)
                      ["wikipedia.org"; "britannica.com"]
      then (extract_wiki_smart h soup url, h)
      else if existsb (fun domain => str_contains domain url)
                      ["youtube.com"; "vimeo.com"]
      then (extract_video_smart h soup url, h)
      else extract_generic_smart h soup url
  end.

End Generic.

(** ** The tiered fetcher: [try_scrape_smart_with_better_timeout] *)

(** [requests.get]'s response: [resp.ok] and [resp.text]. *)
Record response : Type := Response {
  status_code : Z;
  text : string
}.

(** [resp.ok]: whether [resp.raise_for_status()] would pass, that is,
    whether the status lies outside 400-599. *)
Definition resp_ok (resp : response) : bool :=
  negb (raises (raise_for_status (status_code resp))).

(** What one fetch meets on the network and the clock. *)
Record net_env : Type := NetEnv {
  (** [requests.get(url, timeout=hard_timeout - 1, ...)] *)
  requests_get : outcome response;
  (** [time.time() - start_time] when the fallback is reached, in ms *)
  elapsed_ms : Z;
  (** [trafilatura.fetch_url(url)] *)
  fetch_url : outcome (option string)
}.

(** [{"url": url, "method": method, "content": smart}] *)
Record scrape : Type := Scrape {
  scrape_url : string;
  scrape_method : string;
  scrape_content : pyval
}.

(** A fetch in progress either goes on with a value, has executed a
    [return], or is unwinding with an exception.  It carries the values
    that [stop_event.is_set()] returned so far, oldest first. *)
Inductive step (A : Type) : Type :=
  | Next (a : A)
  | Return (r : option scrape)
  | Throw (e : exn).
Arguments Next {A} a.
Arguments Return {A} r.
Arguments Throw {A} e.

Definition fetchM (A : Type) : Type := list bool -> step A * list bool.

Definition fret {A} (a : A) : fetchM A := fun seen => (Next a, seen).

Definition fbind {A B} (m : fetchM A) (k : A -> fetchM B) : fetchM B :=
  fun seen =>
    match m seen with
    | (Next a, seen') => k a seen'
    | (Return r, seen') => (Return r, seen')
    | (Throw e, seen') => (Throw e, seen')
    end.

Notation "x <- m ;; k" := (fbind m (fun x => k))
  (at level 100, m at next level, right associativity).
Notation "m ;; k" := (fbind m (fun _ => k))
  (at level 100, right associativity).

(** [return r] *)
Definition freturn {A} (r : option scrape) : fetchM A :=
  fun seen => (Return r, seen).

(** A call that may raise. *)
Definition call {A} (m : outcome A) : fetchM A :=
  fun seen =>
    match m with
    | Ok a => (Next a, seen)
    | Raise e => (Throw e, seen)
    end.

(** [if stop_event and stop_event.is_set(): return None], at check point
    [k].  [stop_event] is [None] when the caller passed no event; otherwise
    it gives what [is_set()] answers at each check point. *)
Definition check (stop_event : option (nat -> bool)) (k : nat)
  : fetchM unit :=
  fun seen =>
    match stop_event with
    | None => (Next tt, seen)
    | Some is_set =>
        if is_set k then (Return None, seen ++ [true])
        else (Next tt, seen ++ [false])
    end.

(** [try: body  except Exception as e: print(...)] *)
Definition try_except (body : fetchM unit) : fetchM unit :=
  fun seen =>
    match body seen with
    | (Throw _, seen') => (Next tt, seen')
    | r => r
    end.

Definition run_fetch (m : fetchM unit) : outcome (option scrape) * list bool :=
  match m [] with
  | (Next _, seen) => (Ok None, seen)
  | (Return r, seen) => (Ok r, seen)
  | (Throw e, seen) => (Raise e, seen)
  end.

(** [smart.get("main_content") or smart.get("key_sections")], the test
    of the direct stage *)
Definition has_main_or_sections (smart : pyval) : bool :=
  truthy (get_item "main_content" smart)
  || truthy (get_item "key_sections" smart).

Section Fetcher.
Context `{!Urllib} `{!Bs4} `{!Regex}.

(** The value of [extract_smart_content(html, url)]; each fetch runs in
    a worker of its own and keeps no soup. *)
Definition extracted (html url : string) : outcome pyval :=
  fst (extract_smart_content html url []).

Definition try_scrape_smart_with_better_timeout (N : net_env) (url : string)
    (timeout_seconds : Z) (stop_event : option (nat -> bool))
  : outcome (option scrape) * list bool :=
  run_fetch (
    check stop_event 0 ;;
    domain <- call (get_domain url) ;;
    let hard_timeout := timeout_seconds in
    try_except (
      (* first attempt: requests *)
      check stop_event 1 ;;
      resp <- call (requests_get N) ;;
      check stop_event 2 ;;
      (if resp_ok resp then
         smart <- call (extracted (text resp) url) ;;
         if truthy smart && has_main_or_sections smart
         then freturn (Some (Scrape url "requests+smart" smart))
         else fret tt
       else fret tt) ;;
      (* fallback: trafilatura *)
      check stop_event 3 ;;
      let remaining := (hard_timeout * 1000 - elapsed_ms N)%Z in
      if (2000 <? remaining)%Z then
        downloaded <- call (fetch_url N) ;;
        check stop_event 4 ;;
        match downloaded with
        | Some html =>
            if negb (String.eqb html "") then
              smart <- call (extracted html url) ;;
              if truthy smart
              then freturn (Some (Scrape url "trafilatura+smart" smart))
              else fret tt
            else fret tt
        | None => fret tt
        end
      else fret tt
    ) ;;
    freturn None).

End Fetcher.

(** ** The dispatcher: [scrape_batch_parallel] *)

(** One turn of the [while] loop whose deadline test passed: how long
    [concurrent.futures.wait] blocked, and the futures it reported done,
    in the order the [for] loop visits them.  A future is named by the
    position of its URL in [urls]. *)
Record poll : Type := Poll {
  wait_ms : Z;
  done : list nat
}.

(** The environment of one batch: what each worker meets, what each
    worker sees of the shared [stop_event], and the turns the loop takes
    before [time.time()] reaches the deadline. *)
Record batch_env : Type := BatchEnv {
  worker : nat -> net_env;
  stop_seen : nat -> nat -> bool;
  polls : list poll
}.

Inductive loop_state : Type :=
  | Running (pending : list nat) (successful : list scrape)
  | Returned (successful : list scrape).

(** The [for fut in done] loop.  [result_of fut] is [fut.result()]. *)
Fixpoint for_done (result_of : nat -> outcome (option scrape))
    (max_sites_needed : Z) (done : list nat) (pending : list nat)
    (successful : list scrape) : outcome loop_state :=
  match done with
  | [] => Ok (Running pending successful)
  | fut :: rest =>
      let pending := List.filter (fun f => negb (f =? fut)) pending in
      let! res := result_of fut in
      match res with
      | Some r =>
          let successful := successful ++ [r] in
          if (max_sites_needed <=? Z.of_nat (length successful))%Z
          then Ok (Returned successful)
          else for_done result_of max_sites_needed rest pending successful
      | None => for_done result_of max_sites_needed rest pending successful
      end
  end.

(** The futures among [reported] that are still pending, each once. *)
Fixpoint done_among (pending reported : list nat) : list nat :=
  match reported with
  | [] => []
  | fut :: rest =>
      if existsb (Nat.eqb fut) pending
      then fut :: done_among (List.filter (fun f => negb (f =? fut)) pending)
                             rest
      else done_among pending rest
  end.

(** The [while fut_to_url and time.time() < deadline] loop; the turns in
    [polls] are those taken before the deadline. *)
Fixpoint poll_loop (result_of : nat -> outcome (option scrape))
    (max_sites_needed : Z) (polls : list poll) (pending : list nat)
    (successful : list scrape) (ms : Z) : outcome (list scrape) * Z :=
  match polls, pending with
  | [], _ => (Ok successful, ms)
  | _, [] => (Ok successful, ms)
  | p :: rest, _ =>
      let ms := (ms + wait_ms p)%Z in
      match for_done result_of max_sites_needed
                     (done_among pending (done p)) pending successful with
      | Raise e => (Raise e, ms)
      | Ok (Returned successful) => (Ok successful, ms)
      | Ok (Running pending successful) =>
          poll_loop result_of max_sites_needed rest pending successful ms
      end
  end.

Section Dispatcher.
Context `{!Urllib} `{!Bs4} `{!Regex}.

(** [fut.result()] of the future submitted for [urls[fut]]. *)
Definition future_result (E : batch_env) (urls : list string)
    (timeout_per_site : Z) (fut : nat) : outcome (option scrape) :=
  match urls !! fut with
  | Some url =>
      fst (try_scrape_smart_with_better_timeout
             (worker E fut) url timeout_per_site (Some (stop_seen E fut)))
  | None => Ok None
  end.

(** [scrape_batch_parallel(urls, timeout_per_site, batch_name,
    max_sites_needed)], with the time it took in ms.
    [ThreadPoolExecutor(max_workers=0)] raises [ValueError]. *)
Definition scrape_batch_parallel (E : batch_env) (urls : list string)
    (timeout_per_site : Z) (max_sites_needed : Z)
  : outcome (list scrape) * Z :=
  if Nat.min (length urls) 5 =? 0 then (Raise ValueError, 0%Z)
  else
    poll_loop (future_result E urls timeout_per_site) max_sites_needed
              (polls E) (seq 0 (length urls)) [] 0%Z.

End Dispatcher.

(** ** List comprehensions whose body may raise *)

(** [[f(x) for x in l]] *)
Fixpoint mapM {A B} (f : A -> outcome B) (l : list A) : outcome (list B) :=
  match l with
  | [] => Ok []
  | x :: l' =>
      let! y := f x in
      let! ys := mapM f l' in
      Ok (y :: ys)
  end.

(** [[x for x in l if f(x)]] *)
Fixpoint filterM {A} (f : A -> outcome bool) (l : list A)
  : outcome (list A) :=
  match l with
  | [] => Ok []
  | x :: l' =>
      let! keep := f x in
      let! xs := filterM f l' in
      Ok (if keep then x :: xs else xs)
  end.

(** ** The rendered tier: [scrape_batch_playwright] *)

(** The environment of a Playwright batch: [future.result()] of
    [try_playwright_scrape_smart] for each URL, the futures that
    [as_completed] yields before its timeout, in that order, and the time
    the batch takes in ms. *)
Record pw_env : Type := PwEnv {
  pw_result : nat -> outcome (option scrape);
  completed : list nat;
  pw_ms : Z
}.

(** The [for future in as_completed(...)] loop: an exception of a future
    is caught and printed, a success is appended, and the loop breaks
    once enough successes are in. *)
Fixpoint pw_loop (result_of : nat -> outcome (option scrape))
    (max_sites_needed : Z) (completed : list nat)
    (successful_scrapes : list scrape) : list scrape :=
  match completed with
  | [] => successful_scrapes
  | future :: rest =>
      match result_of future with
      | Ok (Some result) =>
          let successful_scrapes := successful_scrapes ++ [result] in
          if (max_sites_needed <=? Z.of_nat (length successful_scrapes))%Z
          then successful_scrapes
          else pw_loop result_of max_sites_needed rest successful_scrapes
      | Ok None | Raise _ =>
          pw_loop result_of max_sites_needed rest successful_scrapes
      end
  end.

Section PlaywrightBatch.
Context `{!Urllib}.

(** [scrape_batch_playwright(urls, timeout_per_site, batch_name,
    max_sites_needed)].  The report of the target domains calls
    [get_domain] on every URL outside any [try];
    [ThreadPoolExecutor(max_workers=0)] raises [ValueError].  The later
    reports call [get_domain] on the same URLs again, which succeeds
    once the first report did. *)
Definition scrape_batch_playwright (PLAYWRIGHT_AVAILABLE : bool)
    (E : pw_env) (urls : list string) (timeout_per_site : Z)
    (max_sites_needed : Z) : outcome (list scrape) * Z :=
  if negb PLAYWRIGHT_AVAILABLE then (Ok [], 0%Z)
  else
    match mapM get_domain urls with
    | Raise e => (Raise e, 0%Z)
    | Ok target_domains =>
        if length urls =? 0 then (Raise ValueError, 0%Z)
        else
          (Ok (pw_loop (pw_result E) max_sites_needed
                       (done_among (seq 0 (length urls)) (completed E)) []),
           pw_ms E)
    end.

End PlaywrightBatch.

(** ** The phase sequencer: [scrape_multiple_sites_truly_parallel] *)

(** [l[a:b]] for constants [0 <= a <= b] *)
Definition slice {A} (a b : nat) (l : list A) : list A :=
  take (b - a) (drop a l).

(** What one query meets: the search backend, whether Playwright could be
    imported, the time the search takes, and the environments of the
    batches the phases dispatch. *)
Record session_env : Type := SessionEnv {
  backend : string -> http_reply;
  PLAYWRIGHT_AVAILABLE : bool;
  search_ms : Z;
  batch_1 : batch_env;
  batch_2 : batch_env;
  playwright_batch : pw_env
}.

(** What a run of the sequencer amounts to: the value it returns
    ([None], or a list of scrapes) or the exception it raises, the phases
    it dispatched, and the time from [total_start] to its return in ms. *)
Record session : Type := Session {
  returned : outcome (option (list scrape));
  phases_run : list nat;
  total_ms : Z
}.

Section Sequencer.
Context `{!Urllib} `{!Bs4} `{!Regex}.

(** The [# Return results] part. *)
Definition finish (max_sites : Z) (successful_scrapes : list scrape)
    (phases : list nat) (ms : Z) : session :=
  match successful_scrapes with
  | [] => Session (Ok None) phases ms
  | _ => Session (Ok (Some (py_take max_sites successful_scrapes))) phases ms
  end.

(** PHASE 3: Playwright for the sites not scraped yet. *)
Definition phase_3 (E : session_env) (filtered_urls : list string)
    (max_sites : Z) (successful_scrapes : list scrape)
    (phases : list nat) (ms : Z) : session :=
  if (Z.of_nat (length successful_scrapes) <? max_sites)%Z
     && PLAYWRIGHT_AVAILABLE E
  then
    let urls :=
      let! successful_domains :=
        mapM (fun s => get_domain (scrape_url s)) successful_scrapes in
      let! candidates :=
        filterM (fun url =>
                   let! domain := get_domain url in
                   Ok (negb (bool_decide (domain ∈ successful_domains))))
                (take 15 filtered_urls) in
      Ok (take 5 candidates) in
    match urls with
    | Raise e => Session (Raise e) phases ms
    | Ok [] => finish max_sites successful_scrapes phases ms
    | Ok playwright_urls =>
        let '(batch_results, dt) :=
          scrape_batch_playwright (PLAYWRIGHT_AVAILABLE E)
            (playwright_batch E) playwright_urls 20
            (max_sites - Z.of_nat (length successful_scrapes))%Z in
        match batch_results with
        | Raise e => Session (Raise e) (phases ++ [3]) (ms + dt)%Z
        | Ok batch_results =>
            finish max_sites (successful_scrapes ++ batch_results)
                   (phases ++ [3]) (ms + dt)%Z
        end
    end
  else finish max_sites successful_scrapes phases ms.

(** PHASE 2: the next five sites. *)
Definition phase_2 (E : session_env) (filtered_urls : list string)
    (max_sites : Z) (successful_scrapes : list scrape)
    (phases : list nat) (ms : Z) : session :=
  if (Z.of_nat (length successful_scrapes) <? max_sites)%Z
     && (8 <? length filtered_urls)
  then
    match slice 8 13 filtered_urls with
    | [] => phase_3 E filtered_urls max_sites successful_scrapes phases ms
    | batch_2_urls =>
        let '(batch_results, dt) :=
          scrape_batch_parallel (batch_2 E) batch_2_urls 12
            (max_sites - Z.of_nat (length successful_scrapes))%Z in
        match batch_results with
        | Raise e => Session (Raise e) (phases ++ [2]) (ms + dt)%Z
        | Ok batch_results =>
            let successful_scrapes := successful_scrapes ++ batch_results in
            if (max_sites <=? Z.of_nat (length successful_scrapes))%Z
            then Session (Ok (Some (py_take max_sites successful_scrapes)))
                         (phases ++ [2]) (ms + dt)%Z
            else phase_3 E filtered_urls max_sites successful_scrapes
                         (phases ++ [2]) (ms + dt)%Z
        end
    end
  else phase_3 E filtered_urls max_sites successful_scrapes phases ms.

(** PHASE 1: the first eight sites. *)
Definition phase_1 (E : session_env) (filtered_urls : list string)
    (max_sites : Z) (ms : Z) : session :=
  match take 8 filtered_urls with
  | [] => phase_2 E filtered_urls max_sites [] [] ms
  | batch_1_urls =>
      let '(batch_results, dt) :=
        scrape_batch_parallel (batch_1 E) batch_1_urls 15 max_sites in
      match batch_results with
      | Raise e => Session (Raise e) [1] (ms + dt)%Z
      | Ok batch_results =>
          let successful_scrapes := batch_results in
          if (max_sites <=? Z.of_nat (length successful_scrapes))%Z
          then Session (Ok (Some (py_take max_sites successful_scrapes)))
                       [1] (ms + dt)%Z
          else phase_2 E filtered_urls max_sites successful_scrapes
                       [1] (ms + dt)%Z
      end
  end.

(** [scrape_multiple_sites_truly_parallel(query, max_sites,
    max_total_time, max_search_results)].  The body never reads
    [max_total_time]. *)
Definition scrape_multiple_sites_truly_parallel (E : session_env)
    (query : string) (max_sites max_total_time max_search_results : Z)
  : session :=
  match scrape_searxng_local (backend E) query max_search_results with
  | Raise e => Session (Raise e) [] (search_ms E)
  | Ok [] => Session (Ok None) [] (search_ms E)
  | Ok results =>
      match filter_urls (map href results) with
      | Raise e => Session (Raise e) [] (search_ms E)
      | Ok [] => Session (Ok None) [] (search_ms E)
      | Ok filtered_urls => phase_1 E filtered_urls max_sites (search_ms E)
      end
  end.

End Sequencer.

(** ** What the specification says of the resolver

    The definitions of this part follow the words of the specification;
    the theorems compare them with the functions above. *)

(** "scheme/www. stripped": the host without a leading [www.] *)
Definition strip_leading_www (host : string) : string :=
  if String.prefix "www." host then str_drop 4 host else host.

(** The shape of an absolute URL: a scheme, [://], a host part free of
    delimiters, brackets, blanks and non-ASCII characters (it may carry
    user information and a port), and a remainder that is empty or
    starts the path, the query or the fragment. *)
Definition host_char (c : ascii) : bool :=
  (32 <? N_of_ascii c)%N && char_isascii c
  && negb (existsb (Ascii.eqb c) ["/"; "?"; "#"; "["; "]"]%char).

Definition well_formed_scheme (scheme : string) : bool :=
  match scheme with
  | EmptyString => false
  | String c0 _ => is_ascii_alpha c0 && str_forall scheme_char scheme
  end.

Definition starts_path (rest : string) : bool :=
  match rest with
  | EmptyString => true
  | String d _ => existsb (Ascii.eqb d) ["/"; "?"; "#"]%char
  end.

(** "keeping the first occurrence" of each domain and rejecting the
    blacklisted ones: a URL, given with its domain, is kept when no
    earlier URL of the list has that domain and the domain is not
    blacklisted. *)
Fixpoint keep_first_per_domain (earlier : list string)
    (tagged : list (string * string)) : list string :=
  match tagged with
  | [] => []
  | (url, domain) :: rest =>
      let kept := keep_first_per_domain (domain :: earlier) rest in
      if bool_decide (domain ∈ earlier) || domain_blacklisted domain
      then kept else url :: kept
  end.

(** "backend unreachability or malformed response": no reply, an HTTP
    error status, a body that is not JSON, or a JSON body without a
    non-empty [results] entry. *)
Definition backend_failed (r : http_reply) : bool :=
  match r with
  | NoReply _ => true
  | Reply status json =>
      ((400 <=? status) && (status <? 600))%Z
      || match json with
         | None => true
         | Some (PDict d) => negb (truthy (default PNone (assoc_get "results" d)))
         | Some _ => true
         end
  end.

(** The entries of the [results] list of a reply, when it has one. *)
Definition response_items (r : http_reply) : list pyval :=
  match r with
  | Reply _ (Some (PDict d)) =>
      match assoc_get "results" d with
      | Some found =>
          match py_iter found with Ok items => items | Raise _ => [] end
      | None => []
      end
  | _ => []
  end.

(** ** Library instances for concrete runs

    The theorems below hold for every implementation of the library
    interfaces.  To run the functions on concrete inputs the interfaces
    are instantiated on the fragment of the libraries those inputs
    exercise. *)

(** [urlsplit] on URLs whose netloc is ASCII and has no brackets, where
    neither validation is reached; on other netlocs both are taken to
    pass. *)
Definition permissive_urllib : Urllib := {|
  check_bracketed_netloc := fun _ => true;
  checknetloc_nfkc := fun _ => true
|}.

(** BeautifulSoup over lxml on a document without markup.  lxml wraps
    the text of such a document in [html/body/p], so the paragraph is the
    only tag a query of the extractors can match; the document is given
    by its text, and decomposing the paragraph leaves none. *)
Definition plain_text_bs4 : Bs4 := {|
  soup_tree := string;
  tag := unit;
  parse_lxml := fun html => html;
  find_all := fun t scope q =>
    match scope, q with
    | None, Css selector =>
        if negb (String.eqb t "")
           && (String.eqb selector "p"
               || String.eqb selector
                    "p, li, div.description, div.summary, .info, .details")
        then [tt] else []
    | _, _ => []
    end;
  get_text := fun t _ => t;
  get_attr := fun _ _ _ => None;
  tag_name := fun _ _ => "p";
  next_siblings := fun _ _ => [];
  decompose := fun _ _ => ""
|}.

(** [re.findall] on texts in which none of [DETAIL_PATTERNS] matches:
    texts without digits and without the words [feature],
    [specification] and [spec]. *)
Definition no_detail_regex : Regex := {|
  re_findall := fun _ _ => []
|}.

(** ** Inputs of the concrete runs *)

(** A page without markup. *)
Definition fox_page : string :=
  "The quick brown fox jumps over the lazy dog near the river bank".

(** A fetch whose GET is answered with [fox_page] after half a second. *)
Definition answered : net_env :=
  NetEnv (Ok (Response 200 fox_page)) 500 (Ok None).

(** A fetch whose GET is answered with the status 503 and whose
    fallback download delivers [fox_page]. *)
Definition served_by_fallback : net_env :=
  NetEnv (Ok (Response 503 "")) 500 (Ok (Some fox_page)).

(** A fetch whose GET is answered with [fox_page] under the status 600,
    which [resp.ok] accepts. *)
Definition answered_600 : net_env :=
  NetEnv (Ok (Response 600 fox_page)) 500 (Ok None).

(** A fetch whose GET times out after 14 s (a [RequestException]). *)
Definition timed_out : net_env :=
  NetEnv (Raise ConnectionError) 14000 (Ok None).

Definition nine_urls : list string :=
  [ "https://one.example/p"; "https://two.example/p";
    "https://three.example/p"; "https://four.example/p";
    "https://five.example/p"; "https://six.example/p";
    "https://seven.example/p"; "https://eight.example/p";
    "https://nine.example/p" ].

(** A backend that answers every query with [nine_urls]. *)
Definition nine_hits : string -> http_reply := fun _ =>
  Reply 200
    (Some (PDict
             [("results",
               PList (map (fun url => PDict [("url", PStr url)]) nine_urls))])).

(** A session in which Playwright is not installed, the search takes
    0.3 s, none of the first eight sites answers within the 15 s of the
    first batch (five workers time out after 14 s, the other three are
    still running at the batch deadline), and the ninth site answers
    0.2 s into the second batch. *)
Definition slow_session : session_env := {|
  backend := nine_hits;
  PLAYWRIGHT_AVAILABLE := false;
  search_ms := 300;
  batch_1 := {|
    worker := fun _ => timed_out;
    stop_seen := fun _ _ => false;
    polls := replicate 56 (Poll 250 []) ++ [Poll 0 [0; 1; 2; 3; 4]]
             ++ replicate 4 (Poll 250 [])
  |};
  batch_2 := {|
    worker := fun _ => answered;
    stop_seen := fun _ _ => false;
    polls := [Poll 200 [0]]
  |};
  playwright_batch := PwEnv (fun _ => Ok None) [] 0
|}.

(** A batch in which every site answers and the first poll reports the
    first future done. *)
Definition quick_batch : batch_env := {|
  worker := fun _ => answered;
  stop_seen := fun _ _ => false;
  polls := [Poll 100 [0]]
|}.

(** The postcondition of the resolver on the hits [results] gathered from
    the entries [all] of a reply, whose domains are [doms]: at most
    [max_results] hits, each with the non-empty [url] field of an entry,
    with pairwise distinct domains none of which contains a blacklisted
    substring. *)
Section Postcondition.
Context `{!Urllib}.

Definition resolved (all : list pyval) (max_results : Z)
    (results : list search_hit) (doms : list string) : Prop :=
  (length results <= Z.to_nat max_results)
  /\ Forall (fun hit =>
               href hit <> ""
               /\ exists d, PDict d ∈ all
                            /\ assoc_get "url" d = Some (PStr (href hit)))
            results
  /\ Forall2 (fun hit domain => get_domain (href hit) = Ok domain)
             results doms
  /\ NoDup doms
  /\ Forall (fun domain =>
               forall blacklisted, blacklisted ∈ BLACKLIST_DOMAINS ->
                                   str_contains blacklisted domain = false)
            doms.

End Postcondition.

(** ** Entries the resolver cannot read *)

Section Malformed.
Context `{!Urllib}.

(** The entries of a reply on which the body of the resolver's loop
    raises: a value that is not an object, an object whose [url] is a
    truthy value other than a string, or one whose [url] is a string that
    [urlparse] rejects. *)
Definition malformed_entry (entry : pyval) : bool :=
  match entry with
  | PDict d =>
      match assoc_get "url" d with
      | Some (PStr url) => negb (String.eqb url "") && raises (get_domain url)
      | Some other => truthy other
      | None => false
      end
  | _ => true
  end.

End Malformed.

(** ** The rendered fetch: [try_playwright_scrape_smart] *)

(** Python's built-in [TimeoutError], which the function raises itself
    and which is the only class its outer handler catches. *)
Definition TimeoutError : exn := OtherError "TimeoutError".

Definition is_TimeoutError (e : exn) : bool :=
  match e with
  | OtherError name => String.eqb name "TimeoutError"
  | _ => false
  end.

(** What one rendered fetch meets: whether the browser starts
    ([sync_playwright()], [p.chromium.launch], [browser.new_page]), what
    [timeout_event.is_set()] answers before and after the navigation,
    the navigation [page.goto], the rendered [page.content()], and
    [browser.close()]. *)
Record browser_env : Type := BrowserEnv {
  pw_launch : outcome unit;
  expired_before_goto : bool;
  pw_goto : outcome unit;
  expired_after_goto : bool;
  pw_content : outcome string;
  pw_close : outcome unit
}.

(** [smart.get("main_content") or smart.get("title")], the test of the
    rendered fetch *)
Definition has_main_or_title (smart : pyval) : bool :=
  truthy (get_item "main_content" smart) || truthy (get_item "title" smart).

Section Playwright.
Context `{!Urllib} `{!Bs4} `{!Regex}.

(** The body of the inner [try]: the scrape it returns, [None] when it
    runs to its end, or the exception it raises. *)
Definition playwright_page (B : browser_env) (url : string)
  : outcome (option scrape) :=
  if expired_before_goto B then Raise TimeoutError
  else
    let! _ := pw_goto B in
    if expired_after_goto B then Raise TimeoutError
    else
      let! html := pw_content B in
      let! smart_content := extracted html url in
      if truthy smart_content && has_main_or_title smart_content
      then Ok (Some (Scrape url "playwright+smart" smart_content))
      else Ok None.

(** [try_playwright_scrape_smart(url, timeout_seconds)].  The inner
    handler [except Exception] swallows what the page raises, the
    [TimeoutError]s included; [finally: browser.close()] runs in every
    case, and an exception it raises replaces a pending [return]; the
    outer handler turns a [TimeoutError] into [None]. *)
Definition try_playwright_scrape_smart (PLAYWRIGHT_AVAILABLE : bool)
    (B : browser_env) (url : string) (timeout_seconds : Z)
  : outcome (option scrape) :=
  if negb PLAYWRIGHT_AVAILABLE then Ok None
  else
    let body :=
      let! _ := pw_launch B in
      let pending :=
        match playwright_page B url with
        | Ok r => r
        | Raise _ => None
        end in
      let! _ := pw_close B in
      Ok pending in
    match body with
    | Ok r => Ok r
    | Raise e => if is_TimeoutError e then Ok None else Raise e
    end.

End Playwright.

(** ** The wrappers of the sequencer *)

Section Wrappers.
Context `{!Urllib} `{!Bs4} `{!Regex}.

(** [scrape_multiple_sites_parallel(query, max_sites, max_total_time,
    max_search_results)] *)
Definition scrape_multiple_sites_parallel (E : session_env) (query : string)
    (max_sites max_total_time max_search_results : Z) : session :=
  scrape_multiple_sites_truly_parallel E query max_sites max_total_time
                                       max_search_results.

(** [scrape_single_site(query, max_search_results)] *)
Definition scrape_single_site (E : session_env) (query : string)
    (max_search_results : Z) : session :=
  scrape_multiple_sites_parallel E query 1 60 max_search_results.

End Wrappers.

(** ** What [clean_text] leaves of whitespace *)

(** A blank is a space: what [\s+] is replaced with. *)
Definition space_or_visible (c : ascii) : bool :=
  negb (is_space c) || Ascii.eqb c " ".

(** ** What the sequencer returns *)

Section Returned.
Context `{!Urllib}.

(** What a returned list looks like: between one and [max_sites]
    scrapes, each for a URL that [get_domain] accepts. *)
Definition well_sized (max_sites : Z) (s : session) : Prop :=
  forall l, returned s = Ok (Some l) ->
    1 <= length l
    /\ (Z.of_nat (length l) <= max_sites)%Z
    /\ Forall (fun r => raises (get_domain (scrape_url r)) = false) l.

End Returned.

(** ** Inputs of the further runs *)

(** A browser that renders [fox_page]. *)
Definition rendered : browser_env :=
  BrowserEnv (Ok tt) false (Ok tt) false (Ok fox_page) (Ok tt).

(** A browser whose navigation fails. *)
Definition failed_navigation : browser_env :=
  BrowserEnv (Ok tt) false (Raise (OtherError "Error")) false
             (Ok fox_page) (Ok tt).

(** A rendered batch of two URLs: the fetch of the first raises, the
    fetch of the second succeeds. *)
Definition rendered_batch : pw_env := {|
  pw_result := fun fut =>
    match fut with
    | 0 => Raise (OtherError "Error")
    | _ => Ok (Some (Scrape "https://two.example/p" "playwright+smart"
                            (PDict [("title", PStr "Two")])))
    end;
  completed := [0; 1];
  pw_ms := 4000
|}.

(** ** The shape of an extracted dictionary *)

(** [list(d.keys())], in insertion order *)
Definition dict_keys (d : pyval) : list string :=
  match d with
  | PDict items => map fst items
  | _ => []
  end.

(** [len(v)] of a string, a list or a dictionary *)
Definition py_len (v : pyval) : nat :=
  match v with
  | PStr s => String.length s
  | PList l => length l
  | PDict d => length d
  | _ => 0
  end.

(** The entries of a list value *)
Definition py_entries (v : pyval) : list pyval :=
  match v with
  | PList l => l
  | _ => []
  end.

(** The keys of the dictionary literal each extractor starts from, by
    the value of its [type] entry. *)
Definition FIELDS : list (string * list string) :=
  [ ("product",
     [ "url"; "domain"; "type"; "title"; "price"; "rating"; "key_features";
       "description"; "specs" ]);
    ("forum",
     [ "url"; "domain"; "type"; "title"; "question"; "top_answers"; "tags" ]);
    ("encyclopedia",
     [ "url"; "domain"; "type"; "title"; "summary"; "key_sections" ]);
    ("video",
     [ "url"; "domain"; "type"; "title"; "description"; "duration"; "views" ]);
    ("generic",
     [ "url"; "domain"; "type"; "title"; "main_content"; "key_sections";
       "important_details"; "summary" ]) ].

(** The entries every extractor fills at once and the keys of its
    dictionary. *)
Definition header (d : pyval) : pyval * pyval * pyval * list string :=
  (get_item "url" d, get_item "domain" d, get_item "type" d, dict_keys d).

(** The keys assigned after the dictionary literal. *)
Definition assigned_later (fields : list string) (key : string) : bool :=
  existsb (String.eqb key) fields
  && negb (existsb (String.eqb key) ["url"; "domain"; "type"]).
(** The sizes the extractors cut their fields to: a text cut at [n]
    characters carries three dots more, a list is a slice of the tags
    found.  Keys without a bound here ([title], [summary], [price],
    [rating], [specs], ...) are not cut. *)
Definition within_cap (key : string) (v : pyval) : Prop :=
  if String.eqb key "main_content" then py_len v <= 1503
  else if String.eqb key "description" then py_len v <= 503
  else if String.eqb key "question" then py_len v <= 803
  else if String.eqb key "top_answers"
  then py_len v <= 2 /\ Forall (fun answer => py_len answer <= 403)
                               (py_entries v)
  else if String.eqb key "key_features" then py_len v <= 5
  else if String.eqb key "key_sections"
  then py_len v <= 6
       /\ Forall (fun section => py_len (get_item "content" section) <= 303)
                 (py_entries v)
  else if String.eqb key "important_details" then py_len v <= 16
  else True.

Definition capped (d : pyval) : Prop :=
  (exists items, d = PDict items)
  /\ forall key, within_cap key (get_item key d).
(** ** The phases a session goes through *)

(** The phases that may follow the first one: the second needs more
    than eight URLs to choose from, the third needs Playwright. *)
Definition later_phases (available : bool) (candidates : nat)
    (phases : list nat) : Prop :=
  phases = []
  \/ (phases = [3] /\ available = true)
  \/ (phases = [2] /\ 8 < candidates)
  \/ (phases = [2; 3] /\ available = true /\ 8 < candidates).

(** ** The futures behind the results of a batch *)

(** [successful] holds the results of the futures [futs], in that order,
    which are pairwise distinct and no longer pending. *)
Definition drawn_from (result_of : nat -> outcome (option scrape))
    (pending futs : list nat) (successful : list scrape) : Prop :=
  NoDup futs
  /\ (forall fut, fut ∈ futs -> fut ∉ pending)
  /\ Forall2 (fun fut r => result_of fut = Ok (Some r)) futs successful.
(** ** Where a returned scrape comes from *)

Section Provenance.
Context `{!Urllib} `{!Bs4} `{!Regex}.

(** A scrape that a direct fetch of one of [urls] returned. *)
Definition fetched_from (urls : list string) (r : scrape) : Prop :=
  scrape_url r ∈ urls
  /\ exists N timeout_seconds stop_event,
       fst (try_scrape_smart_with_better_timeout
              N (scrape_url r) timeout_seconds stop_event) = Ok (Some r).

(** A scrape that a rendered fetch of the Playwright batch returned. *)
Definition rendered_in (E : pw_env) (r : scrape) : Prop :=
  exists fut, pw_result E fut = Ok (Some r).

(** Every rendered fetch of the batch is a run of
    [try_playwright_scrape_smart], as in [scrape_batch_playwright]. *)
Definition rendered_by_playwright (E : pw_env) : Prop :=
  forall fut, exists available B url timeout_seconds,
    pw_result E fut
    = try_playwright_scrape_smart available B url timeout_seconds.

End Provenance.
(** ** [scrape_bulk_products_parallel] *)

(** Python's built-in [ZeroDivisionError]. *)
Definition ZeroDivisionError : exn := OtherError "ZeroDivisionError".

(** One row of the CSV file.  The columns [total_time] and [timestamp],
    which are read off the clock, are left out; [scraped_content] is the
    dictionary that [json.dumps] serialises, or nothing for the empty
    cell of a failed query. *)
Record csv_row : Type := CsvRow {
  row_query : string;
  site_index : nat;
  row_url : string;
  row_method : string;
  row_domain : pyval;
  content_type : pyval;
  scraped_content : option pyval;
  status : string
}.

(** The row written for a query without result. *)
Definition failed_row (query : string) : csv_row :=
  CsvRow query 0 "" "" (PStr "") (PStr "") None "FAILED".

(** The [for result in results] loop that drops the results whose URL
    was seen before. *)
Fixpoint unique_by_url (results : list scrape) (seen_urls : gset string)
  : list scrape :=
  match results with
  | [] => []
  | result :: rest =>
      let url := scrape_url result in
      if decide (url ∈ seen_urls) then unique_by_url rest seen_urls
      else result :: unique_by_url rest ({[url]} ∪ seen_urls)
  end.

(** The [for site_idx, result in enumerate(unique_results, 1)] loop:
    each row is written, and flushed, before the next one is built, so
    the rows written before an exception stay in the file. *)
Fixpoint write_rows (query : string) (site_idx : nat)
    (unique_results : list scrape) (written : list csv_row)
  : outcome unit * list csv_row :=
  match unique_results with
  | [] => (Ok tt, written)
  | result :: rest =>
      let row_data :=
        let! domain :=
          py_get (scrape_content result) "domain" (PStr "unknown") in
        let! type :=
          py_get (scrape_content result) "type" (PStr "unknown") in
        Ok (CsvRow query site_idx (scrape_url result) (scrape_method result)
                   domain type (Some (scrape_content result)) "SUCCESS") in
      match row_data with
      | Raise e => (Raise e, written)
      | Ok row => write_rows query (S site_idx) rest (written ++ [row])
      end
  end.

(** What a bulk run amounts to: the exception it ends with, if any, the
    rows of the CSV file below the header, and the two counters of the
    final report. *)
Record bulk_run : Type := BulkRun {
  bulk_outcome : outcome unit;
  csv_rows : list csv_row;
  successful_queries : nat;
  failed_queries : nat
}.

Section Bulk.
Context `{!Urllib} `{!Bs4} `{!Regex}.

(** The [for index, query in enumerate(product_queries, 1)] loop.
    [world index] is what the query number [index] meets.
    [scrape_multiple_sites_parallel] is called with its default
    [max_search_results=15]. *)
Fixpoint bulk_loop (world : nat -> session_env)
    (max_sites max_total_time : Z) (index : nat) (queries : list string)
    (written : list csv_row) (successful_scrapes failed_scrapes : nat)
  : bulk_run :=
  match queries with
  | [] => BulkRun (Ok tt) written successful_scrapes failed_scrapes
  | query :: rest =>
      match returned (scrape_multiple_sites_parallel
                        (world index) query max_sites max_total_time 15) with
      | Raise e => BulkRun (Raise e) written successful_scrapes failed_scrapes
      | Ok (Some (first :: others)) =>
          let unique_results := unique_by_url (first :: others) ∅ in
          match write_rows query 1 unique_results written with
          | (Raise e, written) =>
              BulkRun (Raise e) written successful_scrapes failed_scrapes
          | (Ok _, written) =>
              bulk_loop world max_sites max_total_time (S index) rest
                        written (S successful_scrapes) failed_scrapes
          end
      | Ok _ =>
          bulk_loop world max_sites max_total_time (S index) rest
                    (written ++ [failed_row query])
                    successful_scrapes (S failed_scrapes)
      end
  end.

(** [scrape_bulk_products_parallel(product_queries, output_csv,
    max_sites, max_total_time)], for an [output_csv] that can be opened
    for writing.  The final report divides by [total_products]. *)
Definition scrape_bulk_products_parallel (world : nat -> session_env)
    (product_queries : list string) (max_sites max_total_time : Z)
  : bulk_run :=
  let total_products := length product_queries in
  let run := bulk_loop world max_sites max_total_time 1 product_queries
                       [] 0 0 in
  match bulk_outcome run with
  | Raise _ => run
  | Ok _ =>
      if total_products =? 0
      then BulkRun (Raise ZeroDivisionError) (csv_rows run)
                   (successful_queries run) (failed_queries run)
      else run
  end.

End Bulk.

(** The rows one query leaves in the file: the row of a failure, or one
    row per site, numbered from 1, with pairwise distinct URLs. *)
Definition rows_of_query (query : string) (rows : list csv_row) : Prop :=
  rows = [failed_row query]
  \/ (rows <> []
      /\ map site_index rows = seq 1 (length rows)
      /\ NoDup (map row_url rows)
      /\ Forall (fun row =>
                   row_query row = query /\ status row = "SUCCESS"
                   /\ exists content,
                        scraped_content row = Some content
                        /\ py_get content "domain" (PStr "unknown")
                           = Ok (row_domain row)
                        /\ py_get content "type" (PStr "unknown")
                           = Ok (content_type row))
                rows).

(** The number of rows with the status [FAILED]. *)
Definition failed_rows (rows : list csv_row) : nat :=
  length (List.filter (fun row => String.eqb (status row) "FAILED") rows).

(** * Properties *)

(** ** Strings *)

Lemma replace_from_absent (old new s : string) :
  str_contains old s = false -> replace_from old new 0 s = s.
Proof.
  induction s as [|c s IH]; [reflexivity|].
  cbn [str_contains replace_from]. intros Hc.
  apply orb_false_iff in Hc as [Hp Hs].
  rewrite Hp, IH by exact Hs. reflexivity.
Qed.

Lemma replace_from_skip (old new a s : string) :
  replace_from old new (String.length a) (a +:+ s) = replace_from old new 0 s.
Proof.
  induction a as [|c a IH]; [reflexivity|]. cbn. exact IH.
Qed.

Lemma prefix_app (a s : string) : String.prefix a (a +:+ s) = true.
Proof.
  induction a as [|c a IH]; [by destruct s|].
  change (String c a +:+ s) with (String c (a +:+ s)).
  cbn [String.prefix]. destruct (ascii_dec c c); [exact IH|congruence].
Qed.

Lemma str_replace_prefix (c : ascii) (old new s : string) :
  str_replace (String c old) new (String c old +:+ s)
  = new +:+ str_replace (String c old) new s.
Proof.
  unfold str_replace.
  change (String c old +:+ s) with (String c (old +:+ s)).
  cbn [replace_from].
  change (String c (old +:+ s)) with (String c old +:+ s).
  rewrite prefix_app.
  replace (String.length (String c old) - 1) with (String.length old)
    by (cbn [String.length]; lia).
  by rewrite replace_from_skip.
Qed.

Lemma prefix_split (a s : string) :
  String.prefix a s = true -> s = a +:+ str_drop (String.length a) s.
Proof.
  revert s. induction a as [|c a IH]; intros s Hp; [reflexivity|].
  destruct s as [|d s]; [discriminate|]. cbn in Hp.
  destruct (ascii_dec c d) as [->|]; [|discriminate].
  cbn [String.length str_drop].
  change (String d s = String d (a +:+ str_drop (String.length a) s)).
  f_equal. by apply IH.
Qed.

Lemma str_replace_www (s : string) :
  str_contains "www." (strip_leading_www s) = false ->
  str_replace "www." "" s = strip_leading_www s.
Proof.
  unfold strip_leading_www. destruct (String.prefix "www." s) eqn:Hp; intros Hc.
  - rewrite (prefix_split _ _ Hp) at 1.
    rewrite str_replace_prefix. cbn [String.length String.append].
    by apply replace_from_absent.
  - by apply replace_from_absent.
Qed.

Lemma str_length_app (a s : string) :
  String.length (a +:+ s) = String.length a + String.length s.
Proof.
  induction a as [|c a IH]; [done|].
  change (String c a +:+ s) with (String c (a +:+ s)).
  cbn [String.length]. by rewrite IH.
Qed.

Lemma str_take_app (a s : string) : str_take (String.length a) (a +:+ s) = a.
Proof.
  induction a as [|c a IH]; [by destruct s|].
  change (String c a +:+ s) with (String c (a +:+ s)).
  cbn [String.length str_take]. by rewrite IH.
Qed.

Lemma str_drop_app (a s : string) : str_drop (String.length a) (a +:+ s) = s.
Proof.
  induction a as [|c a IH]; [done|].
  change (String c a +:+ s) with (String c (a +:+ s)).
  cbn [String.length str_drop]. exact IH.
Qed.

Lemma str_forall_impl (p q : ascii -> bool) (s : string) :
  (forall c, p c = true -> q c = true) ->
  str_forall p s = true -> str_forall q s = true.
Proof.
  intros Hpq. induction s as [|c s IH]; cbn; [done|].
  intros [Hc Hs]%andb_true_iff. by rewrite (Hpq c Hc), IH.
Qed.

Lemma str_remove_char_app (b : ascii) (a s : string) :
  str_remove_char b (a +:+ s) = str_remove_char b a +:+ str_remove_char b s.
Proof.
  induction a as [|c a IH]; [done|].
  change (String c a +:+ s) with (String c (a +:+ s)).
  cbn [str_remove_char]. destruct (Ascii.eqb b c); [done|].
  by rewrite IH.
Qed.

Lemma str_remove_char_absent (b : ascii) (s : string) :
  str_forall (fun c => negb (Ascii.eqb b c)) s = true ->
  str_remove_char b s = s.
Proof.
  induction s as [|c s IH]; cbn; [done|].
  intros [Hc Hs]%andb_true_iff. apply negb_true_iff in Hc.
  by rewrite Hc, IH.
Qed.

Lemma str_find_from_app_absent (c : ascii) (a s : string) :
  str_forall (fun d => negb (Ascii.eqb c d)) a = true ->
  str_find_from c 0 (a +:+ s)
  = (fun k => String.length a + k) <$> str_find_from c 0 s.
Proof.
  induction a as [|d a IH].
  - intros _. change ("" +:+ s) with s. by destruct (str_find_from c 0 s).
  - change (String d a +:+ s) with (String d (a +:+ s)).
    cbn [str_forall str_find_from String.length].
    intros [Hd Ha]%andb_true_iff. apply negb_true_iff in Hd.
    rewrite Hd, IH by done. by destruct (str_find_from c 0 s).
Qed.

Lemma str_app_assoc (a b s : string) : (a +:+ b) +:+ s = a +:+ (b +:+ s).
Proof.
  induction a as [|c a IH]; [done|].
  change (String c a +:+ b) with (String c (a +:+ b)).
  change (String c (a +:+ b) +:+ s) with (String c ((a +:+ b) +:+ s)).
  by rewrite IH.
Qed.

(** *** The netloc of an absolute URL *)

Ltac each_char c :=
  destruct c as [[] [] [] [] [] [] [] []]; vm_compute;
  intros; try discriminate; repeat split; reflexivity.

Lemma scheme_char_facts (c : ascii) :
  scheme_char c = true ->
  Ascii.eqb ":" c = false
  /\ forallb (fun b => negb (Ascii.eqb b c)) UNSAFE_URL_BYTES_TO_REMOVE = true.
Proof. each_char c. Qed.

Lemma alpha_char_facts (c : ascii) :
  is_ascii_alpha c = true ->
  c0_control_or_space c = false /\ char_isascii c = true.
Proof. each_char c. Qed.

Lemma host_char_facts (c : ascii) :
  host_char c = true ->
  char_isascii c = true
  /\ forallb (fun b => negb (Ascii.eqb b c)) ["/"; "?"; "#"; "["; "]"]%char
     = true
  /\ forallb (fun b => negb (Ascii.eqb b c)) UNSAFE_URL_BYTES_TO_REMOVE = true.
Proof. each_char c. Qed.

Lemma sanitize_app (a s : string) :
  sanitize (a +:+ s) = sanitize a +:+ sanitize s.
Proof. unfold sanitize. cbn. by rewrite !str_remove_char_app. Qed.

Lemma sanitize_clean (a : string) :
  str_forall (fun c => forallb (fun b => negb (Ascii.eqb b c))
                               UNSAFE_URL_BYTES_TO_REMOVE) a = true ->
  sanitize a = a.
Proof.
  intros Ha. unfold sanitize. cbn.
  do 3 (rewrite (str_remove_char_absent _ a);
        [|(eapply str_forall_impl; [|exact Ha]); cbn; intros c Hc;
          repeat (apply andb_true_iff in Hc as [? Hc]); done]).
  done.
Qed.

Lemma starts_path_sanitize (rest : string) :
  starts_path rest = true -> starts_path (sanitize rest) = true.
Proof.
  destruct rest as [|d rest]; [done|]. cbn [starts_path existsb].
  intros Hd. repeat (apply orb_true_iff in Hd as [Hd|Hd]);
    try discriminate; apply Ascii.eqb_eq in Hd as ->; reflexivity.
Qed.

Lemma str_forall_has (c : ascii) (s : string) :
  str_forall (fun d => negb (Ascii.eqb c d)) s = true -> str_has c s = false.
Proof.
  induction s as [|d s IH]; cbn; [done|].
  intros [Hd Hs]%andb_true_iff. apply negb_true_iff in Hd.
  by rewrite Hd, IH.
Qed.

(** [_splitnetloc] cuts the host off at the first delimiter. *)
Lemma splitnetloc_host (host rest : string) :
  str_forall host_char host = true ->
  starts_path rest = true ->
  fst (splitnetloc ("//" +:+ host +:+ rest) 2) = host.
Proof.
  intros Hhost Hrest. unfold splitnetloc. cbn [fst fold_left].
  assert (forall c, c ∈ ["/"; "?"; "#"]%char ->
            str_find_from c 2 ("//" +:+ host +:+ rest)
            = (fun k => 2 + String.length host + k) <$> str_find_from c 0 rest)
    as Hfind.
  { intros c Hc.
    change ("//" +:+ host +:+ rest)
      with (String "/" (String "/" (host +:+ rest))).
    cbn [str_find_from]. rewrite str_find_from_app_absent.
    - by destruct (str_find_from c 0 rest).
    - eapply str_forall_impl; [|exact Hhost]. intros d Hd.
      apply host_char_facts in Hd as (_ & Hd & _). cbn in Hd.
      repeat (apply andb_true_iff in Hd as [? Hd]).
      repeat (apply elem_of_cons in Hc as [->|Hc]); try done.
      by apply elem_of_nil in Hc. }
  rewrite !Hfind by set_solver.
  replace (String.length ("//" +:+ host +:+ rest))
    with (2 + String.length host + String.length rest)
    by (change ("//" +:+ host +:+ rest)
          with (String "/" (String "/" (host +:+ rest)));
        cbn [String.length]; rewrite str_length_app; lia).
  match goal with
  | |- str_slice 2 ?delim _ = _ =>
      assert (delim = 2 + String.length host) as ->
  end.
  { destruct rest as [|d rest]; [cbn; lia|].
    cbn [starts_path existsb] in Hrest.
    repeat (apply orb_true_iff in Hrest as [Hrest|Hrest]);
      try discriminate; apply Ascii.eqb_eq in Hrest as ->;
      cbn [str_find_from Ascii.eqb Bool.eqb andb String.length];
      destruct (str_find_from _ 0 rest), (str_find_from _ 0 rest);
      cbn; lia. }
  unfold str_slice.
  change ("//" +:+ host +:+ rest) with (String "/" (String "/" (host +:+ rest))).
  cbn [str_drop].
  replace (2 + String.length host - 2) with (String.length host) by lia.
  apply str_take_app.
Qed.

(** [urlsplit] recognises a well-formed scheme and drops it with its
    colon. *)
Lemma strip_scheme_absolute (scheme rest : string) :
  well_formed_scheme scheme = true ->
  strip_scheme (scheme +:+ ":" +:+ rest) = rest.
Proof.
  intros Hwf. unfold strip_scheme.
  assert (str_forall scheme_char scheme = true) as Hsch
    by (destruct scheme; [done|]; by apply andb_true_iff in Hwf as [_ ?]).
  rewrite str_find_from_app_absent
    by (eapply str_forall_impl; [|exact Hsch]; intros c Hc;
        apply scheme_char_facts in Hc as [-> _]; done).
  change (str_find_from ":" 0 (":" +:+ rest)) with (Some 0).
  cbn [fmap option_fmap option_map]. rewrite Nat.add_0_r.
  destruct scheme as [|c0 scheme']; [done|].
  apply andb_true_iff in Hwf as [Halpha _].
  change (String c0 scheme' +:+ ":" +:+ rest)
    with (String c0 (scheme' +:+ ":" +:+ rest)) at 1.
  cbv beta iota.
  change (String c0 (scheme' +:+ ":" +:+ rest))
    with (String c0 scheme' +:+ ":" +:+ rest).
  rewrite str_take_app, Hsch, Halpha.
  destruct (alpha_char_facts c0 Halpha) as [_ ->].
  cbn [String.length Nat.ltb Nat.leb andb].
  rewrite <- str_app_assoc.
  replace (S (String.length scheme') + 1)
    with (String.length (String c0 scheme' +:+ ":"))
    by (rewrite str_length_app; reflexivity).
  apply str_drop_app.
Qed.

(** ** The resolver: [get_domain] and [filter_urls] *)

Section ResolverProperties.
Context `{!Urllib}.

Lemma get_domain_netloc (url netloc : string) :
  urlparse_netloc url = Ok netloc ->
  get_domain url = Ok (str_replace "www." "" (str_lower netloc)).
Proof. unfold get_domain. by intros ->. Qed.

Lemma is_blacklisted_domain (url domain : string) :
  get_domain url = Ok domain ->
  is_blacklisted url = Ok (domain_blacklisted domain).
Proof. unfold is_blacklisted. by intros ->. Qed.

(** The netloc of an absolute URL is its host part: the scheme is
    stripped, and so is everything from the first '/', '?' or '#' on. *)
Lemma urlparse_netloc_absolute (scheme host rest : string) :
  well_formed_scheme scheme = true ->
  str_forall host_char host = true ->
  starts_path rest = true ->
  urlparse_netloc (scheme +:+ "://" +:+ host +:+ rest) = Ok host.
Proof.
  intros Hwf Hhost Hrest. unfold urlparse_netloc.
  assert (lstrip_c0 (scheme +:+ "://" +:+ host +:+ rest)
          = scheme +:+ "://" +:+ host +:+ rest) as ->.
  { destruct scheme as [|c0 scheme']; [done|].
    apply andb_true_iff in Hwf as [Halpha _].
    change (String c0 scheme' +:+ "://" +:+ host +:+ rest)
      with (String c0 (scheme' +:+ "://" +:+ host +:+ rest)).
    cbn [lstrip_c0]. by destruct (alpha_char_facts c0 Halpha) as [-> _]. }
  rewrite sanitize_app, (sanitize_app "://"), (sanitize_app host).
  rewrite (sanitize_clean scheme), (sanitize_clean host).
  - change (sanitize "://") with "://".
    change ("://" +:+ host +:+ sanitize rest)
      with (":" +:+ "//" +:+ host +:+ sanitize rest).
    rewrite strip_scheme_absolute by done.
    rewrite prefix_app. rewrite splitnetloc_host by auto using starts_path_sanitize.
    assert (forall c, c ∈ ["["; "]"]%char -> str_has c host = false) as Hno.
    { intros c Hc. apply str_forall_has.
      eapply str_forall_impl; [|exact Hhost]. intros d Hd.
      apply host_char_facts in Hd as (_ & Hd & _). cbn in Hd.
      repeat (apply andb_true_iff in Hd as [? Hd]).
      repeat (apply elem_of_cons in Hc as [->|Hc]); try done.
      by apply elem_of_nil in Hc. }
    rewrite !Hno by set_solver. cbn [andb orb negb].
    replace (str_forall char_isascii host) with true; [by rewrite andb_false_r|].
    symmetry. eapply str_forall_impl; [|exact Hhost]. intros d Hd.
    by apply host_char_facts in Hd as (-> & _).
  - eapply str_forall_impl; [|exact Hhost]. intros d Hd.
    by apply host_char_facts in Hd as (_ & _ & ->).
  - destruct scheme as [|c0 scheme']; [done|].
    apply andb_true_iff in Hwf as [_ Hsch].
    eapply str_forall_impl; [|exact Hsch]. intros d Hd.
    by apply scheme_char_facts in Hd as [_ ->].
Qed.

(** C9, as amended: [get_domain] lower-cases the netloc and removes every
    occurrence of [www.]; the netloc of an absolute URL is its host part,
    with the scheme stripped; when [www.] does not occur in the host once
    its leading [www.] is taken off, the domain is the host with the
    leading [www.] stripped and the rest intact, and two such URLs have
    the same domain exactly when their hosts agree after that stripping
    and case folding. *)
Theorem get_domain_removes_every_www (u1 u2 n1 n2 : string) :
  urlparse_netloc u1 = Ok n1 ->
  urlparse_netloc u2 = Ok n2 ->
  get_domain u1 = Ok (str_replace "www." "" (str_lower n1))
  /\ (forall scheme host rest,
         well_formed_scheme scheme = true ->
         str_forall host_char host = true ->
         starts_path rest = true ->
         u1 = scheme +:+ "://" +:+ host +:+ rest ->
         n1 = host)
  /\ (str_contains "www." (strip_leading_www (str_lower n1)) = false ->
      get_domain u1 = Ok (strip_leading_www (str_lower n1)))
  /\ (str_contains "www." (strip_leading_www (str_lower n1)) = false ->
      str_contains "www." (strip_leading_www (str_lower n2)) = false ->
      (get_domain u1 = get_domain u2 <->
       strip_leading_www (str_lower n1) = strip_leading_www (str_lower n2))).
Proof.
  intros H1 H2.
  rewrite (get_domain_netloc _ _ H1), (get_domain_netloc _ _ H2).
  split; [reflexivity|]. split; [|split].
  - intros scheme host rest Hwf Hhost Hrest ->.
    rewrite urlparse_netloc_absolute in H1 by done. congruence.
  - intros Hc. by rewrite str_replace_www.
  - intros Hc1 Hc2. rewrite !str_replace_www by assumption.
    split; [by intros [= ->]|by intros ->].
Qed.

Lemma filter_urls_loop_spec (urls doms : list string) :
  Forall2 (fun url domain => get_domain url = Ok domain) urls doms ->
  forall (seen : gset string) (earlier filtered : list string),
    (forall d, domain_blacklisted d = false -> d ∈ seen <-> d ∈ earlier) ->
    filter_urls_loop urls seen filtered
    = Ok (filtered ++ keep_first_per_domain earlier (zip urls doms)).
Proof.
  induction 1 as [|url d urls doms Hd _ IH]; intros seen earlier filtered Hinv.
  - cbn. by rewrite app_nil_r.
  - cbn [filter_urls_loop zip zip_with keep_first_per_domain].
    rewrite Hd. cbn [bind]. rewrite (is_blacklisted_domain _ _ Hd). cbn [bind].
    destruct (decide (d ∈ seen)) as [Hin|Hnin].
    + rewrite (IH seen (d :: earlier) filtered).
      * destruct (domain_blacklisted d) eqn:Hb.
        -- by rewrite orb_true_r.
        -- apply Hinv in Hin; [|done]. by rewrite bool_decide_eq_true_2.
      * intros d' Hb'. rewrite elem_of_cons, <- Hinv by done.
        split; [tauto|]. intros [->|]; done.
    + destruct (domain_blacklisted d) eqn:Hb.
      * rewrite orb_true_r. apply IH.
        intros d' Hb'. rewrite elem_of_cons, <- Hinv by done.
        split; [tauto|]. intros [->|]; [congruence|done].
      * rewrite bool_decide_eq_false_2, orb_false_l
          by (rewrite <- Hinv by done; done).
        rewrite (IH ({[d]} ∪ seen) (d :: earlier) (filtered ++ [url])).
        -- by rewrite <- app_assoc.
        -- intros d' Hb'. rewrite elem_of_cons, elem_of_union,
             elem_of_singleton, <- Hinv by done. done.
Qed.

(** C4, as amended: on URLs that [urlparse] accepts, [filter_urls] keeps
    exactly the first URL seen for each normalized domain that is not
    blacklisted, drops the later URLs of that domain and every URL of a
    blacklisted domain, and preserves the relative order of the URLs it
    keeps. *)
Theorem filter_urls_keeps_first_allowed (urls doms : list string) :
  Forall2 (fun url domain => get_domain url = Ok domain) urls doms ->
  filter_urls urls = Ok (keep_first_per_domain [] (zip urls doms)).
Proof.
  intros Hd. unfold filter_urls.
  rewrite (filter_urls_loop_spec urls doms Hd ∅ [] []); [done|].
  intros d _. rewrite elem_of_nil. set_solver.
Qed.

End ResolverProperties.

(** ** The resolver: [scrape_searxng_local] *)

Section SearchProperties.
Context `{!Urllib}.

(** C5: whatever the backend does, [scrape_searxng_local] returns a list
    and raises nothing; when the backend is unreachable, answers with an
    HTTP error, or sends a body that is not JSON or has no results, that
    list is empty. *)
Theorem scrape_searxng_local_failure_is_empty
    (backend : string -> http_reply) (query : string) (max_results : Z) :
  raises (scrape_searxng_local backend query max_results) = false
  /\ (backend_failed (backend query) = true ->
      scrape_searxng_local backend query max_results = Ok []).
Proof.
  split.
  - unfold scrape_searxng_local.
    destruct (searxng_try backend query max_results) as [out|e]; [done|].
    by destruct (is_HTTPError e), (is_RequestException e).
  - unfold scrape_searxng_local, searxng_try.
    destruct (backend query) as [e|status json]; cbn.
    + intros _. by destruct (is_HTTPError e), (is_RequestException e).
    + unfold raise_for_status.
      destruct ((400 <=? status)%Z && (status <? 600)%Z); cbn; [done|].
      destruct json as [[| | | | | |d]|]; cbn; try done.
      destruct (truthy (default PNone (assoc_get "results" d))); cbn; done.
Qed.

Lemma resolved_nil (all : list pyval) (max_results : Z) :
  resolved all max_results [] [].
Proof.
  repeat split; try constructor. cbn. lia.
Qed.

Lemma domain_not_blacklisted (domain : string) :
  domain_blacklisted domain = false ->
  forall blacklisted, blacklisted ∈ BLACKLIST_DOMAINS ->
                      str_contains blacklisted domain = false.
Proof.
  unfold domain_blacklisted. intros Hb b Hin.
  apply list_elem_of_In in Hin.
  destruct (str_contains b domain) eqn:Hc; [|done].
  assert (existsb (fun b => str_contains b domain) BLACKLIST_DOMAINS = true)
    as Hex by (apply existsb_exists; eauto).
  congruence.
Qed.

Lemma searxng_loop_resolved (all : list pyval) (max_results : Z)
    (items : list pyval) :
  forall (results : list search_hit) (seen : gset string)
         (doms : list string) (out : list search_hit),
    (forall x, x ∈ items -> x ∈ all) ->
    resolved all max_results results doms ->
    (forall d, d ∈ doms -> d ∈ seen) ->
    searxng_loop items max_results results seen = Ok out ->
    exists doms', resolved all max_results out doms'.
Proof.
  induction items as [|result rest IH];
    intros results seen doms out Hsub Hres Hseen Hrun.
  - cbn in Hrun. injection Hrun as <-. eauto.
  - assert (forall x, x ∈ rest -> x ∈ all) as Hsub'
      by (intros x Hx; apply Hsub; by right).
    cbn [searxng_loop] in Hrun.
    destruct (max_results <=? Z.of_nat (length results))%Z eqn:Hfull.
    { injection Hrun as <-. eauto. }
    destruct result as [| | | | | |d]; try discriminate Hrun.
    cbn [py_get bind] in Hrun.
    destruct (assoc_get "url" d) as [result_url|] eqn:Hurl; cbn in Hrun;
      [|by eapply IH].
    destruct (truthy result_url) eqn:Htruthy; cbn [negb] in Hrun;
      [|by eapply IH].
    destruct result_url as [| | | |url| |]; try discriminate Hrun.
    cbn [as_url bind] in Hrun.
    destruct (get_domain url) as [domain|e] eqn:Hdom;
      [|unfold is_blacklisted in Hrun; rewrite Hdom in Hrun; discriminate].
    rewrite (is_blacklisted_domain _ _ Hdom) in Hrun. cbn [bind] in Hrun.
    destruct (domain_blacklisted domain) eqn:Hbl; [by eapply IH|].
    destruct (decide (domain ∈ seen)) as [|Hnew]; [by eapply IH|].
    eapply (IH _ _ (doms ++ [domain])); [done| |  |exact Hrun].
    + destruct Hres as (Hlen & Hhits & Hdoms & Hnodup & Hallowed).
      repeat split.
      * rewrite length_app. cbn. apply Z.leb_gt in Hfull. lia.
      * apply Forall_app. split; [done|]. constructor; [|constructor].
        cbn. split.
        -- intros ->. cbn in Htruthy. discriminate.
        -- exists d. split; [apply Hsub; by left|done].
      * apply Forall2_app; [done|]. by constructor.
      * apply NoDup_app. repeat split; [done| |apply NoDup_singleton].
        intros x Hx ->%list_elem_of_singleton. by apply Hnew, Hseen.
      * apply Forall_app. split; [done|]. constructor; [|constructor].
        by apply domain_not_blacklisted.
    + intros x [Hx| ->%list_elem_of_singleton]%elem_of_app; set_solver.
Qed.

(** C10: for every reply of the backend and every [max_results], the
    list [scrape_searxng_local] returns has at most [max_results]
    entries (none when [max_results] is negative), each entry's URL is
    the non-empty [url] field of an entry of the reply, the normalized
    domains of the entries are pairwise distinct, and none of them
    contains a blacklisted substring. *)
Theorem scrape_searxng_local_postcondition
    (backend : string -> http_reply) (query : string) (max_results : Z) :
  exists (out : list search_hit) (doms : list string),
    scrape_searxng_local backend query max_results = Ok out
    /\ resolved (response_items (backend query)) max_results out doms.
Proof.
  unfold scrape_searxng_local.
  destruct (searxng_try backend query max_results) as [out|e] eqn:Hrun.
  - enough (exists doms,
              resolved (response_items (backend query)) max_results out doms)
      as [doms Hd] by eauto.
    unfold searxng_try in Hrun.
    destruct (backend query) as [e|status json]; [discriminate|].
    cbn in Hrun.
    destruct (raise_for_status status); [|discriminate]. cbn in Hrun.
    destruct json as [[| | | | | |d]|]; try discriminate Hrun.
    cbn in Hrun. cbn [response_items].
    destruct (assoc_get "results" d) as [found|]; cbn in Hrun;
      [|injection Hrun as <-; eexists; apply resolved_nil].
    destruct (truthy found); cbn in Hrun;
      [|injection Hrun as <-; eexists; apply resolved_nil].
    destruct (py_iter found) as [items|]; [|discriminate]. cbn in Hrun.
    eapply (searxng_loop_resolved _ _ items [] ∅ []); eauto.
    + apply resolved_nil.
    + intros x Hx. by apply elem_of_nil in Hx.
  - exists [], [].
    split; [by destruct (is_HTTPError e), (is_RequestException e)|].
    apply resolved_nil.
Qed.

End SearchProperties.

(** ** The tiered fetcher: extraction *)

Lemma assoc_get_set_ne (k k' : string) (v : pyval)
    (items : list (string * pyval)) :
  k <> k' -> assoc_get k (assoc_set k' v items) = assoc_get k items.
Proof.
  intros Hne. induction items as [|[k0 w] items IH]; cbn.
  - destruct (String.eqb_spec k' k); congruence.
  - destruct (String.eqb_spec k0 k'); cbn.
    + destruct (String.eqb_spec k0 k); congruence.
    + by rewrite IH.
Qed.

Lemma get_item_set_item_ne (k k' : string) (v d : pyval) :
  k <> k' -> get_item k (set_item k' v d) = get_item k d.
Proof.
  intros Hne. destruct d; try reflexivity. cbn.
  by rewrite assoc_get_set_ne.
Qed.

Section ExtractionProperties.
Context `{!Urllib} `{!Bs4} `{!Regex}.

Lemma get_item_set_text_if (t : soup_tree) (k k' : string)
    (found : option tag) (post : string -> string) (d : pyval) :
  k <> k' -> get_item k (set_text_if t k' found post d) = get_item k d.
Proof.
  intros Hne. destruct found; [|reflexivity]. cbn.
  by apply get_item_set_item_ne.
Qed.

(** The dictionary of [extract_amazon_smart] has none of the two keys the
    direct stage looks at. *)
Lemma extract_amazon_smart_lacks (h : heap) (soup : nat) (url key : string) :
  key = "main_content" \/ key = "key_sections" ->
  get_item key (extract_amazon_smart h soup url) = PNone.
Proof.
  intros Hkey. unfold extract_amazon_smart. cbv zeta.
  destruct Hkey as [-> | ->].
  all: rewrite get_item_set_item_ne by done.
  all: rewrite get_item_set_text_if by done.
  all: match goal with
       | |- get_item _ (match ?b with [] => _ | _ => _ end) = _ => destruct b
       end.
  all: rewrite ?get_item_set_item_ne by done.
  all: by rewrite !get_item_set_text_if by done.
Qed.

Lemma deref_fresh (h : heap) (t : soup_tree) :
  deref (h ++ [t]) (length h) = t.
Proof.
  unfold deref.
  pose proof (list_lookup_middle h [] t (length h) eq_refl) as Hm.
  unfold heap in *. by rewrite Hm.
Qed.

(** The value of [extract_smart_content] does not depend on the soups
    that earlier calls left behind. *)
Lemma extract_smart_content_value (html url : string) (h : heap) :
  fst (extract_smart_content html url h) = extracted html url.
Proof.
  unfold extracted, extract_smart_content.
  destruct (get_domain url) as [domain|e] eqn:Hdom; [|reflexivity].
  repeat match goal with
         | |- context [if ?b then _ else _] => destruct b
         end; cbn [fst].
  - unfold extract_amazon_smart.
    by rewrite (deref_fresh h), (deref_fresh []).
  - unfold extract_forum_smart.
    by rewrite (deref_fresh h), (deref_fresh []).
  - unfold extract_wiki_smart.
    by rewrite (deref_fresh h), (deref_fresh []).
  - unfold extract_video_smart.
    by rewrite (deref_fresh h), (deref_fresh []).
  - unfold extract_generic_smart. rewrite Hdom.
    rewrite (deref_fresh h), (deref_fresh []).
    by destruct (generic_fields (parse_lxml html) url domain).
Qed.

(** C8: extraction is idempotent.  Whatever soups the process holds,
    calling [extract_smart_content] on an HTML text and a URL, and calling
    it again on the same text and URL in the state the first call left,
    yields the same dictionary of extracted fields (or the same
    exception) both times. *)
Theorem extract_smart_content_idempotent (html url : string) (h : heap) :
  let first := extract_smart_content html url h in
  let second := extract_smart_content html url (snd first) in
  fst second = fst first.
Proof.
  cbv zeta. by rewrite !extract_smart_content_value.
Qed.

(** C7, what the code does: on every URL that contains [amazon.], the
    dictionary [extract_smart_content] returns fails the test of the
    direct stage, whatever the page holds. *)
Theorem amazon_overlay_fails_direct_test (html url : string) (h : heap)
    (smart : pyval) :
  str_contains "amazon." url = true ->
  fst (extract_smart_content html url h) = Ok smart ->
  has_main_or_sections smart = false.
Proof.
  intros Hurl. unfold extract_smart_content.
  destruct (get_domain url); [|discriminate]. rewrite Hurl. cbn [fst].
  intros [= <-]. unfold has_main_or_sections.
  by rewrite !extract_amazon_smart_lacks by tauto.
Qed.

End ExtractionProperties.

(** ** The tiered fetcher: cancellation *)

Section FetcherProperties.
Context `{!Urllib} `{!Bs4} `{!Regex}.

Ltac fetch_cases :=
  repeat match goal with
         | |- context [match ?x with _ => _ end] =>
             lazymatch x with
             | context [match _ with _ => _ end] => fail
             | _ => destruct x eqn:?
             end; cbn
         end.

(** C6: the values of [is_set()] that a run of the fetcher observes are
    those of its check points 0 (before it starts), 1 (before the direct
    HTTP stage), 2 (after the HTTP response), 3 (before the extraction
    fallback) and 4 (after the fallback download), in that order, as far
    as the run gets; and if any of them is [true] the fetcher returns
    null: no scrape is surfaced.  Each of the five check points is
    there: when the event is set at check point [k], the fetcher returns
    null whatever the network would deliver, unless the run ended before
    it got to that check point, which happens in two ways only:
    [get_domain] raised, between check points 0 and 1, or the direct
    stage returned its scrape, between check points 2 and 3.  So no
    scrape of the direct stage is returned once the event is set at one
    of the check points 0, 1 and 2, and no scrape of the fallback once it
    is set at any of the five. *)
Theorem stop_event_set_returns_none (N : net_env) (url : string)
    (timeout_seconds : Z) (is_set : nat -> bool) :
  let run :=
    try_scrape_smart_with_better_timeout N url timeout_seconds (Some is_set) in
  (exists reached, reached <= 5 /\ snd run = map is_set (seq 0 reached))
  /\ (true ∈ snd run -> fst run = Ok None)
  /\ forall k,
       k <= 4 ->
       is_set k = true ->
       fst run = Ok None
       \/ (1 <= k
           /\ is_set 0 = false
           /\ exists e, get_domain url = Raise e /\ fst run = Raise e)
       \/ (3 <= k
           /\ (forall j, j < 3 -> is_set j = false)
           /\ exists r,
                fst run = Ok (Some r)
                /\ scrape_method r = "requests+smart").
Proof.
  cbv zeta.
  unfold try_scrape_smart_with_better_timeout, run_fetch, try_except,
    fbind, check, call, freturn, fret.
  cbn. fetch_cases.
  all: simplify_eq/=.
  all: split;
    [ first [ by exists 1; split; [lia|cbn; congruence]
            | by exists 2; split; [lia|cbn; congruence]
            | by exists 3; split; [lia|cbn; congruence]
            | by exists 4; split; [lia|cbn; congruence]
            | by exists 5; split; [lia|cbn; congruence] ]
    | split;
      [ try reflexivity; intros Hin;
        repeat (apply elem_of_cons in Hin as [Hin|Hin]; [congruence|]);
        by apply elem_of_nil in Hin
      | ] ].
  all: intros k Hk Hset.
  all: try (by left).
  all: destruct k as [|[|[|[|[|k]]]]]; try lia; try congruence.
  all: first
    [ right; left; split; [lia|]; split; [done|]; by eauto
    | right; right; split; [lia|]; split;
      [ intros [|[|[|j]]] Hj; [done..|lia]
      | by eauto ] ].
Qed.

End FetcherProperties.

(** ** The dispatcher *)

Lemma for_done_bound (result_of : nat -> outcome (option scrape))
    (quota : Z) (done : list nat) :
  forall (pending : list nat) (successful : list scrape) (st : loop_state),
    (Z.of_nat (length successful) < Z.max 1 quota)%Z ->
    for_done result_of quota done pending successful = Ok st ->
    match st with
    | Running _ successful' =>
        (Z.of_nat (length successful') < Z.max 1 quota)%Z
    | Returned successful' =>
        (Z.of_nat (length successful') <= Z.max 1 quota)%Z
    end.
Proof.
  induction done as [|fut rest IH]; intros pending successful st Hlt Hrun.
  - cbn in Hrun. by injection Hrun as <-.
  - cbn [for_done] in Hrun.
    destruct (result_of fut) as [[r|]|e]; cbn [bind] in Hrun;
      [|by eapply IH|discriminate].
    destruct (quota <=? Z.of_nat (length (successful ++ [r])))%Z eqn:Hq.
    + injection Hrun as <-. rewrite length_app in *. cbn in *. lia.
    + eapply IH; [|exact Hrun].
      apply Z.leb_gt in Hq. lia.
Qed.

Lemma poll_loop_bound (result_of : nat -> outcome (option scrape))
    (quota : Z) (polls : list poll) :
  forall (pending : list nat) (successful out : list scrape) (ms ms' : Z),
    (Z.of_nat (length successful) < Z.max 1 quota)%Z ->
    poll_loop result_of quota polls pending successful ms = (Ok out, ms') ->
    (Z.of_nat (length out) <= Z.max 1 quota)%Z.
Proof.
  induction polls as [|p rest IH]; intros pending successful out ms ms' Hlt Hrun.
  - cbn in Hrun. injection Hrun as <- _. lia.
  - cbn [poll_loop] in Hrun. destruct pending as [|f pending].
    { injection Hrun as <- _. lia. }
    destruct (for_done result_of quota (done_among (f :: pending) (done p))
                       (f :: pending) successful) as [st|e] eqn:Hdone;
      [|discriminate].
    apply for_done_bound in Hdone; [|done].
    destruct st as [pending' successful'|successful'].
    + by eapply IH.
    + by injection Hrun as <- _.
Qed.

Lemma for_done_total (result_of : nat -> outcome (option scrape))
    (quota : Z) (done : list nat) :
  (forall fut, raises (result_of fut) = false) ->
  forall (pending : list nat) (successful : list scrape),
    exists st, for_done result_of quota done pending successful = Ok st.
Proof.
  intros Hok. induction done as [|fut rest IH]; intros pending successful.
  - cbn. eauto.
  - cbn [for_done]. specialize (Hok fut).
    destruct (result_of fut) as [[r|]|e]; cbn [bind]; [|apply IH|discriminate].
    destruct (quota <=? Z.of_nat (length (successful ++ [r])))%Z; eauto.
Qed.

Lemma poll_loop_total (result_of : nat -> outcome (option scrape))
    (quota : Z) (polls : list poll) :
  (forall fut, raises (result_of fut) = false) ->
  forall (pending : list nat) (successful : list scrape) (ms : Z),
    exists out,
      fst (poll_loop result_of quota polls pending successful ms) = Ok out.
Proof.
  intros Hok. induction polls as [|p rest IH]; intros pending successful ms.
  - cbn. eauto.
  - cbn [poll_loop]. destruct pending as [|f pending]; [cbn; eauto|].
    destruct (for_done_total result_of quota
                (done_among (f :: pending) (done p)) Hok
                (f :: pending) successful) as [st ->].
    destruct st; cbn; eauto.
Qed.

(** A fetch that returns null adds nothing to the successes. *)
Lemma for_done_none (result_of : nat -> outcome (option scrape))
    (quota : Z) (done : list nat) :
  (forall fut, result_of fut = Ok None) ->
  forall (pending : list nat) (successful : list scrape),
    exists pending',
      for_done result_of quota done pending successful
      = Ok (Running pending' successful).
Proof.
  intros Hnone. induction done as [|fut rest IH]; intros pending successful.
  - cbn. eauto.
  - cbn [for_done]. rewrite Hnone. cbn [bind]. apply IH.
Qed.

(** Every success the loop holds is the result of a fetch that returned
    it: a null result is never appended. *)
Lemma for_done_successes (result_of : nat -> outcome (option scrape))
    (quota : Z) (done : list nat) :
  forall (pending : list nat) (successful : list scrape) (st : loop_state),
    Forall (fun r => exists fut, result_of fut = Ok (Some r)) successful ->
    for_done result_of quota done pending successful = Ok st ->
    Forall (fun r => exists fut, result_of fut = Ok (Some r))
           match st with
           | Running _ successful' | Returned successful' => successful'
           end.
Proof.
  induction done as [|fut rest IH]; intros pending successful st Hall Hrun.
  - cbn in Hrun. by injection Hrun as <-.
  - cbn [for_done] in Hrun.
    destruct (result_of fut) as [[r|]|e] eqn:Hres; cbn [bind] in Hrun;
      [|by eapply IH|discriminate].
    assert (Forall (fun r => exists fut, result_of fut = Ok (Some r))
                   (successful ++ [r])) as Hall'
      by (apply Forall_app; split; [done|]; constructor; eauto).
    destruct (quota <=? Z.of_nat (length (successful ++ [r])))%Z.
    + by injection Hrun as <-.
    + by eapply IH.
Qed.

Lemma done_among_single (fut : nat) (reported : list nat) :
  fut ∈ reported -> done_among [fut] reported = [fut].
Proof.
  induction reported as [|f reported IH]; intros Hin.
  - by apply elem_of_nil in Hin.
  - cbn [done_among existsb]. destruct (Nat.eqb_spec f fut) as [->|Hne].
    + cbn. rewrite Nat.eqb_refl. cbn.
      clear. induction reported as [|g reported IH]; [done|]. cbn. exact IH.
    + cbn. apply IH. apply elem_of_cons in Hin as [->|]; done.
Qed.

Section DispatcherProperties.
Context `{!Urllib} `{!Bs4} `{!Regex}.

(** C1, as amended: [scrape_batch_parallel] returns at most
    [max(max_sites_needed, 1)] results, hence at most [max_sites_needed]
    whenever [max_sites_needed >= 1]: it appends one success at a time
    and returns as soon as the count reaches the quota.  It does return a
    list whenever the batch is not empty and no fetch raises. *)
Theorem scrape_batch_parallel_within_quota (E : batch_env)
    (urls : list string) (timeout_per_site max_sites_needed : Z) :
  (forall out ms,
      scrape_batch_parallel E urls timeout_per_site max_sites_needed
      = (Ok out, ms) ->
      (Z.of_nat (length out) <= Z.max 1 max_sites_needed)%Z)
  /\ (urls <> [] ->
      (forall fut,
          raises (future_result E urls timeout_per_site fut) = false) ->
      exists out,
        fst (scrape_batch_parallel E urls timeout_per_site max_sites_needed)
        = Ok out).
Proof.
  unfold scrape_batch_parallel. split.
  - intros out ms. destruct (Nat.min (length urls) 5 =? 0); [discriminate|].
    apply poll_loop_bound. cbn. lia.
  - intros Hne Hok. destruct urls as [|url urls]; [done|].
    replace (Nat.min (length (url :: urls)) 5 =? 0) with false
      by (symmetry; apply Nat.eqb_neq; cbn [length]; lia).
    by apply poll_loop_total.
Qed.

(** An exception raised inside the [try] block of the fetcher is
    absorbed: the fetcher raises only when [get_domain] does. *)
Lemma fetch_error_in_try_is_absorbed (N : net_env) (url : string)
    (timeout_seconds : Z) (stop_event : option (nat -> bool)) :
  raises (get_domain url) = false ->
  raises (fst (try_scrape_smart_with_better_timeout
                 N url timeout_seconds stop_event)) = false.
Proof.
  unfold try_scrape_smart_with_better_timeout, run_fetch, try_except,
    fbind, check, call, freturn, fret.
  destruct (get_domain url); [intros _|discriminate].
  cbn.
  repeat match goal with
         | |- context [match ?x with _ => _ end] =>
             lazymatch x with
             | context [match _ with _ => _ end] => fail
             | _ => destruct x eqn:?
             end; cbn
         end.
  all: by simplify_eq/=.
Qed.

(** C3, what the code does: when [get_domain] raises on the URL of a
    fetch, that exception leaves the fetcher (which calls [get_domain]
    before its [try]) and, through [fut.result()], the dispatcher. *)
Theorem scrape_batch_parallel_reraises (E : batch_env) (url : string)
    (timeout_per_site max_sites_needed : Z) (e : exn)
    (p : poll) (later : list poll) :
  get_domain url = Raise e ->
  stop_seen E 0 0 = false ->
  polls E = p :: later ->
  0 ∈ done p ->
  fst (scrape_batch_parallel E [url] timeout_per_site max_sites_needed)
  = Raise e.
Proof.
  intros Hdom Hstop Hpolls Hin.
  unfold scrape_batch_parallel. cbn [length Nat.min Nat.eqb seq].
  rewrite Hpolls. cbn [poll_loop]. rewrite (done_among_single 0 _ Hin).
  cbn [for_done]. unfold future_result at 1. cbn [lookup list_lookup].
  unfold try_scrape_smart_with_better_timeout, run_fetch, try_except,
    fbind, check, call, freturn, fret.
  by rewrite Hstop, Hdom.
Qed.

End DispatcherProperties.

(** ** The phase sequencer *)

Section SequencerProperties.
Context `{!Urllib} `{!Bs4} `{!Regex}.

(** The sequencer does the same whatever [max_total_time] it is given. *)
Lemma max_total_time_is_ignored (E : session_env) (query : string)
    (max_sites max_search_results t1 t2 : Z) :
  scrape_multiple_sites_truly_parallel E query max_sites t1 max_search_results
  = scrape_multiple_sites_truly_parallel E query max_sites t2 max_search_results.
Proof. reflexivity. Qed.

End SequencerProperties.

(** * Further properties of the resolver *)

Section ResolverExtras.
Context `{!Urllib}.

(** X1: the domain of an absolute URL depends on its host alone, and not
    on the case of the host: the scheme, the path, the query and the
    fragment play no part. *)
Theorem get_domain_ignores_scheme_path_case
    (scheme1 scheme2 host1 host2 rest1 rest2 : string) :
  well_formed_scheme scheme1 = true ->
  well_formed_scheme scheme2 = true ->
  str_forall host_char host1 = true ->
  str_forall host_char host2 = true ->
  starts_path rest1 = true ->
  starts_path rest2 = true ->
  str_lower host1 = str_lower host2 ->
  get_domain (scheme1 +:+ "://" +:+ host1 +:+ rest1)
  = get_domain (scheme2 +:+ "://" +:+ host2 +:+ rest2).
Proof.
  intros Hs1 Hs2 Hh1 Hh2 Hr1 Hr2 Hlow.
  rewrite (get_domain_netloc _ host1), (get_domain_netloc _ host2)
    by (by apply urlparse_netloc_absolute).
  by rewrite Hlow.
Qed.

Lemma filter_urls_loop_raises (urls : list string) :
  forall (seen : gset string) (filtered : list string),
    raises (filter_urls_loop urls seen filtered) = true
    <-> exists url, url ∈ urls /\ raises (get_domain url) = true.
Proof.
  induction urls as [|url urls IH]; intros seen filtered.
  - cbn. split; [discriminate|]. intros (url & Hin & _).
    by apply elem_of_nil in Hin.
  - cbn [filter_urls_loop].
    destruct (get_domain url) as [d|e] eqn:Hd; cbn [bind].
    + rewrite (is_blacklisted_domain _ _ Hd). cbn [bind].
      assert ((exists u, u ∈ url :: urls /\ raises (get_domain u) = true)
              <-> exists u, u ∈ urls /\ raises (get_domain u) = true) as ->.
      { split; intros (u & Hin & Hu); [|exists u; split; [by right|done]].
        apply elem_of_cons in Hin as [->|Hin]; [|by eauto].
        rewrite Hd in Hu. discriminate. }
      destruct (decide (d ∈ seen)); [apply IH|].
      destruct (domain_blacklisted d); apply IH.
    + cbn. split; [|done]. intros _. exists url. split; [by left|].
      by rewrite Hd.
Qed.

(** X2: [filter_urls] raises exactly when [urlparse] rejects one of the
    URLs; otherwise it returns a list. *)
Theorem filter_urls_raises_iff (urls : list string) :
  raises (filter_urls urls) = true
  <-> exists url, url ∈ urls /\ raises (get_domain url) = true.
Proof. apply filter_urls_loop_raises. Qed.

Lemma domain_blacklisted_false (domain : string) :
  (forall blacklisted, blacklisted ∈ BLACKLIST_DOMAINS ->
                       str_contains blacklisted domain = false) ->
  domain_blacklisted domain = false.
Proof.
  intros Hno. unfold domain_blacklisted.
  destruct (existsb _ BLACKLIST_DOMAINS) eqn:Hex; [|done].
  apply existsb_exists in Hex as (b & Hin & Hb).
  apply list_elem_of_In in Hin. rewrite (Hno b Hin) in Hb. discriminate.
Qed.

Lemma filter_urls_loop_invariant (urls : list string) :
  forall (seen : gset string) (filtered out : list string),
    filter_urls_loop urls seen filtered = Ok out ->
    exists kept doms,
      out = filtered ++ kept
      /\ sublist kept urls
      /\ Forall2 (fun url domain => get_domain url = Ok domain) kept doms
      /\ NoDup doms
      /\ Forall (fun domain => (domain ∉ seen)
                               /\ domain_blacklisted domain = false) doms.
Proof.
  induction urls as [|url urls IH]; intros seen filtered out Hrun.
  - cbn in Hrun. injection Hrun as <-. exists [], [].
    rewrite app_nil_r. repeat split; constructor.
  - cbn [filter_urls_loop] in Hrun.
    destruct (get_domain url) as [d|e] eqn:Hd; [|discriminate].
    cbn [bind] in Hrun. rewrite (is_blacklisted_domain _ _ Hd) in Hrun.
    cbn [bind] in Hrun.
    destruct (decide (d ∈ seen)) as [Hin|Hnin].
    { destruct (IH _ _ _ Hrun) as (kept & doms & -> & Hsub & Hd2 & Hnd & Hall).
      exists kept, doms. repeat split; try done. by apply sublist_cons. }
    destruct (domain_blacklisted d) eqn:Hb.
    { destruct (IH _ _ _ Hrun) as (kept & doms & -> & Hsub & Hd2 & Hnd & Hall).
      exists kept, doms. repeat split; try done. by apply sublist_cons. }
    destruct (IH _ _ _ Hrun) as (kept & doms & -> & Hsub & Hd2 & Hnd & Hall).
    exists (url :: kept), (d :: doms). repeat split.
    + by rewrite <- app_assoc.
    + by apply sublist_skip.
    + by constructor.
    + constructor; [|done]. intros Hin.
      rewrite Forall_forall in Hall. apply Hall in Hin as [Hin _].
      apply Hin, elem_of_union. left. by apply elem_of_singleton.
    + constructor; [done|].
      eapply Forall_impl; [exact Hall|]. intros d' [Hd' Hb']. split; [|done].
      intros Hin. apply Hd', elem_of_union. by right.
Qed.

(** X3: what [filter_urls] returns is a sublist of its input (the kept
    URLs, in their order) whose normalized domains are pairwise distinct
    and none of which is blacklisted. *)
Theorem filter_urls_output (urls out : list string) :
  filter_urls urls = Ok out ->
  sublist out urls
  /\ exists doms,
       Forall2 (fun url domain => get_domain url = Ok domain) out doms
       /\ NoDup doms
       /\ Forall (fun domain => domain_blacklisted domain = false) doms.
Proof.
  intros Hrun. unfold filter_urls in Hrun.
  destruct (filter_urls_loop_invariant _ _ _ _ Hrun)
    as (kept & doms & -> & Hsub & Hd & Hnd & Hall).
  split; [done|]. exists doms. repeat split; try done.
  eapply Forall_impl; [exact Hall|]. by intros d [_ ?].
Qed.

Lemma filter_urls_loop_keeps_all (urls doms : list string) :
  Forall2 (fun url domain => get_domain url = Ok domain) urls doms ->
  NoDup doms ->
  Forall (fun domain => domain_blacklisted domain = false) doms ->
  forall (seen : gset string) (filtered : list string),
    (forall d, d ∈ doms -> d ∉ seen) ->
    filter_urls_loop urls seen filtered = Ok (filtered ++ urls).
Proof.
  induction 1 as [|url d urls doms Hd _ IH];
    intros Hnd Hall seen filtered Hfresh.
  - cbn. by rewrite app_nil_r.
  - cbn [filter_urls_loop]. rewrite Hd. cbn [bind].
    rewrite (is_blacklisted_domain _ _ Hd). cbn [bind].
    apply NoDup_cons in Hnd as [Hd_new Hnd].
    apply Forall_cons in Hall as [Hb Hall].
    destruct (decide (d ∈ seen)) as [Hin|_];
      [by destruct (Hfresh d); [left|]|].
    rewrite Hb, IH; [by rewrite <- app_assoc|done|done|].
    intros d' Hd'. specialize (Hfresh d' ltac:(by right)).
    intros [->%elem_of_singleton|Hin]%elem_of_union; done.
Qed.

(** X4: [filter_urls] is idempotent: filtering its own output changes
    nothing. *)
Theorem filter_urls_idempotent (urls out : list string) :
  filter_urls urls = Ok out -> filter_urls out = Ok out.
Proof.
  intros Hrun. destruct (filter_urls_output _ _ Hrun)
    as (_ & doms & Hd & Hnd & Hall).
  unfold filter_urls.
  rewrite (filter_urls_loop_keeps_all out doms Hd Hnd Hall); [done|].
  set_solver.
Qed.

(** The hits of a run and their domains, as the loop invariant gives
    them. *)
Lemma scrape_searxng_local_hits (backend : string -> http_reply)
    (query : string) (max_results : Z) :
  exists (out : list search_hit) (doms : list string),
    scrape_searxng_local backend query max_results = Ok out
    /\ resolved (response_items (backend query)) max_results out doms.
Proof.
  unfold scrape_searxng_local.
  destruct (searxng_try backend query max_results) as [out|e] eqn:Hrun.
  - enough (exists doms,
              resolved (response_items (backend query)) max_results out doms)
      as [doms Hd] by eauto.
    unfold searxng_try in Hrun.
    destruct (backend query) as [e|status json]; [discriminate|].
    cbn in Hrun.
    destruct (raise_for_status status); [|discriminate]. cbn in Hrun.
    destruct json as [[| | | | | |d]|]; try discriminate Hrun.
    cbn in Hrun. cbn [response_items].
    destruct (assoc_get "results" d) as [found|]; cbn in Hrun;
      [|injection Hrun as <-; eexists; apply resolved_nil].
    destruct (truthy found); cbn in Hrun;
      [|injection Hrun as <-; eexists; apply resolved_nil].
    destruct (py_iter found) as [items|]; [|discriminate]. cbn in Hrun.
    eapply (searxng_loop_resolved _ _ items [] ∅ []); eauto.
    + apply resolved_nil.
    + intros x Hx. by apply elem_of_nil in Hx.
  - exists [], [].
    split; [by destruct (is_HTTPError e), (is_RequestException e)|].
    apply resolved_nil.
Qed.

Lemma filter_urls_resolved (all : list pyval) (max_results : Z)
    (hits : list search_hit) (doms : list string) :
  resolved all max_results hits doms ->
  filter_urls (map href hits) = Ok (map href hits)
  /\ Forall (fun hit => raises (get_domain (href hit)) = false) hits.
Proof.
  intros (_ & _ & Hd & Hnd & Hall). split.
  - unfold filter_urls.
    rewrite (filter_urls_loop_keeps_all (map href hits) doms);
      [done| |done| |].
    + by apply Forall2_fmap_l.
    + eapply Forall_impl; [exact Hall|]. apply domain_blacklisted_false.
    + intros d _. apply not_elem_of_empty.
  - clear -Hd. induction Hd as [|hit d hits doms Hhit _ IH]; constructor;
      [by rewrite Hhit|done].
Qed.

(** X5: the URLs of the hits [scrape_searxng_local] returns pass
    [filter_urls] unchanged, so the second filtering that the sequencer
    applies to them removes nothing. *)
Theorem filter_urls_of_search_hits (backend : string -> http_reply)
    (query : string) (max_results : Z) (hits : list search_hit) :
  scrape_searxng_local backend query max_results = Ok hits ->
  filter_urls (map href hits) = Ok (map href hits).
Proof.
  intros Hrun.
  destruct (scrape_searxng_local_hits backend query max_results)
    as (out & doms & Hout & Hres).
  rewrite Hrun in Hout. injection Hout as <-.
  by apply filter_urls_resolved in Hres as [? _].
Qed.

End ResolverExtras.

Section SearchExtras.
Context `{!Urllib}.

Lemma pyval_is_str (v : pyval) :
  (exists s, v = PStr s) \/ (forall s, v <> PStr s).
Proof. destruct v; eauto. Qed.

Lemma searxng_loop_malformed (max_results : Z) (bad : pyval)
    (rest pre : list pyval) :
  malformed_entry bad = true ->
  forall (results : list search_hit) (seen : gset string)
         (out : list search_hit),
    searxng_loop pre max_results results seen = Ok out ->
    (Z.of_nat (length out) < max_results)%Z ->
    raises (searxng_loop (pre ++ bad :: rest) max_results results seen) = true.
Proof.
  intros Hbad. induction pre as [|entry pre IH]; intros results seen out Hrun Hlt.
  - cbn in Hrun. injection Hrun as <-. cbn [app searxng_loop].
    replace (max_results <=? Z.of_nat (length results))%Z with false
      by (symmetry; apply Z.leb_gt; lia).
    destruct bad as [| | | | | |d]; try reflexivity.
    cbn [py_get bind]. cbn [malformed_entry] in Hbad.
    destruct (assoc_get "url" d) as [u|]; [|discriminate].
    change (default (PStr "") (Some u)) with u.
    destruct (pyval_is_str u) as [[url ->]|Hother].
    + apply andb_true_iff in Hbad as [Hurl Hraise].
      cbn [truthy]. rewrite Hurl. cbn [negb as_url bind].
      unfold is_blacklisted. by destruct (get_domain url).
    + assert (truthy u = true /\ raises (as_url u) = true) as [-> Hurl]
        by (destruct u; try (by destruct (Hother s)); by split).
      cbn [negb]. by destruct (as_url u).
  - cbn [app searxng_loop] in *.
    destruct (max_results <=? Z.of_nat (length results))%Z eqn:Hfull.
    { injection Hrun as <-. apply Z.leb_le in Hfull. lia. }
    destruct entry as [| | | | | |d]; try discriminate Hrun.
    cbn [py_get bind] in *.
    destruct (truthy (default (PStr "") (assoc_get "url" d)));
      cbn [negb] in *; [|by eapply IH].
    destruct (as_url (default (PStr "") (assoc_get "url" d))) as [url|];
      [|discriminate]. cbn [bind] in *.
    destruct (is_blacklisted url) as [[]|]; [by eapply IH| |discriminate].
    cbn [bind] in *.
    destruct (get_domain url) as [domain|]; [|discriminate]. cbn [bind] in *.
    destruct (decide (domain ∈ seen)); by eapply IH.
Qed.

(** X6: one entry the loop cannot read, met before [max_results] hits
    are gathered, makes [scrape_searxng_local] return the empty list: the
    hits gathered from the entries before it are discarded. *)
Theorem scrape_searxng_local_discards_on_malformed
    (backend : string -> http_reply) (query : string) (max_results : Z)
    (status : Z) (d : list (string * pyval)) (pre rest : list pyval)
    (bad : pyval) (hits : list search_hit) :
  backend query = Reply status (Some (PDict d)) ->
  ((400 <=? status) && (status <? 600))%Z = false ->
  assoc_get "results" d = Some (PList (pre ++ bad :: rest)) ->
  malformed_entry bad = true ->
  searxng_loop pre max_results [] ∅ = Ok hits ->
  (Z.of_nat (length hits) < max_results)%Z ->
  scrape_searxng_local backend query max_results = Ok [].
Proof.
  intros Hreply Hstatus Hresults Hbad Hpre Hlt.
  pose proof (searxng_loop_malformed max_results bad rest pre Hbad
                [] ∅ hits Hpre Hlt) as Hraise.
  unfold scrape_searxng_local, searxng_try. rewrite Hreply. cbn.
  unfold raise_for_status. rewrite Hstatus. cbn. rewrite Hresults. cbn.
  rewrite length_app. cbn [length].
  replace (length pre + S (length rest) =? 0) with false
    by (symmetry; apply Nat.eqb_neq; lia).
  cbn.
  destruct (searxng_loop (pre ++ bad :: rest) max_results [] ∅) as [|e];
    [discriminate|].
  by destruct (is_HTTPError e), (is_RequestException e).
Qed.

End SearchExtras.

(** * Further properties of [clean_text] *)

Lemma lstrip_length (s : string) : String.length (lstrip s) <= String.length s.
Proof.
  induction s as [|c s IH]; cbn; [lia|]. destruct (is_space c); cbn; lia.
Qed.

Lemma rstrip_length (s : string) : String.length (rstrip s) <= String.length s.
Proof.
  induction s as [|c s IH]; cbn; [lia|].
  destruct (is_space c && String.eqb (rstrip s) ""); cbn; lia.
Qed.

Lemma collapse_spaces_length (prev : bool) (s : string) :
  String.length (collapse_spaces prev s) <= String.length s.
Proof.
  revert prev. induction s as [|c s IH]; intros prev; cbn; [lia|].
  pose proof (IH true). pose proof (IH false).
  destruct (is_space c); [destruct prev|]; cbn; lia.
Qed.

Lemma remove_words_length (words : list string) (s : string) :
  forall skip, String.length (remove_words words skip s) <= String.length s.
Proof.
  induction s as [|c s IH]; intros skip; cbn [remove_words]; [cbn; lia|].
  destruct skip as [|k]; [|specialize (IH k); cbn; lia].
  destruct (List.find _ words) as [w|].
  - specialize (IH (String.length w - 1)). cbn. lia.
  - specialize (IH 0). cbn. lia.
Qed.

Lemma remove_words_forall (p : ascii -> bool) (words : list string)
    (s : string) :
  str_forall p s = true ->
  forall skip, str_forall p (remove_words words skip s) = true.
Proof.
  induction s as [|c s IH]; intros Hs skip; cbn [remove_words]; [done|].
  cbn in Hs. apply andb_true_iff in Hs as [Hc Hs].
  destruct skip as [|k]; [|by apply IH].
  destruct (List.find _ words) as [w|]; [by apply IH|].
  cbn. by rewrite Hc, IH.
Qed.

Lemma collapse_spaces_blank (prev : bool) (s : string) :
  str_forall space_or_visible (collapse_spaces prev s) = true.
Proof.
  revert prev. induction s as [|c s IH]; intros prev; cbn; [done|].
  destruct (is_space c) eqn:Hc; [destruct prev|]; cbn; rewrite ?IH; try done.
  unfold space_or_visible. by rewrite Hc.
Qed.

Lemma lstrip_blank (s : string) :
  str_forall is_space s = true -> lstrip s = "".
Proof.
  induction s as [|c s IH]; cbn; [done|].
  intros [-> Hs]%andb_true_iff. by apply IH.
Qed.

(** X7: [clean_text] never lengthens a text, leaves no whitespace
    character other than the space in it, and turns a text made of
    whitespace only into the empty string. *)
Theorem clean_text_normalizes (text : string) :
  String.length (clean_text text) <= String.length text
  /\ str_forall space_or_visible (clean_text text) = true
  /\ (str_forall is_space text = true -> clean_text text = "").
Proof.
  unfold clean_text. destruct (String.eqb text "") eqn:Hempty.
  { repeat split; first [done|cbn; lia]. }
  repeat split.
  - etransitivity; [apply remove_words_length|].
    etransitivity; [apply collapse_spaces_length|].
    unfold str_strip.
    etransitivity; [apply rstrip_length|]. apply lstrip_length.
  - apply remove_words_forall, collapse_spaces_blank.
  - intros Hblank. unfold str_strip. by rewrite lstrip_blank.
Qed.

(** * Further properties of the tiered fetcher *)

Section FetcherExtras.
Context `{!Urllib} `{!Bs4} `{!Regex}.

Ltac fetch_paths :=
  unfold try_scrape_smart_with_better_timeout, run_fetch, try_except,
    fbind, check, call, freturn, fret;
  cbn;
  repeat match goal with
         | |- context [match ?x with _ => _ end] =>
             lazymatch x with
             | context [match _ with _ => _ end] => fail
             | _ => destruct x eqn:?
             end; cbn
         end.

Lemma fetch_success_url (N : net_env) (url : string)
    (timeout_seconds : Z) (stop_event : option (nat -> bool)) (r : scrape) :
  fst (try_scrape_smart_with_better_timeout N url timeout_seconds stop_event)
  = Ok (Some r) ->
  scrape_url r = url.
Proof.
  fetch_paths.
  all: intros Hrun; by simplify_eq/=.
Qed.

Lemma fetch_success_extracted (N : net_env) (url : string)
    (timeout_seconds : Z) (stop_event : option (nat -> bool)) (r : scrape) :
  fst (try_scrape_smart_with_better_timeout N url timeout_seconds stop_event)
  = Ok (Some r) ->
  exists html, extracted html url = Ok (scrape_content r).
Proof.
  fetch_paths.
  all: intros Hrun; simplify_eq/=; eauto.
Qed.

Lemma resp_ok_true (resp : response) :
  resp_ok resp = true -> ~ (400 <= status_code resp < 600)%Z.
Proof.
  unfold resp_ok, raise_for_status. intros Hok [? ?].
  replace ((400 <=? status_code resp) && (status_code resp <? 600))%Z
    with true in Hok; [discriminate|].
  symmetry. apply andb_true_iff. split; [by apply Z.leb_le|by apply Z.ltb_lt].
Qed.

(** X8: what a successful fetch is made of.  The scrape carries the URL
    that was asked for; it comes either from the direct stage, with a GET
    that answered with a status outside 400-599 ([resp.ok]) and a
    dictionary that passes the test of that stage, or from the fallback,
    which is reached only when the GET returned without raising, more
    than two seconds of the timeout remain and trafilatura downloaded a
    non-empty text. *)
Theorem fetch_success_origin (N : net_env) (url : string)
    (timeout_seconds : Z) (stop_event : option (nat -> bool)) (r : scrape) :
  fst (try_scrape_smart_with_better_timeout N url timeout_seconds stop_event)
  = Ok (Some r) ->
  scrape_url r = url
  /\ ((scrape_method r = "requests+smart"
       /\ exists resp,
            requests_get N = Ok resp
            /\ ~ (400 <= status_code resp < 600)%Z
            /\ extracted (text resp) url = Ok (scrape_content r)
            /\ has_main_or_sections (scrape_content r) = true)
      \/ (scrape_method r = "trafilatura+smart"
          /\ (exists resp, requests_get N = Ok resp)
          /\ (2000 < timeout_seconds * 1000 - elapsed_ms N)%Z
          /\ exists html,
               fetch_url N = Ok (Some html) /\ html <> ""
               /\ extracted html url = Ok (scrape_content r))).
Proof.
  fetch_paths.
  all: intros Hrun; simplify_eq/=.
  all: split; [reflexivity|].
  all: first
    [ left; split; [reflexivity|]; eexists;
      split; [reflexivity|]; split; [by apply resp_ok_true|];
      split; [done|];
      match goal with
      | H : truthy _ && has_main_or_sections _ = true |- _ =>
          by apply andb_true_iff in H as [_ ?]
      end
    | right; split; [reflexivity|]; split; [by eauto|];
      split; [by apply Z.ltb_lt|];
      eexists; repeat split; try done;
      match goal with
      | H : negb (String.eqb _ "") = true |- _ =>
          apply negb_true_iff in H; by apply String.eqb_neq in H
      end ].
Qed.

(** X9: when the GET raises, the fetch returns null at once: the
    fallback download is inside the same [try] and is not attempted. *)
Theorem fetch_get_error_skips_fallback (N : net_env) (url : string)
    (timeout_seconds : Z) (stop_event : option (nat -> bool)) (e : exn) :
  raises (get_domain url) = false ->
  requests_get N = Raise e ->
  fst (try_scrape_smart_with_better_timeout N url timeout_seconds stop_event)
  = Ok None.
Proof.
  intros Hdom Hget.
  unfold try_scrape_smart_with_better_timeout, run_fetch, try_except,
    fbind, check, call, freturn, fret.
  rewrite Hget. destruct (get_domain url); [|discriminate].
  destruct stop_event as [is_set|]; [|reflexivity].
  by destruct (is_set 0), (is_set 1).
Qed.

End FetcherExtras.

(** * Further properties of the dispatcher *)

Lemma filter_ne_length (fut : nat) (pending : list nat) :
  fut ∈ pending ->
  length (List.filter (fun f => negb (f =? fut)) pending) < length pending.
Proof.
  induction pending as [|f pending IH]; intros Hin.
  - by apply elem_of_nil in Hin.
  - cbn. destruct (Nat.eqb_spec f fut) as [->|Hne]; cbn.
    + clear. induction pending as [|g pending IH]; cbn; [lia|].
      destruct (negb (g =? fut)); cbn; lia.
    + apply elem_of_cons in Hin as [->|Hin]; [done|].
      specialize (IH Hin). lia.
Qed.

Lemma filter_ne_elem (fut g : nat) (pending : list nat) :
  g ∈ List.filter (fun f => negb (f =? fut)) pending <-> g ∈ pending /\ g <> fut.
Proof.
  rewrite !list_elem_of_In, filter_In, negb_true_iff, Nat.eqb_neq. tauto.
Qed.

Lemma done_among_spec (reported : list nat) :
  forall pending,
    NoDup (done_among pending reported)
    /\ forall fut, fut ∈ done_among pending reported -> fut ∈ pending.
Proof.
  induction reported as [|f reported IH]; intros pending; cbn.
  - split; [constructor|]. intros fut Hin. by apply elem_of_nil in Hin.
  - destruct (existsb (Nat.eqb f) pending) eqn:Hex; [|apply IH].
    destruct (IH (List.filter (fun g => negb (g =? f)) pending)) as [Hnd Hsub].
    apply existsb_exists in Hex as (g & Hg & ->%Nat.eqb_eq).
    apply list_elem_of_In in Hg. split.
    + constructor; [|done]. intros Hin%Hsub%filter_ne_elem. tauto.
    + intros fut [->|Hin%Hsub%filter_ne_elem]%elem_of_cons; tauto.
Qed.

(** The successes and the futures still pending never outnumber the
    futures submitted. *)
Lemma for_done_count (result_of : nat -> outcome (option scrape))
    (quota : Z) (n : nat) (done : list nat) :
  forall (pending : list nat) (successful : list scrape) (st : loop_state),
    NoDup done ->
    (forall fut, fut ∈ done -> fut ∈ pending) ->
    length successful + length pending <= n ->
    for_done result_of quota done pending successful = Ok st ->
    match st with
    | Running pending' successful' =>
        length successful' + length pending' <= n
    | Returned successful' => length successful' <= n
    end.
Proof.
  induction done as [|fut rest IH];
    intros pending successful st Hnd Hsub Hcount Hrun.
  - cbn in Hrun. by injection Hrun as <-.
  - cbn [for_done] in Hrun.
    apply NoDup_cons in Hnd as [Hfresh Hnd].
    pose proof (filter_ne_length fut pending (Hsub fut ltac:(by left))) as Hlt.
    assert (forall g, g ∈ rest ->
              g ∈ List.filter (fun f => negb (f =? fut)) pending) as Hsub'.
    { intros g Hg. apply filter_ne_elem. split; [apply Hsub; by right|].
      by intros ->. }
    destruct (result_of fut) as [[r|]|e]; cbn [bind] in Hrun; [| |discriminate].
    + destruct (quota <=? Z.of_nat (length (successful ++ [r])))%Z.
      * injection Hrun as <-. rewrite length_app. cbn. lia.
      * eapply IH; [done|done| |exact Hrun]. rewrite length_app. cbn. lia.
    + eapply IH; [done|done| |exact Hrun]. lia.
Qed.

Lemma poll_loop_count (result_of : nat -> outcome (option scrape))
    (quota : Z) (n : nat) (polls : list poll) :
  forall (pending : list nat) (successful out : list scrape) (ms ms' : Z),
    length successful + length pending <= n ->
    poll_loop result_of quota polls pending successful ms = (Ok out, ms') ->
    length out <= n.
Proof.
  induction polls as [|p rest IH];
    intros pending successful out ms ms' Hcount Hrun.
  - cbn in Hrun. injection Hrun as <- _. lia.
  - cbn [poll_loop] in Hrun. destruct pending as [|f pending].
    { injection Hrun as <- _. lia. }
    destruct (done_among_spec (done p) (f :: pending)) as [Hnd Hsub].
    destruct (for_done result_of quota (done_among (f :: pending) (done p))
                       (f :: pending) successful) as [st|e] eqn:Hdone;
      [|discriminate].
    apply (for_done_count _ _ n) in Hdone; [|done..].
    destruct st as [pending' successful'|successful'].
    + by eapply IH.
    + by injection Hrun as <- _.
Qed.

Lemma poll_loop_successes (result_of : nat -> outcome (option scrape))
    (quota : Z) (polls : list poll) :
  forall (pending : list nat) (successful out : list scrape) (ms ms' : Z),
    Forall (fun r => exists fut, result_of fut = Ok (Some r)) successful ->
    poll_loop result_of quota polls pending successful ms = (Ok out, ms') ->
    Forall (fun r => exists fut, result_of fut = Ok (Some r)) out.
Proof.
  induction polls as [|p rest IH];
    intros pending successful out ms ms' Hall Hrun.
  - cbn in Hrun. by injection Hrun as <- _.
  - cbn [poll_loop] in Hrun. destruct pending as [|f pending].
    { by injection Hrun as <- _. }
    destruct (for_done result_of quota (done_among (f :: pending) (done p))
                       (f :: pending) successful) as [st|e] eqn:Hdone;
      [|discriminate].
    apply for_done_successes in Hdone; [|done].
    destruct st as [pending' successful'|successful'].
    + by eapply IH.
    + by injection Hrun as <- _.
Qed.

Section DispatcherExtras.
Context `{!Urllib} `{!Bs4} `{!Regex}.

(** X10: [scrape_batch_parallel] never returns more results than it was
    given URLs, and every result it returns is the scrape of one of
    those URLs, obtained from the fetch of that URL. *)
Theorem scrape_batch_parallel_results (E : batch_env) (urls : list string)
    (timeout_per_site max_sites_needed : Z) (out : list scrape) (ms : Z) :
  scrape_batch_parallel E urls timeout_per_site max_sites_needed
  = (Ok out, ms) ->
  length out <= length urls
  /\ Forall (fun r =>
               exists fut,
                 urls !! fut = Some (scrape_url r)
                 /\ future_result E urls timeout_per_site fut = Ok (Some r))
            out.
Proof.
  unfold scrape_batch_parallel.
  destruct (Nat.min (length urls) 5 =? 0); [discriminate|]. intros Hrun.
  split.
  - eapply poll_loop_count; [|exact Hrun]. rewrite length_seq. cbn. lia.
  - apply poll_loop_successes in Hrun; [|constructor].
    eapply Forall_impl; [exact Hrun|]. intros r [fut Hfut].
    exists fut. split; [|done]. unfold future_result in Hfut.
    destruct (urls !! fut) as [url|]; [|discriminate].
    by apply fetch_success_url in Hfut as ->.
Qed.

End DispatcherExtras.

(** * Properties of the rendered tier *)



Lemma pw_loop_successes (result_of : nat -> outcome (option scrape))
    (quota : Z) (completed : list nat) :
  forall successful : list scrape,
    Forall (fun r => exists fut, result_of fut = Ok (Some r)) successful ->
    Forall (fun r => exists fut, result_of fut = Ok (Some r))
           (pw_loop result_of quota completed successful).
Proof.
  induction completed as [|fut rest IH]; intros successful Hall; cbn; [done|].
  destruct (result_of fut) as [[r|]|e] eqn:Hres; [|by apply IH..].
  assert (Forall (fun r => exists fut, result_of fut = Ok (Some r))
                 (successful ++ [r])) as Hall'
    by (apply Forall_app; split; [done|]; constructor; eauto).
  destruct (quota <=? Z.of_nat (length (successful ++ [r])))%Z; [done|].
  by apply IH.
Qed.


Lemma mapM_ok {A B} (f : A -> outcome B) (l : list A) :
  Forall (fun x => raises (f x) = false) l -> exists ys, mapM f l = Ok ys.
Proof.
  induction 1 as [|x l Hx _ [ys IH]]; cbn; [by eauto|].
  destruct (f x); [|discriminate]. cbn. rewrite IH. cbn. eauto.
Qed.

Lemma filterM_ok {A} (f : A -> outcome bool) (l : list A) :
  Forall (fun x => raises (f x) = false) l -> exists xs, filterM f l = Ok xs.
Proof.
  induction 1 as [|x l Hx _ [xs IH]]; cbn; [by eauto|].
  destruct (f x); [|discriminate]. cbn. rewrite IH. cbn. eauto.
Qed.


Section PlaywrightBatchProperties.
Context `{!Urllib}.

Lemma scrape_batch_playwright_successes (available : bool) (E : pw_env)
    (urls : list string) (timeout_per_site max_sites_needed : Z)
    (out : list scrape) (ms : Z) :
  scrape_batch_playwright available E urls timeout_per_site max_sites_needed
  = (Ok out, ms) ->
  Forall (fun r => exists fut, pw_result E fut = Ok (Some r)) out.
Proof.
  unfold scrape_batch_playwright. destruct available; cbn [negb].
  - destruct (mapM get_domain urls); [|discriminate].
    destruct (length urls =? 0); [discriminate|]. intros [= <- _].
    apply pw_loop_successes. constructor.
  - intros [= <- _]. constructor.
Qed.

Lemma scrape_batch_playwright_ok (available : bool) (E : pw_env)
    (urls : list string) (timeout_per_site max_sites_needed : Z) :
  urls <> [] ->
  Forall (fun url => raises (get_domain url) = false) urls ->
  exists out ms,
    scrape_batch_playwright available E urls timeout_per_site
                            max_sites_needed = (Ok out, ms).
Proof.
  intros Hne Hparse. unfold scrape_batch_playwright.
  destruct available; cbn [negb]; [|by eauto].
  destruct (mapM_ok get_domain urls Hparse) as [domains ->].
  destruct urls; [done|]. cbn [length Nat.eqb]. eauto.
Qed.


End PlaywrightBatchProperties.

Section PlaywrightExtras.
Context `{!Urllib} `{!Bs4} `{!Regex}.

Lemma playwright_success_extracted (available : bool) (B : browser_env)
    (url : string) (timeout_seconds : Z) (r : scrape) :
  try_playwright_scrape_smart available B url timeout_seconds = Ok (Some r) ->
  scrape_url r = url
  /\ exists html, extracted html url = Ok (scrape_content r).
Proof.
  unfold try_playwright_scrape_smart, playwright_page.
  destruct available; [|discriminate]. cbn [negb].
  destruct (pw_launch B) as [[]|e]; cbn [bind];
    [|by destruct (is_TimeoutError e)].
  destruct (pw_close B) as [[]|e]; cbn [bind];
    [|by destruct (is_TimeoutError e)].
  destruct (expired_before_goto B); [discriminate|].
  destruct (pw_goto B) as [[]|]; cbn [bind]; [|discriminate].
  destruct (expired_after_goto B); [discriminate|].
  destruct (pw_content B) as [html|]; cbn [bind]; [|discriminate].
  destruct (extracted html url) as [smart|] eqn:Hsmart; cbn [bind];
    [|discriminate].
  destruct (truthy smart && has_main_or_title smart); [|discriminate].
  intros [= <-]. split; [done|]. by exists html.
Qed.

(** X11: a rendered fetch that succeeds returns the URL it was asked
    for with the method [playwright+smart] and a dictionary, extracted
    from the rendered page, that has a main content or a title; the
    browser started and closed, the navigation went through, and neither
    timeout check fired. *)
Theorem playwright_success_origin (available : bool) (B : browser_env)
    (url : string) (timeout_seconds : Z) (r : scrape) :
  try_playwright_scrape_smart available B url timeout_seconds = Ok (Some r) ->
  available = true
  /\ scrape_url r = url
  /\ scrape_method r = "playwright+smart"
  /\ has_main_or_title (scrape_content r) = true
  /\ pw_launch B = Ok tt /\ pw_goto B = Ok tt /\ pw_close B = Ok tt
  /\ expired_before_goto B = false /\ expired_after_goto B = false
  /\ exists html,
       pw_content B = Ok html /\ extracted html url = Ok (scrape_content r).
Proof.
  unfold try_playwright_scrape_smart, playwright_page.
  destruct available; [|discriminate]. cbn [negb].
  destruct (pw_launch B) as [[]|e]; cbn [bind];
    [|by destruct (is_TimeoutError e)].
  destruct (pw_close B) as [[]|e]; cbn [bind];
    [|by destruct (is_TimeoutError e)].
  destruct (expired_before_goto B); [discriminate|].
  destruct (pw_goto B) as [[]|]; cbn [bind]; [|discriminate].
  destruct (expired_after_goto B); [discriminate|].
  destruct (pw_content B) as [html|]; cbn [bind]; [|discriminate].
  destruct (extracted html url) as [smart|] eqn:Hsmart; cbn [bind];
    [|discriminate].
  destruct (truthy smart && has_main_or_title smart) eqn:Htest;
    [|discriminate].
  intros [= <-]. apply andb_true_iff in Htest as [_ Htest].
  repeat split; try done. by exists html.
Qed.

(** X12: once the browser has started and as long as closing it does
    not fail, the rendered fetch raises nothing: a timeout noticed before
    or after the navigation, and any exception of the navigation, of
    reading the page or of the extraction, all give null. *)
Theorem playwright_absorbs_page_errors (available : bool) (B : browser_env)
    (url : string) (timeout_seconds : Z) :
  pw_launch B = Ok tt ->
  pw_close B = Ok tt ->
  raises (try_playwright_scrape_smart available B url timeout_seconds) = false
  /\ (expired_before_goto B = true \/ expired_after_goto B = true
      \/ raises (pw_goto B) = true \/ raises (pw_content B) = true ->
      try_playwright_scrape_smart available B url timeout_seconds = Ok None).
Proof.
  intros Hlaunch Hclose.
  unfold try_playwright_scrape_smart, playwright_page.
  rewrite Hlaunch, Hclose. destruct available; cbn; [|by split].
  split; [done|].
  destruct (expired_before_goto B); [done|].
  destruct (pw_goto B) as [[]|]; cbn; [|done].
  destruct (expired_after_goto B); [done|].
  destruct (pw_content B); cbn; [|done].
  intros [|[|[|]]]; discriminate.
Qed.

(** An exception other than a [TimeoutError] raised while the browser
    starts does leave the rendered fetch. *)
Lemma playwright_launch_error_escapes (B : browser_env) (url : string)
    (timeout_seconds : Z) (e : exn) :
  pw_launch B = Raise e ->
  try_playwright_scrape_smart true B url timeout_seconds
  = if is_TimeoutError e then Ok None else Raise e.
Proof.
  intros Hlaunch. unfold try_playwright_scrape_smart. by rewrite Hlaunch.
Qed.

End PlaywrightExtras.

(** * Further properties of the phase sequencer *)

Lemma filterM_Forall {A} (f : A -> outcome bool) (P : A -> Prop)
    (l xs : list A) :
  filterM f l = Ok xs -> Forall P l -> Forall P xs.
Proof.
  revert xs. induction l as [|x l IH]; intros xs; cbn.
  - by intros [= <-].
  - destruct (f x) as [keep|]; [|discriminate]. cbn.
    destruct (filterM f l) as [xs'|]; [|discriminate]. cbn.
    intros [= <-] [Hx Hl]%Forall_cons. specialize (IH xs' eq_refl Hl).
    destruct keep; [by constructor|done].
Qed.

Lemma py_take_length {A} (n : Z) (l : list A) :
  (1 <= n)%Z -> l <> [] ->
  1 <= length (py_take n l) /\ (Z.of_nat (length (py_take n l)) <= n)%Z.
Proof.
  intros Hn Hl. unfold py_take.
  replace (0 <=? n)%Z with true by (symmetry; apply Z.leb_le; lia).
  rewrite length_take. destruct l; [done|]. cbn [length]. lia.
Qed.

Section SequencerExtras.
Context `{!Urllib} `{!Bs4} `{!Regex}.

Lemma batch_parallel_ok (E : batch_env) (urls : list string)
    (timeout_per_site max_sites_needed : Z) :
  urls <> [] ->
  Forall (fun url => raises (get_domain url) = false) urls ->
  exists out ms,
    scrape_batch_parallel E urls timeout_per_site max_sites_needed
    = (Ok out, ms)
    /\ Forall (fun r => scrape_url r ∈ urls) out.
Proof.
  intros Hne Hparse.
  assert (forall fut,
             raises (future_result E urls timeout_per_site fut) = false)
    as Hok.
  { intros fut. unfold future_result.
    destruct (urls !! fut) as [url|] eqn:Hurl; [|done].
    apply fetch_error_in_try_is_absorbed.
    rewrite Forall_forall in Hparse. apply Hparse.
    by eapply list_elem_of_lookup_2. }
  unfold scrape_batch_parallel.
  replace (Nat.min (length urls) 5 =? 0) with false
    by (symmetry; apply Nat.eqb_neq; destruct urls; [done|cbn [length]; lia]).
  destruct (poll_loop_total (future_result E urls timeout_per_site)
              max_sites_needed (polls E) Hok (seq 0 (length urls)) [] 0%Z)
    as [out Hout].
  destruct (poll_loop _ _ _ _ _ _) as [res ms] eqn:Hrun.
  cbn in Hout. subst res. exists out, ms. split; [done|].
  apply poll_loop_successes in Hrun; [|constructor].
  eapply Forall_impl; [exact Hrun|]. intros r [fut Hfut].
  unfold future_result in Hfut.
  destruct (urls !! fut) as [url|] eqn:Hurl; [|discriminate].
  apply fetch_success_url in Hfut as ->. by eapply list_elem_of_lookup_2.
Qed.

Lemma finish_ok (max_sites : Z) (successful : list scrape)
    (phases : list nat) (ms : Z) :
  raises (returned (finish max_sites successful phases ms)) = false.
Proof. by destruct successful. Qed.

Lemma phase_3_ok (E : session_env) (filtered : list string) (max_sites : Z)
    (successful : list scrape) (phases : list nat) (ms : Z) :
  Forall (fun url => raises (get_domain url) = false) filtered ->
  Forall (fun r => raises (get_domain (scrape_url r)) = false) successful ->
  raises (returned (phase_3 E filtered max_sites successful phases ms))
  = false.
Proof.
  intros Hf Hs. unfold phase_3.
  destruct (_ && PLAYWRIGHT_AVAILABLE E) eqn:Hc; [|apply finish_ok].
  apply andb_true_iff in Hc as [_ Hav].
  destruct (mapM_ok (fun s => get_domain (scrape_url s)) successful Hs)
    as [doms ->]. cbn [bind].
  assert (Forall (fun url => raises (get_domain url) = false)
                 (take 15 filtered)) as Hf15 by (by apply Forall_take).
  match goal with
  | |- context [filterM ?f ?l] =>
      destruct (filterM_ok f l) as [cands Hcands]
  end.
  { eapply Forall_impl; [exact Hf15|].
    cbn. intros url Hurl. by destruct (get_domain url). }
  rewrite Hcands. cbn [bind].
  apply (filterM_Forall _ _ _ _ Hcands) in Hf15.
  destruct (take 5 cands) as [|u us] eqn:Htake; [apply finish_ok|].
  destruct (scrape_batch_playwright_ok (PLAYWRIGHT_AVAILABLE E)
              (playwright_batch E) (u :: us) 20
              (max_sites - Z.of_nat (length successful))%Z)
    as (out & dt & ->); [done|rewrite <- Htake; by apply Forall_take|].
  apply finish_ok.
Qed.

Lemma phase_2_ok (E : session_env) (filtered : list string) (max_sites : Z)
    (successful : list scrape) (phases : list nat) (ms : Z) :
  Forall (fun url => raises (get_domain url) = false) filtered ->
  Forall (fun r => raises (get_domain (scrape_url r)) = false) successful ->
  raises (returned (phase_2 E filtered max_sites successful phases ms))
  = false.
Proof.
  intros Hf Hs. unfold phase_2.
  destruct (_ && (8 <? length filtered)); [|by apply phase_3_ok].
  destruct (slice 8 13 filtered) as [|u us] eqn:Hslice;
    [by apply phase_3_ok|].
  assert (forall url, url ∈ u :: us -> url ∈ filtered) as Hsub.
  { intros url Hin. rewrite <- Hslice in Hin. unfold slice in Hin.
    by eapply subseteq_drop, subseteq_take. }
  destruct (batch_parallel_ok (batch_2 E) (u :: us) 12
              (max_sites - Z.of_nat (length successful))%Z)
    as (out & dt & -> & Hurls); [done| |].
  { apply Forall_forall. intros url Hin. rewrite Forall_forall in Hf. auto. }
  destruct (max_sites <=? _)%Z; [done|].
  apply phase_3_ok; [done|]. apply Forall_app. split; [done|].
  eapply Forall_impl; [exact Hurls|]. intros r Hr. cbn in Hr.
  rewrite Forall_forall in Hf. auto.
Qed.

Lemma phase_1_ok (E : session_env) (filtered : list string) (max_sites : Z)
    (ms : Z) :
  Forall (fun url => raises (get_domain url) = false) filtered ->
  raises (returned (phase_1 E filtered max_sites ms)) = false.
Proof.
  intros Hf. unfold phase_1.
  destruct (take 8 filtered) as [|u us] eqn:Htake;
    [by apply phase_2_ok|].
  assert (forall url, url ∈ u :: us -> url ∈ filtered) as Hsub.
  { intros url Hin. rewrite <- Htake in Hin. by eapply subseteq_take. }
  destruct (batch_parallel_ok (batch_1 E) (u :: us) 15 max_sites)
    as (out & dt & -> & Hurls); [done| |].
  { apply Forall_forall. intros url Hin. rewrite Forall_forall in Hf. auto. }
  destruct (max_sites <=? _)%Z; [done|].
  apply phase_2_ok; [done|].
  eapply Forall_impl; [exact Hurls|]. intros r Hr. cbn in Hr.
  rewrite Forall_forall in Hf. auto.
Qed.

(** X14: [scrape_multiple_sites_truly_parallel] never raises, whatever
    the backend, the sites and the scheduling do: the URLs it dispatches
    have passed [get_domain] in the resolver, so no fetch raises in a
    batch, and no batch is dispatched empty. *)
Theorem sequencer_never_raises (E : session_env) (query : string)
    (max_sites max_total_time max_search_results : Z) :
  raises (returned (scrape_multiple_sites_truly_parallel
                      E query max_sites max_total_time max_search_results))
  = false.
Proof.
  unfold scrape_multiple_sites_truly_parallel.
  destruct (scrape_searxng_local_hits (backend E) query max_search_results)
    as (hits & doms & -> & Hres).
  destruct hits as [|hit hits]; [done|].
  apply filter_urls_resolved in Hres as [-> Hparse].
  cbn [map]. apply phase_1_ok.
  change (href hit :: map href hits) with (href <$> hit :: hits).
  by apply Forall_fmap.
Qed.

End SequencerExtras.

Section SequencerResults.
Context `{!Urllib} `{!Bs4} `{!Regex}.

Lemma py_take_well_sized (max_sites : Z) (successful : list scrape)
    (phases : list nat) (ms : Z) :
  (1 <= max_sites)%Z ->
  successful <> [] ->
  Forall (fun r => raises (get_domain (scrape_url r)) = false) successful ->
  well_sized max_sites
    (Session (Ok (Some (py_take max_sites successful))) phases ms).
Proof.
  intros Hmax Hne Hs l [= <-].
  destruct (py_take_length max_sites successful Hmax Hne) as [? ?].
  repeat split; try done.
  unfold py_take. destruct (0 <=? max_sites)%Z; by apply Forall_take.
Qed.

Lemma finish_well_sized (max_sites : Z) (successful : list scrape)
    (phases : list nat) (ms : Z) :
  (1 <= max_sites)%Z ->
  Forall (fun r => raises (get_domain (scrape_url r)) = false) successful ->
  well_sized max_sites (finish max_sites successful phases ms).
Proof.
  intros Hmax Hs. unfold finish. destruct successful as [|r successful].
  - by intros l [=].
  - by apply py_take_well_sized.
Qed.

Lemma phase_3_well_sized (E : session_env) (filtered : list string)
    (max_sites : Z) (successful : list scrape) (phases : list nat) (ms : Z) :
  (1 <= max_sites)%Z ->
  (forall fut r, pw_result (playwright_batch E) fut = Ok (Some r) ->
                 raises (get_domain (scrape_url r)) = false) ->
  Forall (fun r => raises (get_domain (scrape_url r)) = false) successful ->
  well_sized max_sites (phase_3 E filtered max_sites successful phases ms).
Proof.
  intros Hmax Hpw Hs. unfold phase_3.
  destruct (_ && PLAYWRIGHT_AVAILABLE E) eqn:Hc; [|by apply finish_well_sized].
  apply andb_true_iff in Hc as [_ Hav].
  destruct (bind (mapM _ successful) _) as [[|u us]|e] eqn:Hurls;
    [by apply finish_well_sized| |by intros l [=]].
  destruct (scrape_batch_playwright _ _ _ _ _) as [[out|e] dt] eqn:Hrun;
    [|by intros l [=]].
  apply finish_well_sized; [done|]. apply Forall_app. split; [done|].
  apply scrape_batch_playwright_successes in Hrun.
  eapply Forall_impl; [exact Hrun|].
  cbn. intros r [fut Hfut]. by eapply Hpw.
Qed.

Lemma phase_2_well_sized (E : session_env) (filtered : list string)
    (max_sites : Z) (successful : list scrape) (phases : list nat) (ms : Z) :
  (1 <= max_sites)%Z ->
  (forall fut r, pw_result (playwright_batch E) fut = Ok (Some r) ->
                 raises (get_domain (scrape_url r)) = false) ->
  Forall (fun url => raises (get_domain url) = false) filtered ->
  Forall (fun r => raises (get_domain (scrape_url r)) = false) successful ->
  well_sized max_sites (phase_2 E filtered max_sites successful phases ms).
Proof.
  intros Hmax Hpw Hf Hs. unfold phase_2.
  destruct (_ && (8 <? length filtered)); [|by apply phase_3_well_sized].
  destruct (slice 8 13 filtered) as [|u us] eqn:Hslice;
    [by apply phase_3_well_sized|].
  assert (forall url, url ∈ u :: us -> url ∈ filtered) as Hsub.
  { intros url Hin. rewrite <- Hslice in Hin. unfold slice in Hin.
    by eapply subseteq_drop, subseteq_take. }
  destruct (batch_parallel_ok (batch_2 E) (u :: us) 12
              (max_sites - Z.of_nat (length successful))%Z)
    as (out & dt & -> & Hurls); [done| |].
  { apply Forall_forall. intros url Hin. rewrite Forall_forall in Hf. auto. }
  assert (Forall (fun r => raises (get_domain (scrape_url r)) = false)
                 (successful ++ out)) as Hall.
  { apply Forall_app. split; [done|].
    eapply Forall_impl; [exact Hurls|]. intros r Hr. cbn in Hr.
    rewrite Forall_forall in Hf. auto. }
  destruct (max_sites <=? _)%Z eqn:Hfull; [|by apply phase_3_well_sized].
  apply py_take_well_sized; [done| |done].
  apply Z.leb_le in Hfull. intros Heq. rewrite Heq in Hfull. cbn in Hfull. lia.
Qed.

Lemma phase_1_well_sized (E : session_env) (filtered : list string)
    (max_sites : Z) (ms : Z) :
  (1 <= max_sites)%Z ->
  (forall fut r, pw_result (playwright_batch E) fut = Ok (Some r) ->
                 raises (get_domain (scrape_url r)) = false) ->
  Forall (fun url => raises (get_domain url) = false) filtered ->
  well_sized max_sites (phase_1 E filtered max_sites ms).
Proof.
  intros Hmax Hpw Hf. unfold phase_1.
  destruct (take 8 filtered) as [|u us] eqn:Htake;
    [by apply phase_2_well_sized|].
  assert (forall url, url ∈ u :: us -> url ∈ filtered) as Hsub.
  { intros url Hin. rewrite <- Htake in Hin. by eapply subseteq_take. }
  destruct (batch_parallel_ok (batch_1 E) (u :: us) 15 max_sites)
    as (out & dt & -> & Hurls); [done| |].
  { apply Forall_forall. intros url Hin. rewrite Forall_forall in Hf. auto. }
  assert (Forall (fun r => raises (get_domain (scrape_url r)) = false) out)
    as Hall.
  { eapply Forall_impl; [exact Hurls|]. intros r Hr. cbn in Hr.
    rewrite Forall_forall in Hf. auto. }
  destruct (max_sites <=? _)%Z eqn:Hfull; [|by apply phase_2_well_sized].
  apply py_take_well_sized; [done| |done].
  apply Z.leb_le in Hfull. intros Heq. rewrite Heq in Hfull. cbn in Hfull. lia.
Qed.

Lemma sequencer_well_sized (E : session_env) (query : string)
    (max_sites max_total_time max_search_results : Z) :
  (1 <= max_sites)%Z ->
  (forall fut r, pw_result (playwright_batch E) fut = Ok (Some r) ->
                 raises (get_domain (scrape_url r)) = false) ->
  well_sized max_sites
    (scrape_multiple_sites_truly_parallel
       E query max_sites max_total_time max_search_results).
Proof.
  intros Hmax Hpw. unfold scrape_multiple_sites_truly_parallel.
  destruct (scrape_searxng_local_hits (backend E) query max_search_results)
    as (hits & doms & -> & Hres).
  destruct hits as [|hit hits]; [by intros l [=]|].
  apply filter_urls_resolved in Hres as [-> Hparse].
  cbn [map]. apply phase_1_well_sized; [done..|].
  change (href hit :: map href hits) with (href <$> hit :: hits).
  by apply Forall_fmap.
Qed.

(** X15: with [max_sites >= 1], what the sequencer returns is either
    [None] or a list of at least one and at most [max_sites] scrapes,
    never an empty list; and when the rendered fetches return scrapes for
    URLs that [get_domain] accepts (they return the URL they were given),
    so is every URL of the list. *)
Theorem sequencer_result_size (E : session_env) (query : string)
    (max_sites max_total_time max_search_results : Z) (l : list scrape) :
  (1 <= max_sites)%Z ->
  (forall fut r, pw_result (playwright_batch E) fut = Ok (Some r) ->
                 raises (get_domain (scrape_url r)) = false) ->
  returned (scrape_multiple_sites_truly_parallel
              E query max_sites max_total_time max_search_results)
  = Ok (Some l) ->
  1 <= length l
  /\ (Z.of_nat (length l) <= max_sites)%Z
  /\ Forall (fun r => raises (get_domain (scrape_url r)) = false) l.
Proof. intros Hmax Hpw. by apply sequencer_well_sized. Qed.

(** X16: [scrape_single_site] returns [None] or a list of exactly one
    scrape. *)
Theorem scrape_single_site_one (E : session_env) (query : string)
    (max_search_results : Z) (l : list scrape) :
  (forall fut r, pw_result (playwright_batch E) fut = Ok (Some r) ->
                 raises (get_domain (scrape_url r)) = false) ->
  returned (scrape_single_site E query max_search_results) = Ok (Some l) ->
  length l = 1.
Proof.
  intros Hpw Hrun. unfold scrape_single_site, scrape_multiple_sites_parallel
    in Hrun.
  apply sequencer_well_sized in Hrun as (? & ? & _); [lia|lia|done].
Qed.

End SequencerResults.

(** * The shape of the extracted dictionaries *)

Lemma assoc_set_keys (k : string) (v : pyval) (items : list (string * pyval)) :
  existsb (String.eqb k) (map fst items) = true ->
  map fst (assoc_set k v items) = map fst items.
Proof.
  induction items as [|[k0 w] items IH]; cbn; [discriminate|].
  rewrite String.eqb_sym.
  destruct (String.eqb k0 k); cbn; [done|]. intros Hin. by rewrite IH.
Qed.

Lemma header_set_item (k : string) (v d : pyval)
    (hd : pyval * pyval * pyval) (fields : list string) :
  header d = (hd, fields) ->
  assigned_later fields k = true ->
  header (set_item k v d) = (hd, fields).
Proof.
  unfold header, assigned_later. intros [= <- <-] [Hin Hfresh]%andb_true_iff.
  assert ("url" <> k /\ "domain" <> k /\ "type" <> k) as (Hu & Hd & Ht)
    by (repeat split; intros <-; discriminate).
  rewrite !get_item_set_item_ne by done.
  destruct d as [| | | | | |items]; try done. cbn.
  by rewrite assoc_set_keys.
Qed.

Section Schema.
Context `{!Urllib} `{!Bs4} `{!Regex}.

Lemma header_set_text_if (t : soup_tree) (k : string) (found : option tag)
    (post : string -> string) (d : pyval)
    (hd : pyval * pyval * pyval) (fields : list string) :
  header d = (hd, fields) ->
  assigned_later fields k = true ->
  header (set_text_if t k found post d) = (hd, fields).
Proof.
  intros Hd Hk. destruct found; [|done]. by apply header_set_item.
Qed.

Ltac header_steps :=
  repeat first
    [ reflexivity
    | apply header_set_item; [|reflexivity]
    | apply header_set_text_if; [|reflexivity]
    | match goal with
      | |- header (match ?x with _ => _ end) = _ => destruct x
      end ].

Lemma extract_amazon_smart_header (h : heap) (soup : nat) (url : string) :
  header (extract_amazon_smart h soup url)
  = (PStr url, PStr "amazon", PStr "product",
     [ "url"; "domain"; "type"; "title"; "price"; "rating"; "key_features";
       "description"; "specs" ]).
Proof. unfold extract_amazon_smart. cbv zeta. header_steps. Qed.

Lemma extract_forum_smart_header (h : heap) (soup : nat)
    (url domain : string) :
  get_domain url = Ok domain ->
  exists smart,
    extract_forum_smart h soup url = Ok smart
    /\ header smart
       = (PStr url, PStr domain, PStr "forum",
          [ "url"; "domain"; "type"; "title"; "question"; "top_answers";
            "tags" ]).
Proof.
  intros Hdom. unfold extract_forum_smart. rewrite Hdom. cbn [bind].
  cbv zeta. eexists. split; [reflexivity|]. header_steps.
Qed.

Lemma extract_wiki_smart_header (h : heap) (soup : nat)
    (url domain : string) :
  get_domain url = Ok domain ->
  exists smart,
    extract_wiki_smart h soup url = Ok smart
    /\ header smart
       = (PStr url, PStr domain, PStr "encyclopedia",
          [ "url"; "domain"; "type"; "title"; "summary"; "key_sections" ]).
Proof.
  intros Hdom. unfold extract_wiki_smart. rewrite Hdom. cbn [bind].
  cbv zeta. eexists. split; [reflexivity|]. header_steps.
Qed.

Lemma extract_video_smart_header (h : heap) (soup : nat)
    (url domain : string) :
  get_domain url = Ok domain ->
  exists smart,
    extract_video_smart h soup url = Ok smart
    /\ header smart
       = (PStr url, PStr domain, PStr "video",
          [ "url"; "domain"; "type"; "title"; "description"; "duration";
            "views" ]).
Proof.
  intros Hdom. unfold extract_video_smart. rewrite Hdom. cbn [bind].
  cbv zeta. eexists. split; [reflexivity|]. header_steps.
Qed.

Lemma generic_fields_header (t : soup_tree) (url domain : string) :
  header (fst (generic_fields t url domain))
  = (PStr url, PStr domain, PStr "generic",
     [ "url"; "domain"; "type"; "title"; "main_content"; "key_sections";
       "important_details"; "summary" ]).
Proof.
  unfold generic_fields. cbv zeta.
  destruct (first_match _ CONTENT_SELECTORS) as [content_text|].
  - cbn [fst]. header_steps.
  - destruct (List.filter _ _) as [|text texts]; cbn [fst]; header_steps.
Qed.

(** X17: extraction fails exactly when [urlparse] rejects the URL, and
    otherwise returns a dictionary whose [url] entry is the URL given,
    whose [domain] entry is [amazon] for an Amazon URL and the URL's
    normalized domain otherwise, and whose keys are those of the
    dictionary literal of the extractor named by its [type] entry: no
    extractor adds a key to the ones it starts from. *)
Theorem extract_smart_content_schema (html url : string) (h : heap) :
  raises (fst (extract_smart_content html url h)) = raises (get_domain url)
  /\ forall smart,
       fst (extract_smart_content html url h) = Ok smart ->
       get_item "url" smart = PStr url
       /\ (exists domain,
             get_domain url = Ok domain
             /\ get_item "domain" smart
                = PStr (if str_contains "amazon." url then "amazon"
                        else domain))
       /\ exists type,
            get_item "type" smart = PStr type
            /\ (type, dict_keys smart) ∈ FIELDS.
Proof.
  unfold extract_smart_content.
  destruct (get_domain url) as [domain|e] eqn:Hdom; [|by split].
  destruct (str_contains "amazon." url).
  { split; [done|]. intros smart [= <-].
    pose proof (extract_amazon_smart_header (h ++ [parse_lxml html])
                  (length h) url) as [= Hu Hd Ht Hk].
    split; [done|]. split; [by eauto|].
    eexists. split; [done|]. rewrite Hk. unfold FIELDS.
    rewrite !elem_of_cons. tauto. }
  destruct (existsb _ ["reddit.com"; "stackoverflow.com"; "github.com"]).
  { destruct (extract_forum_smart_header (h ++ [parse_lxml html]) (length h)
                url domain Hdom) as (smart' & -> & [= Hu Hd Ht Hk]).
    split; [done|]. intros smart [= <-].
    split; [done|]. split; [by eauto|].
    eexists. split; [done|]. rewrite Hk. unfold FIELDS.
    rewrite !elem_of_cons. tauto. }
  destruct (existsb _ ["wikipedia.org"; "britannica.com"]).
  { destruct (extract_wiki_smart_header (h ++ [parse_lxml html]) (length h)
                url domain Hdom) as (smart' & -> & [= Hu Hd Ht Hk]).
    split; [done|]. intros smart [= <-].
    split; [done|]. split; [by eauto|].
    eexists. split; [done|]. rewrite Hk. unfold FIELDS.
    rewrite !elem_of_cons. tauto. }
  destruct (existsb _ ["youtube.com"; "vimeo.com"]).
  { destruct (extract_video_smart_header (h ++ [parse_lxml html]) (length h)
                url domain Hdom) as (smart' & -> & [= Hu Hd Ht Hk]).
    split; [done|]. intros smart [= <-].
    split; [done|]. split; [by eauto|].
    eexists. split; [done|]. rewrite Hk. unfold FIELDS.
    rewrite !elem_of_cons. tauto. }
  unfold extract_generic_smart. rewrite Hdom.
  pose proof (generic_fields_header
                (deref (h ++ [parse_lxml html]) (length h)) url domain)
    as Hhd.
  destruct (generic_fields _ url domain) as [result t]. cbn [fst] in *.
  injection Hhd as Hu Hd Ht Hk.
  split; [done|]. intros smart [= <-].
  split; [done|]. split; [by eauto|].
  eexists. split; [done|]. rewrite Hk. unfold FIELDS.
  rewrite !elem_of_cons. tauto.
Qed.

End Schema.
(** * The sizes of the extracted fields *)

Lemma str_take_length (n : nat) (s : string) :
  String.length (str_take n s) <= n.
Proof.
  revert s. induction n as [|n IH]; intros [|c s]; cbn; try lia.
  specialize (IH s). lia.
Qed.

Lemma truncate_length (n : nat) (text : string) :
  String.length (truncate n text) <= n + 3.
Proof.
  unfold truncate. destruct (Nat.ltb_spec n (String.length text)); [|lia].
  rewrite str_length_app. pose proof (str_take_length n text).
  change (String.length "...") with 3. lia.
Qed.

Lemma within_cap_None (key : string) : within_cap key PNone.
Proof.
  unfold within_cap.
  repeat match goal with
         | |- context [if ?b then _ else _] => destruct b
         end; cbn; repeat split; try lia; constructor.
Qed.

Lemma assoc_get_set (key k : string) (v : pyval)
    (items : list (string * pyval)) :
  assoc_get key (assoc_set k v items)
  = if String.eqb k key then Some v else assoc_get key items.
Proof.
  induction items as [|[k0 w] items IH]; cbn.
  - by destruct (String.eqb k key).
  - destruct (String.eqb_spec k0 k) as [->|Hne]; cbn.
    + by destruct (String.eqb k key).
    + rewrite IH. destruct (String.eqb_spec k0 key) as [->|Hne'];
        [|reflexivity].
      destruct (String.eqb_spec k key); congruence.
Qed.

Lemma capped_PDict (items : list (string * pyval)) :
  Forall (fun kv => within_cap kv.1 kv.2) items -> capped (PDict items).
Proof.
  intros Hall. split; [by eauto|]. intros key. cbn.
  induction Hall as [|[k v] items Hkv _ IH]; cbn; [apply within_cap_None|].
  destruct (String.eqb_spec k key) as [<-|]; done.
Qed.

Lemma capped_set_item (k : string) (v d : pyval) :
  capped d -> within_cap k v -> capped (set_item k v d).
Proof.
  intros [[items ->] Hd] Hv. split; [cbn; by eauto|]. intros key.
  specialize (Hd key). cbn in *. rewrite assoc_get_set.
  destruct (String.eqb_spec k key) as [<-|]; done.
Qed.

Lemma flat_map_length_le {A B} (f : A -> list B) (l : list A) :
  (forall x, length (f x) <= 1) -> length (flat_map f l) <= length l.
Proof.
  intros Hf. induction l as [|x l IH]; cbn; [lia|].
  rewrite length_app. specialize (Hf x). lia.
Qed.

Lemma omap_length_le {A B} (f : A -> option B) (l : list A) :
  length (omap f l) <= length l.
Proof.
  induction l as [|x l IH]; cbn; [lia|]. destruct (f x); cbn; lia.
Qed.

Lemma omap_Forall {A B} (f : A -> option B) (P : B -> Prop) (l : list A) :
  (forall x y, f x = Some y -> P y) -> Forall P (omap f l).
Proof.
  intros Hf. induction l as [|x l IH]; cbn; [constructor|].
  destruct (f x) eqn:Hx; [constructor; eauto|done].
Qed.

Lemma details_length {A B} (f : A -> list B) (l : list A) (rows : list B)
    (short : bool) :
  (forall x, length (f x) <= 1) ->
  length (if short then flat_map f l ++ take 10 rows else flat_map f l)
  <= length l + 10.
Proof.
  intros Hf. pose proof (flat_map_length_le f l Hf).
  destruct short; [|lia]. rewrite length_app, length_take. lia.
Qed.

Section Caps.
Context `{!Urllib} `{!Bs4} `{!Regex}.

Lemma capped_set_text_if (t : soup_tree) (k : string) (found : option tag)
    (post : string -> string) (d : pyval) :
  capped d ->
  (forall text, within_cap k (PStr (post text))) ->
  capped (set_text_if t k found post d).
Proof.
  intros Hd Hk. destruct found; [|done]. by apply capped_set_item.
Qed.

Ltac literal_capped :=
  apply capped_PDict; repeat constructor; cbn; repeat split; lia || constructor.

Ltac cap_of_key :=
  lazy beta iota zeta delta [within_cap String.eqb Ascii.eqb Bool.eqb].

(** The assignments of texts that are not cut, down to the literal. *)
Ltac plain_texts :=
  repeat (apply capped_set_text_if; [|intros ?; exact I]); literal_capped.

Lemma extract_amazon_smart_capped (h : heap) (soup : nat) (url : string) :
  capped (extract_amazon_smart h soup url).
Proof.
  unfold extract_amazon_smart. cbv zeta.
  apply capped_set_item; [|exact I].
  apply capped_set_text_if;
    [|intros text; apply (truncate_length 500)].
  match goal with
  | |- capped (match ?b with [] => ?base | _ => _ end) =>
      assert (capped base) as Hbase by plain_texts; destruct b; [done|]
  end.
  apply capped_set_item; [done|]. cap_of_key.
  cbn [py_len]. rewrite length_map.
  etransitivity; [apply List.filter_length_le|].
  rewrite length_map, length_take. lia.
Qed.

Lemma extract_forum_smart_capped (h : heap) (soup : nat) (url : string)
    (smart : pyval) :
  extract_forum_smart h soup url = Ok smart -> capped smart.
Proof.
  unfold extract_forum_smart. destruct (get_domain url) as [domain|];
    [|discriminate].
  cbn [bind]. cbv zeta. intros [= <-].
  match goal with
  | |- capped (match _ with Some _ => _ | None => ?base end) =>
      assert (capped base) as Hbase
  end.
  { apply capped_set_text_if;
      [|intros text; apply (truncate_length 800)].
    plain_texts. }
  match goal with
  | |- capped (match ?found with Some _ => _ | None => _ end) =>
      destruct found as [answers|]; [|done]
  end.
  apply capped_set_item; [done|]. cap_of_key. cbn [py_len py_entries].
  split; [rewrite length_map, length_take; lia|].
  apply Forall_map, Forall_forall. intros ans _.
  apply (truncate_length 400).
Qed.

Lemma extract_wiki_smart_capped (h : heap) (soup : nat) (url : string)
    (smart : pyval) :
  extract_wiki_smart h soup url = Ok smart -> capped smart.
Proof.
  unfold extract_wiki_smart. destruct (get_domain url) as [domain|];
    [|discriminate].
  cbn [bind]. cbv zeta. intros [= <-].
  apply capped_set_item; [plain_texts|].
  cap_of_key. cbn [py_len py_entries]. split.
  - rewrite length_map. etransitivity; [apply List.filter_length_le|].
    rewrite length_map, length_take. lia.
  - apply Forall_map, Forall_forall. intros section _. cbn. lia.
Qed.

Lemma extract_video_smart_capped (h : heap) (soup : nat) (url : string)
    (smart : pyval) :
  extract_video_smart h soup url = Ok smart -> capped smart.
Proof.
  unfold extract_video_smart. destruct (get_domain url) as [domain|];
    [|discriminate].
  cbn [bind]. cbv zeta. intros [= <-].
  apply capped_set_text_if; [plain_texts|].
  intros text. cap_of_key. cbn [py_len].
  pose proof (truncate_length 300 text). lia.
Qed.

Lemma key_section_capped (t : soup_tree) (heading : tag) (section : pyval) :
  key_section t heading = Some section ->
  py_len (get_item "content" section) <= 303.
Proof.
  unfold key_section. destruct (_ && _); [|discriminate].
  destruct (collect_section _ _ _); [discriminate|]. intros [= <-].
  apply (truncate_length 300).
Qed.

(** The two assignments that end [generic_fields]. *)
Ltac sections_and_details :=
  apply capped_set_item;
  [ apply capped_set_item;
    [|cap_of_key; cbn [py_len py_entries]; split;
      [ etransitivity; [apply omap_length_le|]; rewrite length_take; lia
      | apply omap_Forall; intros heading section Hsec;
        by eapply key_section_capped ]]
  | cap_of_key; cbn [py_len]; rewrite length_map;
    etransitivity;
    [ apply details_length; intros pattern; destruct (re_findall _ _); cbn; lia
    | change (length DETAIL_PATTERNS) with 6; lia ] ].

Lemma generic_fields_capped (t : soup_tree) (url domain : string) :
  capped (fst (generic_fields t url domain)).
Proof.
  unfold generic_fields. cbv zeta.
  match goal with
  | |- context [match first_match _ CONTENT_SELECTORS with
                | Some _ => _
                | None => match _ with [] => (?base, _) | _ => _ end
                end] =>
      assert (capped base) as Hbase
  end.
  { match goal with
    | |- capped (match _ with Some _ => _ | None => ?titled end) =>
        assert (capped titled) as Htitle by plain_texts
    end.
    match goal with
    | |- capped (match ?found with Some _ => _ | None => _ end) =>
        destruct found; [|done]
    end.
    by apply capped_set_item. }
  destruct (first_match _ CONTENT_SELECTORS) as [content_text|].
  - cbn [fst]. sections_and_details.
    apply capped_set_item; [done|]. apply (truncate_length 1500).
  - destruct (List.filter _ _) as [|text texts]; cbn [fst];
      sections_and_details; [done|].
    apply capped_set_item; [done|]. apply (truncate_length 1500).
Qed.

Lemma extract_smart_content_capped (html url : string) (h : heap)
    (smart : pyval) :
  fst (extract_smart_content html url h) = Ok smart -> capped smart.
Proof.
  unfold extract_smart_content.
  destruct (get_domain url) as [domain|e] eqn:Hdom; [|discriminate].
  repeat match goal with
         | |- context [if ?b then _ else _] => destruct b
         end; cbn [fst].
  - intros [= <-]. apply extract_amazon_smart_capped.
  - apply extract_forum_smart_capped.
  - apply extract_wiki_smart_capped.
  - apply extract_video_smart_capped.
  - unfold extract_generic_smart. rewrite Hdom.
    pose proof (generic_fields_capped
                  (deref (h ++ [parse_lxml html]) (length h)) url domain).
    destruct (generic_fields _ url domain). by intros [= <-].
Qed.

(** X18: whatever the page holds, the dictionary [extract_smart_content]
    returns is bounded in the fields the extractors cut: [main_content]
    has at most 1503 characters, [description] 503, [question] 803;
    [top_answers] has at most two entries of at most 403 characters,
    [key_features] at most five entries, [key_sections] at most six, the
    [content] of each at most 303 characters, and [important_details] at
    most sixteen entries.  An entry the dictionary does not have counts
    as empty. *)
Theorem extracted_fields_are_capped (html url : string) (h : heap)
    (smart : pyval) :
  fst (extract_smart_content html url h) = Ok smart ->
  py_len (get_item "main_content" smart) <= 1503
  /\ py_len (get_item "description" smart) <= 503
  /\ py_len (get_item "question" smart) <= 803
  /\ (py_len (get_item "top_answers" smart) <= 2
      /\ Forall (fun answer => py_len answer <= 403)
                (py_entries (get_item "top_answers" smart)))
  /\ py_len (get_item "key_features" smart) <= 5
  /\ (py_len (get_item "key_sections" smart) <= 6
      /\ Forall (fun section => py_len (get_item "content" section) <= 303)
                (py_entries (get_item "key_sections" smart)))
  /\ py_len (get_item "important_details" smart) <= 16.
Proof.
  intros Hrun. apply extract_smart_content_capped in Hrun as [_ Hcap].
  repeat split.
  - exact (Hcap "main_content").
  - exact (Hcap "description").
  - exact (Hcap "question").
  - exact (proj1 (Hcap "top_answers")).
  - exact (proj2 (Hcap "top_answers")).
  - exact (Hcap "key_features").
  - exact (proj1 (Hcap "key_sections")).
  - exact (proj2 (Hcap "key_sections")).
  - exact (Hcap "important_details").
Qed.

End Caps.
(** * The order of the phases *)

Section PhaseOrder.
Context `{!Urllib} `{!Bs4} `{!Regex}.

Lemma finish_phases (max_sites : Z) (successful : list scrape)
    (phases : list nat) (ms : Z) :
  phases_run (finish max_sites successful phases ms) = phases.
Proof. by destruct successful. Qed.

Lemma phase_3_phases (E : session_env) (filtered : list string)
    (max_sites : Z) (successful : list scrape) (phases : list nat) (ms : Z) :
  phases_run (phase_3 E filtered max_sites successful phases ms) = phases
  \/ (phases_run (phase_3 E filtered max_sites successful phases ms)
      = phases ++ [3]
      /\ PLAYWRIGHT_AVAILABLE E = true).
Proof.
  unfold phase_3.
  destruct (_ && PLAYWRIGHT_AVAILABLE E) eqn:Hc;
    [|left; apply finish_phases].
  apply andb_true_iff in Hc as [_ Hav].
  destruct (bind (mapM _ successful) _) as [[|u us]|e];
    [left; apply finish_phases| |by left].
  right. split; [|done].
  destruct (scrape_batch_playwright _ _ _ _ _) as [[out|e] dt];
    [apply finish_phases|done].
Qed.

Lemma phase_2_phases (E : session_env) (filtered : list string)
    (max_sites : Z) (successful : list scrape) (phases : list nat) (ms : Z) :
  exists later,
    phases_run (phase_2 E filtered max_sites successful phases ms)
    = phases ++ later
    /\ later_phases (PLAYWRIGHT_AVAILABLE E) (length filtered) later.
Proof.
  unfold phase_2, later_phases.
  assert (forall successful ms,
             exists later,
               phases_run (phase_3 E filtered max_sites successful phases ms)
               = phases ++ later
               /\ (later = [] \/ later = [3] /\ PLAYWRIGHT_AVAILABLE E = true))
    as Hskip.
  { intros s m.
    destruct (phase_3_phases E filtered max_sites s phases m) as [->| [-> ?]].
    - exists []. rewrite app_nil_r. tauto.
    - exists [3]. tauto. }
  destruct (_ && (8 <? length filtered)) eqn:Hc.
  2: { destruct (Hskip successful ms) as (later & -> & Hl).
       exists later. tauto. }
  apply andb_true_iff in Hc as [_ Hlen%Nat.ltb_lt].
  destruct (slice 8 13 filtered) as [|u us].
  { destruct (Hskip successful ms) as (later & -> & Hl).
    exists later. tauto. }
  destruct (scrape_batch_parallel _ _ _ _) as [[out|e] dt].
  - destruct (max_sites <=? _)%Z.
    + exists [2]. cbn [phases_run]. tauto.
    + destruct (phase_3_phases E filtered max_sites (successful ++ out)
                  (phases ++ [2]) (ms + dt)%Z) as [->| [-> ?]].
      * exists [2]. tauto.
      * exists [2; 3]. rewrite <- app_assoc. cbn [app]. tauto.
  - exists [2]. cbn [phases_run]. tauto.
Qed.

Lemma phase_1_phases (E : session_env) (filtered : list string)
    (max_sites : Z) (ms : Z) :
  filtered <> [] ->
  exists later,
    phases_run (phase_1 E filtered max_sites ms) = 1 :: later
    /\ later_phases (PLAYWRIGHT_AVAILABLE E) (length filtered) later.
Proof.
  intros Hne. unfold phase_1.
  destruct filtered as [|u0 filtered0] eqn:Hf; [done|]. rewrite <- Hf.
  destruct (take 8 filtered) as [|u us] eqn:Htake;
    [by rewrite Hf in Htake|].
  destruct (scrape_batch_parallel _ _ _ _) as [[out|e] dt].
  - destruct (max_sites <=? _)%Z.
    + exists []. split; [done|]. by left.
    + apply (phase_2_phases E filtered max_sites out [1]).
  - exists []. split; [done|]. by left.
Qed.

(** X19: the phases are dispatched in order and at most once each.  No
    phase runs only when the search gave nothing, and then the result is
    [None]; otherwise phase 1 runs, phase 2 may follow only when the
    search gave more than eight hits, and phase 3 only when Playwright is
    installed. *)
Theorem sequencer_phase_order (E : session_env) (query : string)
    (max_sites max_total_time max_search_results : Z) :
  let run := scrape_multiple_sites_truly_parallel
               E query max_sites max_total_time max_search_results in
  exists hits,
    scrape_searxng_local (backend E) query max_search_results = Ok hits
    /\ ((hits = [] /\ phases_run run = [] /\ returned run = Ok None)
        \/ (hits <> []
            /\ exists later,
                 phases_run run = 1 :: later
                 /\ later_phases (PLAYWRIGHT_AVAILABLE E) (length hits)
                                 later)).
Proof.
  cbv zeta. unfold scrape_multiple_sites_truly_parallel.
  destruct (scrape_searxng_local_hits (backend E) query max_search_results)
    as (hits & doms & -> & Hres).
  exists hits. split; [done|].
  destruct hits as [|hit hits]; [by left|]. right. split; [done|].
  apply filter_urls_resolved in Hres as [-> _]. cbn [map].
  destruct (phase_1_phases E (href hit :: map href hits) max_sites
              (search_ms E) ltac:(done)) as (later & -> & Hlater).
  exists later. split; [done|].
  by rewrite <- (length_map href (hit :: hits)).
Qed.

End PhaseOrder.

(** * One result per future *)

Lemma drawn_from_snoc (result_of : nat -> outcome (option scrape))
    (pending futs : list nat) (successful : list scrape)
    (fut : nat) (r : scrape) :
  drawn_from result_of pending futs successful ->
  fut ∈ pending ->
  result_of fut = Ok (Some r) ->
  drawn_from result_of (List.filter (fun f => negb (f =? fut)) pending)
             (futs ++ [fut]) (successful ++ [r]).
Proof.
  intros (Hnd & Hout & Hall) Hin Hres. repeat split.
  - apply NoDup_app. repeat split; [done| |apply NoDup_singleton].
    intros f Hf ->%list_elem_of_singleton. by apply (Hout fut).
  - intros f [Hf| ->%list_elem_of_singleton]%elem_of_app
             [Hp Hne]%filter_ne_elem; [by apply (Hout f)|done].
  - apply Forall2_app; [done|]. by constructor.
Qed.

Lemma drawn_from_skip (result_of : nat -> outcome (option scrape))
    (pending futs : list nat) (successful : list scrape) (fut : nat) :
  drawn_from result_of pending futs successful ->
  drawn_from result_of (List.filter (fun f => negb (f =? fut)) pending)
             futs successful.
Proof.
  intros (Hnd & Hout & Hall). repeat split; [done| |done].
  intros f Hf [Hp _]%filter_ne_elem. by apply (Hout f).
Qed.

Lemma for_done_drawn (result_of : nat -> outcome (option scrape))
    (quota : Z) (done : list nat) :
  forall (pending futs : list nat) (successful : list scrape)
         (st : loop_state),
    NoDup done ->
    (forall fut, fut ∈ done -> fut ∈ pending) ->
    drawn_from result_of pending futs successful ->
    for_done result_of quota done pending successful = Ok st ->
    exists futs',
      match st with
      | Running pending' successful' =>
          drawn_from result_of pending' futs' successful'
      | Returned successful' => drawn_from result_of [] futs' successful'
      end.
Proof.
  induction done as [|fut rest IH];
    intros pending futs successful st Hnd Hsub Hdrawn Hrun.
  - cbn in Hrun. injection Hrun as <-. by exists futs.
  - cbn [for_done] in Hrun. apply NoDup_cons in Hnd as [Hfresh Hnd].
    assert (fut ∈ pending) as Hin by (apply Hsub; by left).
    assert (forall g, g ∈ rest ->
              g ∈ List.filter (fun f => negb (f =? fut)) pending) as Hsub'.
    { intros g Hg. apply filter_ne_elem. split; [apply Hsub; by right|].
      by intros ->. }
    destruct (result_of fut) as [[r|]|e] eqn:Hres; cbn [bind] in Hrun;
      [| |discriminate].
    + pose proof (drawn_from_snoc _ _ _ _ _ _ Hdrawn Hin Hres) as Hdrawn'.
      destruct (quota <=? Z.of_nat (length (successful ++ [r])))%Z.
      * injection Hrun as <-. exists (futs ++ [fut]).
        destruct Hdrawn' as (? & _ & ?). repeat split; [done| |done].
        intros f _ Hf. by apply elem_of_nil in Hf.
      * by eapply IH.
    + eapply IH; [done|done| |exact Hrun]. by apply drawn_from_skip.
Qed.

Lemma poll_loop_drawn (result_of : nat -> outcome (option scrape))
    (quota : Z) (polls : list poll) :
  forall (pending futs : list nat) (successful out : list scrape)
         (ms ms' : Z),
    drawn_from result_of pending futs successful ->
    poll_loop result_of quota polls pending successful ms = (Ok out, ms') ->
    exists futs', drawn_from result_of [] futs' out.
Proof.
  assert (forall pending futs successful,
             drawn_from result_of pending futs successful ->
             drawn_from result_of [] futs successful) as Hweaken.
  { intros pending futs successful (? & _ & ?). repeat split; [done| |done].
    intros f _ Hf. by apply elem_of_nil in Hf. }
  induction polls as [|p rest IH];
    intros pending futs successful out ms ms' Hdrawn Hrun.
  - cbn in Hrun. injection Hrun as <- _. eauto.
  - cbn [poll_loop] in Hrun. destruct pending as [|f pending].
    { injection Hrun as <- _. eauto. }
    destruct (done_among_spec (done p) (f :: pending)) as [Hnd Hsub].
    destruct (for_done result_of quota (done_among (f :: pending) (done p))
                       (f :: pending) successful) as [st|e] eqn:Hdone;
      [|discriminate].
    eapply for_done_drawn in Hdone as [futs' Hdrawn']; [|done..].
    destruct st as [pending' successful'|successful'].
    + by eapply IH.
    + injection Hrun as <- _. eauto.
Qed.

Lemma drawn_urls_NoDup (urls : list string) (futs : list nat)
    (out : list scrape) :
  NoDup urls ->
  NoDup futs ->
  Forall2 (fun fut r => urls !! fut = Some (scrape_url r)) futs out ->
  NoDup (map scrape_url out).
Proof.
  intros Hurls Hfuts Hall.
  induction Hall as [|fut r futs out Hr Hall IH]; cbn; [constructor|].
  apply NoDup_cons in Hfuts as [Hfresh Hfuts].
  apply NoDup_cons. split; [|by apply IH].
  intros Hin. apply Hfresh. clear IH Hfuts Hfresh.
  induction Hall as [|fut' r' futs out Hr' Hall IH]; cbn in Hin.
  - by apply elem_of_nil in Hin.
  - apply elem_of_cons.
    apply elem_of_cons in Hin as [Heq|Hin]; [|right; by apply IH].
    left. rewrite Heq in Hr. by eapply NoDup_lookup.
Qed.

Section DispatcherDistinct.
Context `{!Urllib} `{!Bs4} `{!Regex}.

(** X20: [scrape_batch_parallel] takes the result of each future at
    most once: the results it returns are those of pairwise distinct
    futures, so a batch of pairwise distinct URLs yields scrapes of
    pairwise distinct URLs. *)
Theorem scrape_batch_parallel_distinct (E : batch_env) (urls : list string)
    (timeout_per_site max_sites_needed : Z) (out : list scrape) (ms : Z) :
  scrape_batch_parallel E urls timeout_per_site max_sites_needed
  = (Ok out, ms) ->
  (exists futs,
     NoDup futs
     /\ Forall2 (fun fut r =>
                   urls !! fut = Some (scrape_url r)
                   /\ future_result E urls timeout_per_site fut = Ok (Some r))
                futs out)
  /\ (NoDup urls -> NoDup (map scrape_url out)).
Proof.
  unfold scrape_batch_parallel.
  destruct (Nat.min (length urls) 5 =? 0); [discriminate|]. intros Hrun.
  eapply (poll_loop_drawn _ _ _ _ []) in Hrun as (futs & Hnd & _ & Hall).
  2: { repeat split; [constructor| |constructor].
       intros f Hf. by apply elem_of_nil in Hf. }
  assert (Forall2 (fun fut r =>
                     urls !! fut = Some (scrape_url r)
                     /\ future_result E urls timeout_per_site fut
                        = Ok (Some r)) futs out) as Hall'.
  { eapply Forall2_impl; [exact Hall|]. intros fut r Hfut. cbv beta in Hfut.
    split; [|done]. unfold future_result in Hfut.
    destruct (urls !! fut) as [url|]; [|discriminate].
    by apply fetch_success_url in Hfut as ->. }
  split; [by eauto|]. intros Hurls.
  apply (drawn_urls_NoDup urls futs); [done..|].
  eapply Forall2_impl; [exact Hall'|]. by intros fut r [? _].
Qed.

End DispatcherDistinct.
(** * Where the returned scrapes come from *)

Lemma py_take_Forall {A} (P : A -> Prop) (n : Z) (l : list A) :
  Forall P l -> Forall P (py_take n l).
Proof.
  intros Hl. unfold py_take. destruct (0 <=? n)%Z; by apply Forall_take.
Qed.

Section PhaseResults.
Context `{!Urllib} `{!Bs4} `{!Regex}.
Variables (E : session_env) (filtered : list string) (P : scrape -> Prop).
Hypothesis from_direct :
  forall B urls timeout_per_site quota out ms,
    (forall url, url ∈ urls -> url ∈ filtered) ->
    scrape_batch_parallel B urls timeout_per_site quota = (Ok out, ms) ->
    Forall P out.
Hypothesis from_rendered :
  forall r,
    PLAYWRIGHT_AVAILABLE E = true -> rendered_in (playwright_batch E) r -> P r.

Lemma finish_results (max_sites : Z) (successful : list scrape)
    (phases : list nat) (ms : Z) (l : list scrape) :
  Forall P successful ->
  returned (finish max_sites successful phases ms) = Ok (Some l) ->
  Forall P l.
Proof.
  intros Hs. unfold finish. destruct successful; [discriminate|].
  intros [= <-]. by apply py_take_Forall.
Qed.

Lemma phase_3_results (max_sites : Z) (successful : list scrape)
    (phases : list nat) (ms : Z) (l : list scrape) :
  Forall P successful ->
  returned (phase_3 E filtered max_sites successful phases ms) = Ok (Some l) ->
  Forall P l.
Proof.
  intros Hs. unfold phase_3.
  destruct (_ && PLAYWRIGHT_AVAILABLE E) eqn:Hc; [|by apply finish_results].
  apply andb_true_iff in Hc as [_ Hav].
  destruct (bind (mapM _ successful) _) as [[|u us]|e];
    [by apply finish_results| |discriminate].
  destruct (scrape_batch_playwright _ _ _ _ _) as [[out|e] dt] eqn:Hrun;
    [|discriminate].
  apply finish_results. apply Forall_app. split; [done|].
  apply scrape_batch_playwright_successes in Hrun.
  eapply Forall_impl; [exact Hrun|].
  intros r Hr. by apply from_rendered.
Qed.

Lemma phase_2_results (max_sites : Z) (successful : list scrape)
    (phases : list nat) (ms : Z) (l : list scrape) :
  Forall P successful ->
  returned (phase_2 E filtered max_sites successful phases ms) = Ok (Some l) ->
  Forall P l.
Proof.
  intros Hs. unfold phase_2.
  destruct (_ && (8 <? length filtered)); [|by apply phase_3_results].
  destruct (slice 8 13 filtered) as [|u us] eqn:Hslice;
    [by apply phase_3_results|].
  assert (forall url, url ∈ u :: us -> url ∈ filtered) as Hsub.
  { intros url Hin. rewrite <- Hslice in Hin. unfold slice in Hin.
    by eapply subseteq_drop, subseteq_take. }
  destruct (scrape_batch_parallel _ _ _ _) as [[out|e] dt] eqn:Hrun;
    [|discriminate].
  apply (from_direct _ _ _ _ _ _ Hsub) in Hrun.
  assert (Forall P (successful ++ out)) as Hall
    by (apply Forall_app; by split).
  destruct (max_sites <=? _)%Z; [|by apply phase_3_results].
  intros [= <-]. by apply py_take_Forall.
Qed.

Lemma phase_1_results (max_sites : Z) (ms : Z) (l : list scrape) :
  returned (phase_1 E filtered max_sites ms) = Ok (Some l) ->
  Forall P l.
Proof.
  unfold phase_1.
  destruct (take 8 filtered) as [|u us] eqn:Htake;
    [by apply phase_2_results|].
  assert (forall url, url ∈ u :: us -> url ∈ filtered) as Hsub.
  { intros url Hin. rewrite <- Htake in Hin. by eapply subseteq_take. }
  destruct (scrape_batch_parallel _ _ _ _) as [[out|e] dt] eqn:Hrun;
    [|discriminate].
  apply (from_direct _ _ _ _ _ _ Hsub) in Hrun.
  destruct (max_sites <=? _)%Z; [|by apply phase_2_results].
  intros [= <-]. by apply py_take_Forall.
Qed.

End PhaseResults.

Section ProvenanceProperties.
Context `{!Urllib} `{!Bs4} `{!Regex}.

Lemma batch_parallel_fetched (B : batch_env) (urls : list string)
    (timeout_per_site quota : Z) (out : list scrape) (ms : Z) :
  scrape_batch_parallel B urls timeout_per_site quota = (Ok out, ms) ->
  Forall (fetched_from urls) out.
Proof.
  unfold scrape_batch_parallel.
  destruct (Nat.min (length urls) 5 =? 0); [discriminate|]. intros Hrun.
  apply poll_loop_successes in Hrun; [|constructor].
  eapply Forall_impl; [exact Hrun|]. intros r [fut Hfut].
  unfold future_result in Hfut.
  destruct (urls !! fut) as [url|] eqn:Hurl; [|discriminate].
  pose proof (fetch_success_url _ _ _ _ _ Hfut) as <-.
  split; [by eapply list_elem_of_lookup_2|]. eauto.
Qed.

Lemma sequencer_fetched (E : session_env) (query : string)
    (max_sites max_total_time max_search_results : Z) (l : list scrape) :
  returned (scrape_multiple_sites_truly_parallel
              E query max_sites max_total_time max_search_results)
  = Ok (Some l) ->
  exists hits,
    scrape_searxng_local (backend E) query max_search_results = Ok hits
    /\ Forall (fun r =>
                 fetched_from (map href hits) r
                 \/ (PLAYWRIGHT_AVAILABLE E = true
                     /\ rendered_in (playwright_batch E) r)) l.
Proof.
  unfold scrape_multiple_sites_truly_parallel.
  destruct (scrape_searxng_local_hits (backend E) query max_search_results)
    as (hits & doms & -> & Hres).
  intros Hrun. exists hits. split; [done|].
  destruct hits as [|hit hits]; [discriminate|].
  apply filter_urls_resolved in Hres as [Hf _]. rewrite Hf in Hrun.
  cbn [map] in Hrun. revert Hrun.
  apply phase_1_results; [|by right].
  intros B urls timeout_per_site quota out ms Hsub Hrun.
  apply batch_parallel_fetched in Hrun.
  eapply Forall_impl; [exact Hrun|]. intros r [Hin Hfetch]. left.
  split; [by apply Hsub|done].
Qed.


End ProvenanceProperties.
(** * Properties of the bulk run *)

Lemma unique_by_url_spec (results : list scrape) :
  forall seen_urls : gset string,
    NoDup (map scrape_url (unique_by_url results seen_urls))
    /\ forall r, r ∈ unique_by_url results seen_urls ->
                 r ∈ results /\ scrape_url r ∉ seen_urls.
Proof.
  induction results as [|result rest IH]; intros seen_urls; cbn.
  - split; [constructor|]. intros r Hr. by apply elem_of_nil in Hr.
  - destruct (decide (scrape_url result ∈ seen_urls)) as [Hseen|Hnew].
    + destruct (IH seen_urls) as [Hnd Hin]. split; [done|].
      intros r Hr. destruct (Hin r Hr). split; [by right|done].
    + destruct (IH ({[scrape_url result]} ∪ seen_urls)) as [Hnd Hin].
      split.
      * cbn. apply NoDup_cons. split; [|done].
        intros (r & Hurl & Hr)%list_elem_of_fmap.
        destruct (Hin r Hr) as [_ Hfresh]. apply Hfresh.
        apply elem_of_union. left. by apply elem_of_singleton.
      * intros r [->|Hr]%elem_of_cons; [split; [by left|done]|].
        destruct (Hin r Hr) as [? Hfresh]. split; [by right|].
        intros Hseen. apply Hfresh. apply elem_of_union. by right.
Qed.

Lemma failed_rows_app (rows rows' : list csv_row) :
  failed_rows (rows ++ rows') = failed_rows rows + failed_rows rows'.
Proof. unfold failed_rows. by rewrite List.filter_app, length_app. Qed.

Lemma write_rows_ok (query : string) (unique_results : list scrape) :
  forall (site_idx : nat) (written : list csv_row),
    Forall (fun r => exists items, scrape_content r = PDict items)
           unique_results ->
    exists rows,
      write_rows query site_idx unique_results written
      = (Ok tt, written ++ rows)
      /\ map site_index rows = seq site_idx (length unique_results)
      /\ map row_url rows = map scrape_url unique_results
      /\ Forall (fun row =>
                   row_query row = query /\ status row = "SUCCESS"
                   /\ exists content,
                        scraped_content row = Some content
                        /\ py_get content "domain" (PStr "unknown")
                           = Ok (row_domain row)
                        /\ py_get content "type" (PStr "unknown")
                           = Ok (content_type row))
                rows.
Proof.
  induction unique_results as [|result rest IH];
    intros site_idx written Hdict; cbn [write_rows].
  - exists []. rewrite app_nil_r. repeat split; constructor.
  - apply Forall_cons in Hdict as [[items Hitems] Hdict].
    rewrite Hitems. cbn [py_get bind].
    destruct (IH (S site_idx)
                 (written ++
                  [CsvRow query site_idx (scrape_url result)
                          (scrape_method result)
                          (default (PStr "unknown") (assoc_get "domain" items))
                          (default (PStr "unknown") (assoc_get "type" items))
                          (Some (PDict items)) "SUCCESS"]) Hdict)
      as (rows & -> & Hidx & Hurl & Hall).
    eexists (_ :: rows). rewrite <- app_assoc. split; [reflexivity|].
    cbn [map site_index row_url length seq]. rewrite Hidx, Hurl.
    repeat split. constructor; [|done]. cbn.
    repeat split. by exists (PDict items).
Qed.

Section BulkProperties.
Context `{!Urllib} `{!Bs4} `{!Regex}.

Lemma sequencer_returns (E : session_env) (query : string)
    (max_sites max_total_time max_search_results : Z) :
  exists result,
    returned (scrape_multiple_sites_truly_parallel
                E query max_sites max_total_time max_search_results)
    = Ok result.
Proof.
  enough (raises (returned (scrape_multiple_sites_truly_parallel
                              E query max_sites max_total_time
                              max_search_results)) = false) as Hok.
  { destruct (returned _); [by eauto|discriminate]. }
  unfold scrape_multiple_sites_truly_parallel.
  destruct (scrape_searxng_local_hits (backend E) query max_search_results)
    as (hits & doms & -> & Hres).
  destruct hits as [|hit hits]; [done|].
  apply filter_urls_resolved in Hres as [-> Hparse].
  cbn [map]. apply phase_1_ok.
  change (href hit :: map href hits) with (href <$> hit :: hits).
  by apply Forall_fmap.
Qed.

Lemma extracted_is_dict (html url : string) (smart : pyval) :
  extracted html url = Ok smart -> exists items, smart = PDict items.
Proof. by intros [? _]%extract_smart_content_capped. Qed.

Lemma sequencer_contents_are_dicts (E : session_env) (query : string)
    (max_sites max_total_time max_search_results : Z) (l : list scrape) :
  rendered_by_playwright (playwright_batch E) ->
  returned (scrape_multiple_sites_truly_parallel
              E query max_sites max_total_time max_search_results)
  = Ok (Some l) ->
  Forall (fun r => exists items, scrape_content r = PDict items) l.
Proof.
  intros Hpw (hits & _ & Hall)%sequencer_fetched.
  eapply Forall_impl; [exact Hall|]. cbv beta.
  intros r [[_ (N & t & stop & Hrun)] | [_ [fut Hfut]]].
  - apply fetch_success_extracted in Hrun as [html Hsmart].
    by eapply extracted_is_dict.
  - destruct (Hpw fut) as (available & B & url & t & Heq).
    rewrite Heq in Hfut.
    apply playwright_success_extracted in Hfut as [_ [html Hsmart]].
    by eapply extracted_is_dict.
Qed.

Lemma bulk_loop_spec (world : nat -> session_env)
    (max_sites max_total_time : Z) (queries : list string) :
  (forall index, rendered_by_playwright (playwright_batch (world index))) ->
  forall (index : nat) (written : list csv_row) (successful failed : nat),
    let run := bulk_loop world max_sites max_total_time index queries
                         written successful failed in
    bulk_outcome run = Ok tt
    /\ successful_queries run + failed_queries run
       = successful + failed + length queries
    /\ failed_queries run + failed_rows written
       = failed + failed_rows (csv_rows run)
    /\ exists groups,
         csv_rows run = written ++ concat groups
         /\ Forall2 rows_of_query queries groups.
Proof.
  intros Hpw. induction queries as [|query rest IH];
    intros index written successful failed; cbn [bulk_loop].
  - cbn. repeat split; [lia..|]. exists []. by rewrite app_nil_r.
  - unfold scrape_multiple_sites_parallel.
    destruct (sequencer_returns (world index) query max_sites
                max_total_time 15) as [result Hrun].
    rewrite Hrun.
    assert (forall written',
               written' = written ++ [failed_row query] ->
               let run := bulk_loop world max_sites max_total_time (S index)
                            rest written' successful (S failed) in
               bulk_outcome run = Ok tt
               /\ successful_queries run + failed_queries run
                  = successful + failed + length (query :: rest)
               /\ failed_queries run + failed_rows written
                  = failed + failed_rows (csv_rows run)
               /\ exists groups,
                    csv_rows run = written ++ concat groups
                    /\ Forall2 rows_of_query (query :: rest) groups)
      as Hfailed.
    { intros written' ->.
      destruct (IH (S index) (written ++ [failed_row query]) successful
                   (S failed)) as (Hok & Hsum & Hrows & groups & Hcsv & Hall).
      cbv zeta. rewrite failed_rows_app in Hrows.
      change (failed_rows [failed_row query]) with 1 in Hrows.
      cbn [length]. repeat split; [done|lia|lia|].
      exists ([failed_row query] :: groups). split.
      - rewrite Hcsv, <- app_assoc. reflexivity.
      - constructor; [by left|done]. }
    destruct result as [[|first others]|]; [by apply Hfailed| |by apply Hfailed].
    apply sequencer_contents_are_dicts in Hrun; [|done].
    destruct (unique_by_url_spec (first :: others) ∅) as [Hnd Hsub].
    assert (unique_by_url (first :: others) ∅ <> []) as Hne by done.
    assert (Forall (fun r => exists items, scrape_content r = PDict items)
                   (unique_by_url (first :: others) ∅)) as Hdict.
    { apply Forall_forall. intros r [Hr _]%Hsub.
      rewrite Forall_forall in Hrun. by apply Hrun. }
    destruct (write_rows_ok query _ 1 written Hdict)
      as (rows & -> & Hidx & Hurl & Hall).
    destruct (IH (S index) (written ++ rows) (S successful) failed)
      as (Hok & Hsum & Hrows & groups & Hcsv & Hgroups).
    assert (length rows = length (unique_by_url (first :: others) ∅))
      as Hlen by (rewrite <- (length_map row_url), Hurl; apply length_map).
    assert (failed_rows rows = 0) as Hnone.
    { unfold failed_rows. clear -Hall.
      induction Hall as [|row rows (_ & Hs & _) _ IH]; [done|].
      cbn. by rewrite Hs. }
    rewrite failed_rows_app, Hnone in Hrows.
    cbn [length]. repeat split; [done|lia|lia|].
    exists (rows :: groups). split.
    + rewrite Hcsv, <- app_assoc. reflexivity.
    + constructor; [|done]. right. repeat split.
      * intros ->. by destruct (unique_by_url (first :: others) ∅).
      * by rewrite Hidx, Hlen.
      * by rewrite Hurl.
      * done.
Qed.

(** X22: when every rendered fetch is a run of
    [try_playwright_scrape_smart], [scrape_bulk_products_parallel] ends
    normally on every non-empty list of queries and raises
    [ZeroDivisionError], with a CSV file that holds the header alone, on
    the empty list; each query is counted once, as successful or as
    failed, and the file has as many [FAILED] rows as queries were
    counted failed. *)
Theorem scrape_bulk_products_parallel_outcome (world : nat -> session_env)
    (product_queries : list string) (max_sites max_total_time : Z) :
  (forall index, rendered_by_playwright (playwright_batch (world index))) ->
  let run := scrape_bulk_products_parallel world product_queries max_sites
                                           max_total_time in
  (product_queries = [] ->
   bulk_outcome run = Raise ZeroDivisionError /\ csv_rows run = [])
  /\ (product_queries <> [] -> bulk_outcome run = Ok tt)
  /\ successful_queries run + failed_queries run = length product_queries
  /\ failed_queries run = failed_rows (csv_rows run).
Proof.
  intros Hpw. cbv zeta. unfold scrape_bulk_products_parallel.
  destruct (bulk_loop_spec world max_sites max_total_time product_queries
              Hpw 1 [] 0 0) as (Hok & Hsum & Hrows & _).
  rewrite Hok. destruct product_queries as [|query rest].
  - cbn. repeat split; done.
  - change (length (query :: rest) =? 0) with false. cbv iota.
    repeat split; [done..|lia|].
    change (failed_rows []) with 0 in Hrows. lia.
Qed.


End BulkProperties.

(** * Concrete runs *)

#[local] Existing Instance permissive_urllib.
#[local] Existing Instance plain_text_bs4.
#[local] Existing Instance no_detail_regex.

(** C9, the claim as stated fails: the host [sub.www.example.com] is not
    left intact, and it is given the domain of [sub.example.com] although
    the two hosts differ once the scheme and a leading [www.] are removed
    and case is folded. *)
Lemma get_domain_inner_www_counterexample :
  urlparse_netloc "http://sub.www.example.com/" = Ok "sub.www.example.com"
  /\ urlparse_netloc "http://sub.example.com/" = Ok "sub.example.com"
  /\ strip_leading_www (str_lower "sub.www.example.com")
     <> strip_leading_www (str_lower "sub.example.com")
  /\ get_domain "http://sub.www.example.com/"
     = get_domain "http://sub.example.com/"
  /\ get_domain "http://sub.www.example.com/"
     <> Ok (strip_leading_www (str_lower "sub.www.example.com")).
Proof. repeat split; vm_compute; congruence. Qed.

Lemma get_domain_removes_every_www_witness :
  urlparse_netloc "https://www.Example.com/a" = Ok "www.Example.com"
  /\ urlparse_netloc "http://example.com/b" = Ok "example.com"
  /\ get_domain "https://www.Example.com/a" = Ok "example.com"
  /\ (get_domain "https://www.Example.com/a" = get_domain "http://example.com/b"
      <-> strip_leading_www (str_lower "www.Example.com")
          = strip_leading_www (str_lower "example.com")).
Proof.
  pose proof (get_domain_removes_every_www
                "https://www.Example.com/a" "http://example.com/b"
                "www.Example.com" "example.com" eq_refl eq_refl)
    as (_ & _ & Hstrip & Hsame).
  split; [reflexivity|]. split; [reflexivity|]. split.
  - exact (Hstrip eq_refl).
  - exact (Hsame eq_refl eq_refl).
Defined.

(** C4, the claim as stated fails: the first URL seen for the domain
    [reddit.com] is not kept. *)
Lemma filter_urls_blacklisted_counterexample :
  get_domain "https://www.reddit.com/r/python" = Ok "reddit.com"
  /\ filter_urls ["https://www.reddit.com/r/python"; "https://example.com/a"]
     = Ok ["https://example.com/a"].
Proof. split; reflexivity. Qed.

(** Without a scheme, [urlparse] finds no netloc: every such URL has the
    empty domain, and only the first of them is kept. *)
Example filter_urls_without_scheme :
  filter_urls ["a.com/1"; "a.com/2"; "b.com/1"] = Ok ["a.com/1"].
Proof. reflexivity. Qed.

Lemma filter_urls_keeps_first_allowed_witness :
  Forall2 (fun url domain => get_domain url = Ok domain)
          ["http://a.com/1"; "http://a.com/2"; "http://b.com/1"]
          ["a.com"; "a.com"; "b.com"]
  /\ filter_urls ["http://a.com/1"; "http://a.com/2"; "http://b.com/1"]
     = Ok ["http://a.com/1"; "http://b.com/1"].
Proof.
  assert (Forall2 (fun url domain => get_domain url = Ok domain)
            ["http://a.com/1"; "http://a.com/2"; "http://b.com/1"]
            ["a.com"; "a.com"; "b.com"]) as Hd
    by (repeat constructor).
  split; [exact Hd|].
  exact (filter_urls_keeps_first_allowed _ _ Hd).
Defined.

Lemma scrape_searxng_local_failure_is_empty_witness :
  backend_failed (NoReply ConnectionError) = true
  /\ scrape_searxng_local (fun _ => NoReply ConnectionError) "test" 10
     = Ok [].
Proof.
  split; [reflexivity|].
  exact (proj2 (scrape_searxng_local_failure_is_empty
                  (fun _ => NoReply ConnectionError) "test" 10) eq_refl).
Defined.

(** A reply with a duplicate domain, a blacklisted domain and an entry
    without URL, cut at two results. *)
Example scrape_searxng_local_example :
  scrape_searxng_local
    (fun _ =>
       Reply 200
         (Some (PDict
            [("results",
              PList [ PDict [("url", PStr "http://a.com/1")];
                      PDict [("url", PStr "http://www.a.com/2")];
                      PDict [("url", PStr "https://old.reddit.com/r/x")];
                      PDict [("title", PStr "no url")];
                      PDict [("url", PStr "http://b.com/1");
                             ("title", PStr "B")];
                      PDict [("url", PStr "http://c.com/1")] ])])))
    "test" 2
  = Ok [ SearchHit (PStr "No title available") "http://a.com/1"
                   (PStr "No description available");
         SearchHit (PStr "B") "http://b.com/1"
                   (PStr "No description available") ].
Proof. reflexivity. Qed.

(** With the event never set, the page is served by the fallback;
    with the event set before the fallback, or after its download, the
    fetcher returns null. *)
Lemma stop_event_set_returns_none_witness :
  (exists r,
     fst (try_scrape_smart_with_better_timeout
            served_by_fallback "https://example.com/a" 6
            (Some (fun _ => false))) = Ok (Some r)
     /\ scrape_method r = "trafilatura+smart")
  /\ (let run :=
        try_scrape_smart_with_better_timeout
          served_by_fallback "https://example.com/a" 6
          (Some (fun k => 3 <=? k)) in
      snd run = [false; false; false; true] /\ fst run = Ok None)
  /\ (let run :=
        try_scrape_smart_with_better_timeout
          served_by_fallback "https://example.com/a" 6
          (Some (fun k => 4 <=? k)) in
      snd run = [false; false; false; false; true] /\ fst run = Ok None)
  /\ (let run :=
        try_scrape_smart_with_better_timeout
          answered "https://example.com/a" 6 (Some (fun k => 2 <=? k)) in
      snd run = [false; false; true] /\ fst run = Ok None).
Proof.
  split; [eexists; split; reflexivity|].
  split; [|split]; (split; [reflexivity|]).
  - destruct (proj2 (proj2 (stop_event_set_returns_none served_by_fallback
                              "https://example.com/a" 6 (fun k => 3 <=? k)))
                     3 ltac:(lia) eq_refl)
      as [Hnone | [(_ & Hunset & _) | (_ & _ & r & _ & Hmethod)]].
    + exact Hnone.
    + reflexivity.
    + reflexivity.
  - destruct (proj2 (proj2 (stop_event_set_returns_none served_by_fallback
                              "https://example.com/a" 6 (fun k => 4 <=? k)))
                     4 ltac:(lia) eq_refl)
      as [Hnone | [(_ & Hunset & _) | (_ & _ & r & _ & Hmethod)]].
    + exact Hnone.
    + reflexivity.
    + reflexivity.
  - apply (proj1 (proj2 (stop_event_set_returns_none answered
                           "https://example.com/a" 6 (fun k => 2 <=? k)))).
    right. right. left.
Defined.

(** C1, the claim as stated fails: with a quota of 0 the dispatcher
    returns one result. *)
Lemma scrape_batch_parallel_quota_0_counterexample :
  exists r,
    scrape_batch_parallel quick_batch ["https://example.com/a"] 6 0
    = (Ok [r], 100%Z)
    /\ ~ (Z.of_nat (length [r]) <= 0)%Z.
Proof. eexists. split; [vm_compute; reflexivity|cbn; lia]. Qed.

Lemma scrape_batch_parallel_within_quota_witness :
  ["https://example.com/a"; "https://example.org/b"] <> []
  /\ (forall fut,
         raises (future_result quick_batch
                   ["https://example.com/a"; "https://example.org/b"] 6 fut)
         = false)
  /\ exists out,
       fst (scrape_batch_parallel quick_batch
              ["https://example.com/a"; "https://example.org/b"] 6 2)
       = Ok out.
Proof.
  assert (forall fut,
             raises (future_result quick_batch
                       ["https://example.com/a"; "https://example.org/b"] 6 fut)
             = false) as Hok
    by (intros [|[|fut]]; reflexivity).
  split; [discriminate|]. split; [exact Hok|].
  exact (proj2 (scrape_batch_parallel_within_quota quick_batch
                  ["https://example.com/a"; "https://example.org/b"] 6 2)
               ltac:(discriminate) Hok).
Defined.

(** C3, the failing input: a batch whose URL has an unbalanced bracket. *)
Lemma scrape_batch_parallel_reraises_witness :
  get_domain "http://[::1/" = Raise ValueError
  /\ fst (scrape_batch_parallel quick_batch ["http://[::1/"] 6 2)
     = Raise ValueError.
Proof.
  split; [reflexivity|].
  exact (scrape_batch_parallel_reraises quick_batch "http://[::1/" 6 2
           ValueError (Poll 100 [0]) [] eq_refl eq_refl eq_refl
           ltac:(by left)).
Defined.

(** C7, the failing input: the page that passes the test of the direct
    stage under a generic URL fails it under an Amazon URL. *)
Lemma amazon_overlay_fails_direct_test_witness :
  str_contains "amazon." "https://www.amazon.com/dp/1" = true
  /\ (exists smart,
         fst (extract_smart_content fox_page "https://shop.example/dp/1" [])
         = Ok smart
         /\ has_main_or_sections smart = true)
  /\ (exists smart,
         fst (extract_smart_content fox_page "https://www.amazon.com/dp/1" [])
         = Ok smart
         /\ has_main_or_sections smart = false).
Proof.
  split; [reflexivity|]. split.
  - eexists. split; reflexivity.
  - eexists. split; [reflexivity|].
    exact (amazon_overlay_fails_direct_test fox_page
             "https://www.amazon.com/dp/1" [] _ eq_refl eq_refl).
Defined.

(** C2, the failing input: with a global deadline of 5 s, the sequencer
    still dispatches the second phase 15.3 s after its start and returns
    after 15.5 s. *)
Theorem deadline_is_not_enforced :
  let run := scrape_multiple_sites_truly_parallel slow_session "test" 2 5 15 in
  phases_run run = [1; 2]
  /\ total_ms run = 15500%Z
  /\ (5 * 1000 < total_ms run)%Z
  /\ exists r, returned run = Ok (Some [r])
               /\ scrape_url r = "https://nine.example/p".
Proof.
  vm_compute. repeat split; try reflexivity. eexists. split; reflexivity.
Qed.

(** ** Runs of the further properties *)

Lemma get_domain_ignores_scheme_path_case_witness :
  get_domain "https://Example.COM/a" = get_domain "http://example.com?q=1".
Proof.
  exact (get_domain_ignores_scheme_path_case
           "https" "http" "Example.COM" "example.com" "/a" "?q=1"
           eq_refl eq_refl eq_refl eq_refl eq_refl eq_refl eq_refl).
Defined.

Lemma filter_urls_output_witness :
  filter_urls [ "http://a.com/1"; "https://www.reddit.com/r/x";
                "http://www.a.com/2"; "http://b.com/" ]
  = Ok ["http://a.com/1"; "http://b.com/"]
  /\ sublist ["http://a.com/1"; "http://b.com/"]
             [ "http://a.com/1"; "https://www.reddit.com/r/x";
               "http://www.a.com/2"; "http://b.com/" ].
Proof.
  split; [reflexivity|].
  exact (proj1 (filter_urls_output
                  [ "http://a.com/1"; "https://www.reddit.com/r/x";
                    "http://www.a.com/2"; "http://b.com/" ]
                  ["http://a.com/1"; "http://b.com/"] eq_refl)).
Defined.

Lemma filter_urls_idempotent_witness :
  filter_urls [ "http://a.com/1"; "https://www.reddit.com/r/x";
                "http://www.a.com/2"; "http://b.com/" ]
  = Ok ["http://a.com/1"; "http://b.com/"]
  /\ filter_urls ["http://a.com/1"; "http://b.com/"]
     = Ok ["http://a.com/1"; "http://b.com/"].
Proof.
  split; [reflexivity|].
  exact (filter_urls_idempotent
           [ "http://a.com/1"; "https://www.reddit.com/r/x";
             "http://www.a.com/2"; "http://b.com/" ]
           ["http://a.com/1"; "http://b.com/"] eq_refl).
Defined.

Lemma filter_urls_of_search_hits_witness :
  filter_urls (map href (SearchHit PNone "https://one.example/p" PNone
                         :: SearchHit PNone "https://two.example/p" PNone
                         :: []))
  = Ok ["https://one.example/p"; "https://two.example/p"].
Proof.
  exact (filter_urls_of_search_hits
           (fun _ => Reply 200
              (Some (PDict
                 [("results",
                   PList [ PDict [("url", PStr "https://one.example/p");
                                  ("title", PNone); ("content", PNone)];
                           PDict [("url", PStr "https://two.example/p");
                                  ("title", PNone); ("content", PNone)] ])])))
           "test" 10 _ eq_refl).
Defined.

(** With a limit of one hit the entry [5] is never looked at; with a
    limit of five it is, and the hit gathered before it is lost. *)
Lemma scrape_searxng_local_discards_on_malformed_witness :
  let backend := fun _ : string =>
    Reply 200
      (Some (PDict
         [("results",
           PList [ PDict [("url", PStr "http://a.com/1")]; PInt 5;
                   PDict [("url", PStr "http://b.com/1")] ])])) in
  (exists hit, scrape_searxng_local backend "test" 1 = Ok [hit])
  /\ scrape_searxng_local backend "test" 5 = Ok [].
Proof.
  split; [eexists; reflexivity|].
  exact (scrape_searxng_local_discards_on_malformed
           _ "test" 5 200
           [("results",
             PList [ PDict [("url", PStr "http://a.com/1")]; PInt 5;
                     PDict [("url", PStr "http://b.com/1")] ])]
           [PDict [("url", PStr "http://a.com/1")]]
           [PDict [("url", PStr "http://b.com/1")]] (PInt 5)
           [SearchHit (PStr "No title available") "http://a.com/1"
                      (PStr "No description available")]
           eq_refl eq_refl eq_refl eq_refl eq_refl ltac:(cbn; lia)).
Defined.

Lemma fetch_success_origin_witness :
  exists r,
    fst (try_scrape_smart_with_better_timeout
           answered "https://shop.example/dp/1" 6 None) = Ok (Some r)
    /\ scrape_url r = "https://shop.example/dp/1"
    /\ scrape_method r = "requests+smart".
Proof.
  eexists. split; [reflexivity|].
  pose proof (fetch_success_origin answered "https://shop.example/dp/1" 6 None
                _ eq_refl) as [Hurl _].
  split; [exact Hurl|reflexivity].
Defined.

Lemma fetch_get_error_skips_fallback_witness :
  fst (try_scrape_smart_with_better_timeout
         timed_out "https://shop.example/dp/1" 15 None) = Ok None.
Proof.
  exact (fetch_get_error_skips_fallback timed_out "https://shop.example/dp/1"
           15 None ConnectionError eq_refl eq_refl).
Defined.

Lemma scrape_batch_parallel_results_witness :
  exists out ms,
    scrape_batch_parallel quick_batch
      ["https://example.com/a"; "https://example.org/b"] 6 2 = (Ok out, ms)
    /\ length out <= 2.
Proof.
  eexists. eexists. split; [reflexivity|].
  exact (proj1 (scrape_batch_parallel_results quick_batch
                  ["https://example.com/a"; "https://example.org/b"] 6 2
                  _ _ eq_refl)).
Defined.

Lemma playwright_success_origin_witness :
  exists r,
    try_playwright_scrape_smart true rendered "https://shop.example/dp/1" 20
    = Ok (Some r)
    /\ scrape_url r = "https://shop.example/dp/1"
    /\ scrape_method r = "playwright+smart".
Proof.
  eexists. split; [reflexivity|].
  pose proof (playwright_success_origin true rendered
                "https://shop.example/dp/1" 20 _ eq_refl)
    as (_ & Hurl & Hmethod & _).
  split; [exact Hurl|exact Hmethod].
Defined.

Lemma playwright_absorbs_page_errors_witness :
  try_playwright_scrape_smart true failed_navigation
    "https://shop.example/dp/1" 20 = Ok None.
Proof.
  apply (playwright_absorbs_page_errors true failed_navigation
           "https://shop.example/dp/1" 20 eq_refl eq_refl).
  right. right. left. reflexivity.
Defined.


(** A rendered batch with a URL that [urlparse] rejects raises before
    any fetch is submitted. *)
Example scrape_batch_playwright_rejected_url :
  scrape_batch_playwright true rendered_batch
    ["https://one.example/p"; "http://[::1/"] 20 1
  = (Raise ValueError, 0%Z).
Proof. reflexivity. Qed.

Lemma sequencer_result_size_witness :
  exists l,
    returned (scrape_multiple_sites_truly_parallel slow_session "test" 2 5 15)
    = Ok (Some l)
    /\ 1 <= length l /\ (Z.of_nat (length l) <= 2)%Z.
Proof.
  assert (forall fut r,
             pw_result (playwright_batch slow_session) fut = Ok (Some r) ->
             raises (get_domain (scrape_url r)) = false) as Hpw
    by (intros fut r; discriminate).
  let run := eval vm_compute in
    (returned (scrape_multiple_sites_truly_parallel slow_session "test" 2 5 15))
  in match run with Ok (Some ?l) => exists l end.
  assert (returned (scrape_multiple_sites_truly_parallel
                      slow_session "test" 2 5 15) = Ok (Some _)) as Hrun
    by (vm_compute; reflexivity).
  split; [exact Hrun|].
  destruct (sequencer_result_size slow_session "test" 2 5 15 _
              ltac:(lia) Hpw Hrun) as (? & ? & _).
  split; assumption.
Defined.

Lemma scrape_single_site_one_witness :
  exists l,
    returned (scrape_single_site slow_session "test" 15) = Ok (Some l)
    /\ length l = 1.
Proof.
  assert (forall fut r,
             pw_result (playwright_batch slow_session) fut = Ok (Some r) ->
             raises (get_domain (scrape_url r)) = false) as Hpw
    by (intros fut r; discriminate).
  let run := eval vm_compute in
    (returned (scrape_single_site slow_session "test" 15))
  in match run with Ok (Some ?l) => exists l end.
  assert (returned (scrape_single_site slow_session "test" 15)
          = Ok (Some _)) as Hrun
    by (vm_compute; reflexivity).
  split; [exact Hrun|].
  exact (scrape_single_site_one slow_session "test" 15 _ Hpw Hrun).
Defined.

Lemma extract_smart_content_schema_witness :
  exists smart,
    fst (extract_smart_content fox_page "https://shop.example/dp/1" [])
    = Ok smart
    /\ get_item "url" smart = PStr "https://shop.example/dp/1"
    /\ get_item "type" smart = PStr "generic".
Proof.
  let run := eval vm_compute in
    (fst (extract_smart_content fox_page "https://shop.example/dp/1" []))
  in match run with Ok ?smart => exists smart end.
  assert (fst (extract_smart_content fox_page "https://shop.example/dp/1" [])
          = Ok _) as Hrun
    by (vm_compute; reflexivity).
  split; [exact Hrun|].
  destruct (proj2 (extract_smart_content_schema
                     fox_page "https://shop.example/dp/1" []) _ Hrun)
    as (Hurl & _ & _).
  split; [exact Hurl|reflexivity].
Defined.

Lemma extracted_fields_are_capped_witness :
  exists smart,
    fst (extract_smart_content fox_page "https://shop.example/dp/1" [])
    = Ok smart
    /\ py_len (get_item "main_content" smart) <= 1503.
Proof.
  let run := eval vm_compute in
    (fst (extract_smart_content fox_page "https://shop.example/dp/1" []))
  in match run with Ok ?smart => exists smart end.
  assert (fst (extract_smart_content fox_page "https://shop.example/dp/1" [])
          = Ok _) as Hrun
    by (vm_compute; reflexivity).
  split; [exact Hrun|].
  exact (proj1 (extracted_fields_are_capped
                  fox_page "https://shop.example/dp/1" [] _ Hrun)).
Defined.

Lemma sequencer_phase_order_witness :
  exists later,
    phases_run (scrape_multiple_sites_truly_parallel slow_session "test"
                  2 5 15) = 1 :: later
    /\ later_phases false 9 later.
Proof.
  destruct (sequencer_phase_order slow_session "test" 2 5 15)
    as (hits & Hhits & [(-> & _) | (_ & later & Hrun & Hlater)]).
  - vm_compute in Hhits. discriminate.
  - exists later. split; [exact Hrun|].
    assert (length hits = 9) as <-; [|exact Hlater].
    vm_compute in Hhits. by injection Hhits as <-.
Defined.

Lemma scrape_batch_parallel_distinct_witness :
  exists out ms,
    scrape_batch_parallel quick_batch
      ["https://example.com/a"; "https://example.org/b"] 6 2 = (Ok out, ms)
    /\ NoDup (map scrape_url out).
Proof.
  let run := eval vm_compute in
    (scrape_batch_parallel quick_batch
       ["https://example.com/a"; "https://example.org/b"] 6 2)
  in match run with (Ok ?out, ?ms) => exists out, ms end.
  assert (scrape_batch_parallel quick_batch
            ["https://example.com/a"; "https://example.org/b"] 6 2
          = (Ok _, _)) as Hrun
    by (vm_compute; reflexivity).
  split; [exact Hrun|].
  apply (proj2 (scrape_batch_parallel_distinct quick_batch
                  ["https://example.com/a"; "https://example.org/b"] 6 2
                  _ _ Hrun)).
  repeat constructor; rewrite ?elem_of_cons; intros Hin.
  - destruct Hin as [Heq|Hin]; [discriminate|]. by apply elem_of_nil in Hin.
  - by apply elem_of_nil in Hin.
Defined.


Lemma scrape_bulk_products_parallel_outcome_witness :
  bulk_outcome (scrape_bulk_products_parallel (fun _ => slow_session)
                  ["test"] 2 5) = Ok tt.
Proof.
  assert (forall index : nat,
             rendered_by_playwright (playwright_batch slow_session)) as Hpw
    by (intros index fut; by exists false, rendered, "", 0%Z).
  apply (scrape_bulk_products_parallel_outcome (fun _ => slow_session)
           ["test"] 2 5 Hpw).
  discriminate.
Defined.


(** The bulk run of one query in [slow_session]: one row, for the ninth
    site. *)
Example scrape_bulk_products_parallel_example :
  let run := scrape_bulk_products_parallel (fun _ => slow_session)
               ["test"] 2 5 in
  bulk_outcome run = Ok tt
  /\ successful_queries run = 1 /\ failed_queries run = 0
  /\ map (fun row => (site_index row, row_url row, status row)) (csv_rows run)
     = [(1, "https://nine.example/p", "SUCCESS")].
Proof. vm_compute. repeat split. Qed.

(** A reply with a status of 600 or more passes [resp.ok], so the direct
    stage extracts it. *)
Example direct_stage_on_status_600 :
  exists r,
    fst (try_scrape_smart_with_better_timeout
           answered_600 "https://shop.example/dp/1" 6 None) = Ok (Some r)
    /\ scrape_method r = "requests+smart".
Proof. eexists. split; reflexivity. Qed.
